(* ===== verification/_CoqProject ===== *)
-Q . S2P
Prelude.v
Loops.v
Base64.v
Image.v
Streamlit.v
Backend.v
Capture.v
World.v
Inference.v
Demo.v
ModelLoader.v
FrameLoop.v
Video.v
Webcam.v
FrameSource.v
ImageSource.v
PageSetup.v
App.v
Session.v
