(* ===== verification/Prelude.v ===== *)
(** * Verification of the aircraft-detection dashboard (streamlit-with-recognition)

    ** The program

    Two Python files.  [src/app.py] is a Streamlit script: every user
    action reruns it from the top.  A run reads the background picture and
    writes a style sheet that embeds it (lines 13-75), draws the sidebar
    and reads the model, the confidence and the data source from its
    widgets (78-119), loads the model inside a [try] (109-112) and calls
    one of the three sources of [src/utils.py] (121-128).
    [src/utils.py] holds the sources and what they share:
    [_display_detected_frames] (resize a frame, run the detector, overwrite
    the display slot), [load_model] (the constructor of the detector under
    [st.cache_resource]), [infer_uploaded_image], [infer_uploaded_video]
    and [infer_uploaded_webcam].  The detector (ultralytics), OpenCV, PIL
    and Streamlit are libraries the sources only call.

    ** The model

    A shallow embedding.  A Python statement is a function of the monad
    [M World A] of this file: it takes the world, returns an outcome (a
    value, a raised exception, or fuel exhausted) and the world it leaves,
    side effects made before a raise included.  The definitions keep the
    names of the sources; each is the translation of the lines its comment
    gives.

    - [Prelude] (this file): exceptions, outcomes, the monad with its
      notation, [try_except], the fuelled [while_loop], [for_each], reads
      of names that may be unbound, the Hoare rules for invariants, and
      the lemmas on strings and on Python's [int()] and indexing.
    - [Loops]: the same [while] statement one iteration at a time
      ([loop_next], [loop_iter]), and the proof that [while_loop] computes
      the iteration.
    - [Base64]: [base64.b64encode] written out (RFC 4648), a reference
      decoder, and the round trip.
    - [Image]: pictures as rows of pixels of channel values, the standard
      size [(720, int(720 * (9 / 16)))], the channel reversal
      [[:, :, ::-1]].
    - [Streamlit]: the page (elements in containers, display slots that
      are overwritten) and the values the widgets return.
    - [Backend]: the class [Backend], the interface to the libraries: the
      detector, the resize, the video decoder, the picture reader, the file
      system, as functions with the two contracts the specification states
      (no reported box below the confidence; a resize returns the size
      asked for).  [stub_backend] is an instance on which the theorems are
      run.
    - [Capture]: a [cv2.VideoCapture] object as a record (opened, feed,
      position, release count) with [read] and [release].
    - [World]: the state a run acts on (widget values, page, cache of
      models, models built, captures, camera, temporary files, log of
      detector calls) and every library call of the sources as a statement
      on it; the frame property that the components are proved to keep,
      [keeps_loader] (cache and models untouched), with its rules and
      tactic.
    - [Inference]: [_display_detected_frames] (utils.py 11-32).
    - [ModelLoader]: [load_model] and the decorator (utils.py 34-46).
    - [FrameLoop]: the loop body shared by the video and the camera source
      (utils.py 114-119 and 135-140).
    - [Video]: [infer_uploaded_video] (utils.py 91-121).
    - [Webcam]: [infer_uploaded_webcam] (utils.py 123-142).
    - [FrameSource]: the state machine of the specification's section 4.3
      and the simulation that relates the frame loop to it.
    - [ImageSource]: [infer_uploaded_image] (utils.py 48-89).
    - [PageSetup]: the script before its title (app.py 13-75).
    - [App]: the session controller, [main] (app.py 78-128), and the whole
      script, [script]; [config.py] is the record [Config].
    - [Session]: the runs of the script that one process makes, one for
      every user action ([rerun], [session]); each starts from the cache
      that the run before left, and the logs of the world go on.
    - [Demo]: the concrete inputs of the witnesses (a ten-frame video, a
      camera, pictures, widget values) and a second instance of
      [Backend] whose detector reports no box.

    ** The theorems

    - Inference step: what the world is on each of its three ways out;
      the detector is always given a 405 x 720 x 3 picture; reported boxes
      score at least the confidence.
    - Model loader: the same path gives the identical handle without a
      second load; a failed load leaves nothing; the cache invariant
      [cache_ok] holds through every call, and through every run of the
      script, also across reruns.
    - Video source: on a file of N frames the run makes exactly N detector
      calls in order, shows them in one slot, releases the capture once;
      it terminates with fuel N + 1; no exception leaves it.  When a frame
      fails the error is reported and the capture is never released; a
      file that does not decode is passed over without a report.
    - Camera source: the stop flag is read once, before the loop: the run
      the stop button starts opens the camera and never releases it, and a
      run that is not stopped cannot be stopped; a failing read ends the
      run with one release; a failing inference leaves the camera open.
    - Frame source machine: every run of the frame loop is a run of the
      machine under the code's release policy, and a run without stop or
      failure is a run of the specified machine, which keeps its balance
      (the handle is held exactly while running, every open has one
      release); for every feed and every detector the loop releases its
      capture when it is left by its [break] and in no other case, so the
      balance is lost exactly on a stop and on an exception
      ([FrameSource.frame_loop_releases_only_at_end]); a video of N frames that plays to its end is the
      run [Start], [Frame] N times, [EndOfStream], ending in [EXHAUSTED]
      with the handle released once
      ([FrameSource.video_run_reaches_exhausted], whose witness is the
      ten-frame scenario of the specification).
    - Image source: one detector call on the picture as uploaded, the two
      pictures side by side and one line per box; exceptions of
      [Image.open] and of the detector leave the function, the handler of
      its only [try] is unreachable; both display paths show the same
      colours.
    - Script: a whole run of the script on a video, from the background
      picture to the release of the capture ([App.script_plays_video]);
      the confidence lies in [0.30, 1.00]; the source at the selected
      position is the one called; a failed load leaves the name
      [model] unbound and the dispatch raises [NameError]; an empty source
      list raises [IndexError]; a missing background picture ends the run
      before anything is drawn, and these, with [Image.open] and the
      detector in the image source, are the only exceptions that end a
      run ([App.script_raises_only]); the style sheet embeds the picture
      byte for byte; with fuel for the video and for the camera the
      script ends ([App.script_terminates]).
    - Sessions: after any sequence of runs the cache invariant holds and
      no weights file was built twice
      ([Session.session_preserves_cache_ok]); the captures that stop
      clicks make and never release add up in the log, one for each
      click, with no release and no inference
      ([Session.stops_accumulate_open_captures]).

    ** Bounds and fuel

    The two [while] loops are the only recursion that is not structural.
    [while_loop fuel] allows [fuel] iterations; its test is evaluated even
    when no fuel is left, so a loop that ends needs no fuel for its last
    test.  Fuel is a parameter of the sources and of [main].  For the
    video source [Video.video_always_returns] shows that one unit more
    than the file has frames is enough, whatever the inferences do; for
    the camera source [Webcam.webcam_returns] shows the same for a feed
    that fails after finitely many frames, and [Webcam.webcam_never_stops]
    that no fuel is enough for a camera that never fails while the stop
    button is not clicked; [App.script_terminates] carries the two bounds
    to the whole script.  A result stated for a fuel holds for every
    larger one ([while_loop_fuel_mono]).
    Channel values, bytes and indices are [Z] and [nat]; no machine
    integer of the sources can overflow.  The confidence and the box
    coordinates are rationals: [float(v) / 100] is taken as the exact
    quotient, and [int(720 * (9 / 16))], the one float computation whose
    rounding matters, is also computed in binary64
    ([Image.standard_height_float_eq]).

    ** Not modelled

    The internals of the libraries: detection, decoding, resizing and
    picture reading are the fields of [Backend], constrained only by the
    two contracts; Streamlit is modelled as far as the sources use it
    (which elements a run creates, in which container, and what the
    widgets return), not its rendering or its server.
    Time is not modelled: the frame rate and the latency of a stop
    request are outside the development.  A stop request is a rerun of
    the script; what Streamlit does to a run in progress when the rerun
    arrives is not part of the sources and is not modelled: the model
    follows each run to its end.  A temporary file holds what was written
    to it as soon as it is written: the buffering of [tfile.write], which
    the sources never flush, is not modelled.  Captures and temporary
    files are Python objects local to a run; the world keeps them in logs
    that go on through a session, so that the calls of [release()] can be
    counted, and a capture counts as open until [release()] is called on
    it: what the destructors of the libraries free when an object is
    collected is not modelled.  The detector's results are those of
    detection weights, whose [boxes] is a list; weights of another task
    are outside the model.  [config.py] is not part of the sources: its
    constants are parameters. *)

(** The modelling language shared by every component: Python outcomes
    (a value, a raised exception, or fuel exhausted), the state-and-exception
    monad [M] in which the script's functions are written, [try_except],
    the fuelled [while_loop] with [Break]/[Continue], a small Hoare logic
    over [M] for invariants, and the few Python primitives the sources use
    ([int()] on a quotient, list indexing that raises [IndexError]). *)

From Stdlib Require Import ZArith QArith Lia.
From stdpp Require Import base option list strings.
Close Scope Q_scope.

(** ** Python exceptions *)

(** The exception values the sources can meet.  All are subclasses of
    Python's [Exception], hence caught by [except Exception]. *)
Inductive exn : Type :=
| NameError (name : string)
| UnboundLocalError (name : string)
| IndexError
| FileNotFoundError (path : string)
| LibraryError (msg : string).

#[export] Instance exn_eq_dec : EqDecision exn.
Proof. solve_decision. Defined.

(** [str(e)], as interpolated by an f-string. *)
Definition exn_str (e : exn) : string :=
  match e with
  | NameError name => "name '" +:+ name +:+ "' is not defined"
  | UnboundLocalError name =>
      "local variable '" +:+ name +:+ "' referenced before assignment"
  | FileNotFoundError path =>
      "[Errno 2] No such file or directory: '" +:+ path +:+ "'"
  | IndexError => "list index out of range"
  | LibraryError msg => msg
  end.

(** ** Outcomes and the monad *)

(** How a statement ends: normally with a value, by raising, or (model
    only) because the fuel bounding a [while] ran out. *)
Inductive outcome (A : Type) : Type :=
| Ok (a : A)
| Raise (e : exn)
| OutOfFuel.
Arguments Ok {A} a.
Arguments Raise {A} e.
Arguments OutOfFuel {A}.

(** A statement over a state [St]: the state it leaves is kept whatever
    the outcome, as Python keeps the side effects made before a raise. *)
Definition M (St A : Type) : Type := St → outcome A * St.

Definition ret {St A} (a : A) : M St A := λ s, (Ok a, s).

Definition bind {St A B} (c : M St A) (k : A → M St B) : M St B :=
  λ s, match c s with
       | (Ok a, s') => k a s'
       | (Raise e, s') => (Raise e, s')
       | (OutOfFuel, s') => (OutOfFuel, s')
       end.

Definition raise {St A} (e : exn) : M St A := λ s, (Raise e, s).

Definition get {St} : M St St := λ s, (Ok s, s).
Definition gets {St A} (f : St → A) : M St A := λ s, (Ok (f s), s).
Definition modify {St} (f : St → St) : M St unit := λ s, (Ok tt, f s).

(** A library call that either raises or returns. *)
Definition lift_res {St A} (r : exn + A) : M St A :=
  match r with
  | inl e => raise e
  | inr a => ret a
  end.

(** [try: body except Exception as e: handler e].  Fuel exhaustion is not
    an exception and passes through. *)
Definition try_except {St A} (body : M St A) (handler : exn → M St A) : M St A :=
  λ s, match body s with
       | (Raise e, s') => handler e s'
       | r => r
       end.

Declare Scope py_scope.
Delimit Scope py_scope with py.
Notation "x <- c ;; k" := (bind c (λ x, k))
  (at level 100, c at next level, right associativity) : py_scope.
Notation "c ;; k" := (bind c (λ _, k))
  (at level 100, right associativity) : py_scope.
Open Scope py_scope.

(** ** Loops *)

Inductive loop_ctl : Type := Continue | Break.

(** [while cond: body], where [body] says whether it ended by [break].
    [fuel] bounds the number of iterations: the test is always evaluated,
    and the loop runs out of fuel only when the test asks for one more
    iteration than [fuel] allows. *)
Fixpoint while_loop {St} (fuel : nat) (cond : M St bool) (body : M St loop_ctl)
  : M St unit :=
  b <- cond ;;
  if b : bool then
    match fuel with
    | O => λ s, (OutOfFuel, s)
    | S fuel' =>
        c <- body ;;
        match c with
        | Continue => while_loop fuel' cond body
        | Break => ret tt
        end
    end
  else ret tt.

(** [for x in l: body x] *)
Fixpoint for_each {St A} (l : list A) (body : A → M St unit) : M St unit :=
  match l with
  | [] => ret tt
  | x :: l' => body x ;; for_each l' body
  end.

(** ** Python primitives *)

(** Reading a module-level name that an earlier statement binds only when
    it completes: [None] is the name left unbound. *)
Definition global_var {St A} (name : string) (v : option A) : M St A :=
  match v with
  | Some a => ret a
  | None => raise (NameError name)
  end.

(** The same for a local variable of a function. *)
Definition local_var {St A} (name : string) (v : option A) : M St A :=
  match v with
  | Some a => ret a
  | None => raise (UnboundLocalError name)
  end.

(** Truth value of a string or [None] in a condition. *)
Definition truthy (s : option string) : bool :=
  match s with
  | Some s => negb (String.eqb s "")
  | None => false
  end.

(** [int(q)] for a float holding the rational [q]: truncation toward zero. *)
Definition py_int (q : Q) : Z := Z.quot (Qnum q) (Z.pos (Qden q)).

(** [l[i]] for a non-negative index. *)
Definition py_index {A} (l : list A) (i : nat) : exn + A :=
  match l !! i with
  | Some a => inr a
  | None => inl IndexError
  end.

(** ** Predicates on outcomes *)

Definition is_ok {A} (o : outcome A) : bool :=
  match o with Ok _ => true | _ => false end.

Definition terminated {A} (o : outcome A) : Prop := o ≠ OutOfFuel.

#[export] Instance terminated_dec {A} (o : outcome A) : Decision (terminated o).
Proof. destruct o; [left | left | right]; unfold terminated; congruence. Defined.

(** ** Hoare triples over [M] *)

(** [hoare P c Q]: from a state satisfying [P], [c] ends (whatever the
    outcome) in a state and outcome related by [Q]. *)
Definition hoare {St A} (P : St → Prop) (c : M St A) (Q : outcome A → St → Prop)
  : Prop :=
  ∀ s, P s → Q (c s).1 (c s).2.

(** A state property that every outcome of [c] preserves. *)
Definition preserves {St A} (I : St → Prop) (c : M St A) : Prop :=
  hoare I c (λ _ s', I s').

(** ** Automation *)

Create HintDb py discriminated.
Create Rewrite HintDb py.

(** Unfold the monad's operations in the goal and in the hypotheses. *)
Ltac munfold :=
  unfold bind, ret, raise, get, gets, modify, lift_res, try_except in *.

(** Case analysis on the first monadic call whose result is scrutinised. *)
Ltac mcase :=
  match goal with
  | |- context [match ?c ?s with (_, _) => _ end] =>
      let o := fresh "o" in let s' := fresh "s'" in
      let E := fresh "E" in
      destruct (c s) as [o s'] eqn:E; try destruct o; simpl in *
  end.

(** ** Laws of the monad (pointwise, so no extensionality is needed) *)

Section Laws.
Context {St A B C : Type}.
Implicit Types (s : St) (a : A).

Lemma bind_ret_l a (k : A → M St B) s : bind (ret a) k s = k a s.
Proof. reflexivity. Qed.

Lemma bind_ret_r (c : M St A) s : bind c ret s = c s.
Proof. unfold bind, ret. by destruct (c s) as [[] ?]. Qed.

Lemma bind_assoc (c : M St A) (k : A → M St B) (h : B → M St C) s :
  bind (bind c k) h s = bind c (λ a, bind (k a) h) s.
Proof. unfold bind. by destruct (c s) as [[] ?]. Qed.

Lemma bind_ok (c : M St A) (k : A → M St B) s a s' :
  c s = (Ok a, s') → bind c k s = k a s'.
Proof. unfold bind. by intros ->. Qed.

Lemma bind_raise (c : M St A) (k : A → M St B) s e s' :
  c s = (Raise e, s') → bind c k s = (Raise e, s').
Proof. unfold bind. by intros ->. Qed.

Lemma bind_out_of_fuel (c : M St A) (k : A → M St B) s s' :
  c s = (OutOfFuel, s') → bind c k s = (OutOfFuel, s').
Proof. unfold bind. by intros ->. Qed.

Lemma try_except_ok (c : M St A) h s a s' :
  c s = (Ok a, s') → try_except c h s = (Ok a, s').
Proof. unfold try_except. by intros ->. Qed.

Lemma try_except_raise (c : M St A) h s e s' :
  c s = (Raise e, s') → try_except c h s = h e s'.
Proof. unfold try_except. by intros ->. Qed.

Lemma try_except_out_of_fuel (c : M St A) h s s' :
  c s = (OutOfFuel, s') → try_except c h s = (OutOfFuel, s').
Proof. unfold try_except. by intros ->. Qed.

(** A handler that cannot raise makes the whole [try] exception-free. *)
Lemma try_except_no_raise (c : M St A) h s :
  (∀ e s1 e', (h e s1).1 ≠ Raise e') →
  ∀ e', (try_except c h s).1 ≠ Raise e'.
Proof.
  intros Hh e'. unfold try_except.
  destruct (c s) as [[a|e|] s1]; simpl; [done | apply Hh | done].
Qed.

(** A statement that neither raises nor runs out of fuel returns. *)
Lemma returns_ok (o : outcome unit) :
  terminated o → (∀ e, o ≠ Raise e) → o = Ok tt.
Proof. destruct o as [[]|e|]; [done | by intros _ He; destruct (He e) | done]. Qed.

(** A [try] terminates when its body and its handler do. *)
Lemma try_except_terminated (c : M St A) h s :
  terminated (c s).1 → (∀ e s1, terminated (h e s1).1) →
  terminated (try_except c h s).1.
Proof.
  intros Hc Hh. unfold try_except.
  destruct (c s) as [[a|e|] s1]; simpl in *; [done | apply Hh | done].
Qed.

End Laws.

#[export] Hint Rewrite @bind_ret_l @bind_ret_r @bind_assoc : py.

(** ** Loops: unfolding and fuel *)

Section Loops.
Context {St : Type}.
Implicit Types (s : St) (cond : M St bool) (body : M St loop_ctl).

Lemma while_loop_unfold fuel cond body s :
  while_loop (S fuel) cond body s =
  match cond s with
  | (Ok true, s1) =>
      match body s1 with
      | (Ok Continue, s2) => while_loop fuel cond body s2
      | (Ok Break, s2) => (Ok tt, s2)
      | (Raise e, s2) => (Raise e, s2)
      | (OutOfFuel, s2) => (OutOfFuel, s2)
      end
  | (Ok false, s1) => (Ok tt, s1)
  | (Raise e, s1) => (Raise e, s1)
  | (OutOfFuel, s1) => (OutOfFuel, s1)
  end.
Proof.
  simpl. unfold bind, ret.
  destruct (cond s) as [[[]|?|] s1]; try done.
  by destruct (body s1) as [[[]|?|] s2].
Qed.

Lemma while_loop_0 cond body s :
  while_loop 0 cond body s =
  match cond s with
  | (Ok true, s1) => (OutOfFuel, s1)
  | (Ok false, s1) => (Ok tt, s1)
  | (Raise e, s1) => (Raise e, s1)
  | (OutOfFuel, s1) => (OutOfFuel, s1)
  end.
Proof. simpl. unfold bind, ret. by destruct (cond s) as [[[]|?|] s1]. Qed.

(** A loop whose test fails at once runs no iteration and needs no fuel. *)
Lemma while_loop_false fuel cond body s s1 :
  cond s = (Ok false, s1) → while_loop fuel cond body s = (Ok tt, s1).
Proof.
  intros Hc. destruct fuel; [rewrite while_loop_0 | rewrite while_loop_unfold];
    by rewrite Hc.
Qed.

(** More fuel never changes the result of a loop that has terminated. *)
Lemma while_loop_fuel_mono fuel fuel' cond body s :
  fuel ≤ fuel' →
  terminated (while_loop fuel cond body s).1 →
  while_loop fuel' cond body s = while_loop fuel cond body s.
Proof.
  revert fuel' s. induction fuel as [|fuel IH]; intros fuel' s Hle Ht.
  - rewrite while_loop_0 in Ht |- *.
    destruct (cond s) as [[[]|?|] s1] eqn:Hc; simpl in Ht; try done.
    + by apply while_loop_false.
    + destruct fuel'; [rewrite while_loop_0 | rewrite while_loop_unfold];
        by rewrite Hc.
  - destruct fuel' as [|fuel']; [lia|].
    rewrite (while_loop_unfold fuel) in Ht. rewrite !while_loop_unfold.
    destruct (cond s) as [[[]|?|] s1]; try done.
    destruct (body s1) as [[[]|?|] s2]; try done.
    apply IH; [lia | done].
Qed.

(** Loop invariant rule: an invariant of the test and of the body is an
    invariant of the loop, whatever its outcome and fuel. *)
Lemma while_loop_preserves (I : St → Prop) fuel cond body :
  preserves I cond → preserves I body →
  preserves I (while_loop fuel cond body).
Proof.
  intros Hc Hb. induction fuel as [|fuel IH]; intros s Hs;
    [rewrite while_loop_0 | rewrite while_loop_unfold];
    specialize (Hc s Hs); destruct (cond s) as [[[]|?|] s1]; simpl in *;
    try done.
  specialize (Hb s1 Hc). destruct (body s1) as [[[]|?|] s2]; simpl in *; try done.
  by apply IH.
Qed.

End Loops.

Section ForEach.
Context {St A : Type}.
Implicit Types (s : St) (l : list A) (body : A → M St unit).

(** A [for] whose body only updates the state is a left fold. *)
Lemma for_each_modify l (f : A → St → St) s :
  for_each l (λ x, modify (f x)) s = (Ok tt, foldl (λ s x, f x s) s l).
Proof. revert s. induction l as [|x l IH]; intros s; [done|]. apply IH. Qed.

Lemma for_each_app l1 l2 body s :
  for_each (l1 ++ l2) body s = (for_each l1 body ;; for_each l2 body) s.
Proof.
  revert s. induction l1 as [|x l1 IH]; intros s; simpl; [done|].
  unfold bind in *. destruct (body x s) as [[[]|?|] s1]; [apply IH|done..].
Qed.

Lemma for_each_preserves (I : St → Prop) l body :
  (∀ x, preserves I (body x)) → preserves I (for_each l body).
Proof.
  intros Hb. induction l as [|x l IH]; intros s Hs; [done|]. simpl. unfold bind.
  specialize (Hb x s Hs). destruct (body x s) as [[[]|?|] s1]; simpl in *;
    try done.
  by apply IH.
Qed.

(** A [for] over a list always ends when its body does. *)
Lemma for_each_terminated l body s :
  (∀ x s1, terminated (body x s1).1) → terminated (for_each l body s).1.
Proof.
  intros Hb. revert s. induction l as [|x l IH]; intros s; [done|].
  simpl. unfold bind. specialize (Hb x s).
  destruct (body x s) as [[[]|?|] s1]; simpl in *; [apply IH|done..].
Qed.

End ForEach.

(** ** Hoare rules *)

Section Hoare.
Context {St : Type}.
Implicit Types (P I : St → Prop).

Lemma preserves_ret {A} I (a : A) : preserves I (ret a).
Proof. by intros s Hs. Qed.

Lemma preserves_raise {A} I e : preserves I (raise (A:=A) e).
Proof. by intros s Hs. Qed.

Lemma preserves_lift_res {A} I (r : exn + A) : preserves I (lift_res r).
Proof. destruct r; [apply preserves_raise | apply preserves_ret]. Qed.

Lemma preserves_gets {A} I (f : St → A) : preserves I (gets f).
Proof. by intros s Hs. Qed.

Lemma preserves_modify I (f : St → St) :
  (∀ s, I s → I (f s)) → preserves I (modify f).
Proof. intros Hf s Hs. by apply Hf. Qed.

Lemma preserves_bind {A B} I (c : M St A) (k : A → M St B) :
  preserves I c → (∀ a, preserves I (k a)) → preserves I (bind c k).
Proof.
  intros Hc Hk s Hs. unfold bind. specialize (Hc s Hs).
  destruct (c s) as [[a|?|] s1]; simpl in *; try done.
  by apply Hk.
Qed.

Lemma preserves_try_except {A} I (c : M St A) h :
  preserves I c → (∀ e, preserves I (h e)) → preserves I (try_except c h).
Proof.
  intros Hc Hh s Hs. unfold try_except. specialize (Hc s Hs).
  destruct (c s) as [[a|e|] s1]; simpl in *; try done.
  by apply Hh.
Qed.

Lemma preserves_if {A} I (b : bool) (c1 c2 : M St A) :
  preserves I c1 → preserves I c2 → preserves I (if b then c1 else c2).
Proof. by destruct b. Qed.

End Hoare.

#[export] Hint Resolve preserves_ret preserves_raise preserves_lift_res
  preserves_gets preserves_bind preserves_try_except preserves_if
  while_loop_preserves for_each_preserves : py.

(** ** Strings *)

Lemma string_length_app (s t : string) :
  String.length (s +:+ t) = String.length s + String.length t.
Proof. induction s as [|c s IH]; simpl; [done | by rewrite IH]. Qed.

(** The part of [a + b] after [a] is a part of [b]. *)
Lemma substring_app_skip (a b : string) n :
  String.substring (String.length a) n (a +:+ b) = String.substring 0 n b.
Proof. induction a as [|c a IH]; simpl; [done | apply IH]. Qed.

(** The first characters of [s + t] are [s]. *)
Lemma substring_app_prefix (s t : string) :
  String.substring 0 (String.length s) (s +:+ t) = s.
Proof.
  induction s as [|c s IH]; simpl; [by destruct t | by rewrite IH].
Qed.

(** Cutting [a] and [b] off [a + s + b] leaves [s]. *)
Lemma substring_between (a s b : string) :
  String.substring (String.length a)
    (String.length (a +:+ s +:+ b) - String.length a - String.length b)
    (a +:+ s +:+ b) = s.
Proof.
  rewrite substring_app_skip, !string_length_app.
  replace (_ - _ - _) with (String.length s) by lia.
  apply substring_app_prefix.
Qed.

(** ** Python primitives: facts *)

Lemma truthy_Some s : truthy (Some s) = bool_decide (s ≠ "").
Proof.
  simpl. destruct (String.eqb_spec s EmptyString) as [Hs|Hs]; simpl.
  - by rewrite bool_decide_false by auto.
  - by rewrite bool_decide_true.
Qed.

Lemma py_int_inject (z : Z) : py_int (inject_Z z) = z.
Proof. unfold py_int. simpl. apply Z.quot_1_r. Qed.

Lemma py_index_Some {A} (l : list A) i a : l !! i = Some a → py_index l i = inr a.
Proof. unfold py_index. by intros ->. Qed.

Lemma py_index_out_of_range {A} (l : list A) i :
  length l ≤ i → py_index l i = inl IndexError.
Proof. intros H. unfold py_index. by rewrite lookup_ge_None_2. Qed.

Lemma py_index_in_range {A} (l : list A) i :
  i < length l → ∃ a, py_index l i = inr a ∧ l !! i = Some a.
Proof.
  intros H. destruct (lookup_lt_is_Some_2 l i H) as [a Ha].
  exists a. by rewrite (py_index_Some _ _ _ Ha).
Qed.
