(* ===== verification/Loops.v ===== *)
(** * Loops, one iteration at a time

    A second reading of [while cond: body]: the configurations a loop goes
    through, one per evaluation of its test, and the function that takes
    the loop from one configuration to the next.  The fuelled [while_loop]
    of the prelude is shown to compute exactly the iteration of that
    function, so that what is proved of single iterations (the simulation
    of [FrameSource.v]) holds of the statements the sources are written
    with. *)

From Stdlib Require Import Lia.
From stdpp Require Import base option list relations.
From S2P Require Import Prelude.

(** ** Configurations *)

(** Where a loop stands: at its head with the state [s]; left because the
    test was false; left by [break]; left by an exception (of the test or
    of the body); or, in the model only, out of fuel. *)
Inductive loop_state (St : Type) : Type :=
| Looping (s : St)
| Left (s : St)
| Broke (s : St)
| Raised (e : exn) (s : St)
| Starved (s : St).
Arguments Looping {St} s.
Arguments Left {St} s.
Arguments Broke {St} s.
Arguments Raised {St} e s.
Arguments Starved {St} s.

Section Loops.
Context {St : Type} (cond : M St bool) (body : M St loop_ctl).
Implicit Types (s : St) (c : loop_state St).

(** One evaluation of the test and, when it holds, of the body.  [Starved]
    stands for a test or a body that itself ran out of fuel. *)
Definition loop_next (s : St) : loop_state St :=
  match cond s with
  | (Ok true, s1) =>
      match body s1 with
      | (Ok Continue, s2) => Looping s2
      | (Ok Break, s2) => Broke s2
      | (Raise e, s2) => Raised e s2
      | (OutOfFuel, s2) => Starved s2
      end
  | (Ok false, s1) => Left s1
  | (Raise e, s1) => Raised e s1
  | (OutOfFuel, s1) => Starved s1
  end.

(** A step of the loop: from its head to the next configuration. *)
Inductive loop_step : loop_state St → loop_state St → Prop :=
| loop_step_next s : loop_step (Looping s) (loop_next s).

(** At most [n] steps. *)
Fixpoint loop_iter (n : nat) (c : loop_state St) : loop_state St :=
  match n, c with
  | S n', Looping s => loop_iter n' (loop_next s)
  | _, _ => c
  end.

(** The outcome and the state a configuration stands for; a loop still at
    its head has not ended. *)
Definition loop_result (c : loop_state St) : outcome unit * St :=
  match c with
  | Looping s => (OutOfFuel, s)
  | Left s => (Ok tt, s)
  | Broke s => (Ok tt, s)
  | Raised e s => (Raise e, s)
  | Starved s => (OutOfFuel, s)
  end.

(** The last evaluation of the test, when the iterations allowed leave the
    loop at its head: a false test ends the loop, a true one asks for an
    iteration there is no fuel for. *)
Definition loop_finish (c : loop_state St) : loop_state St :=
  match c with
  | Looping s =>
      match cond s with
      | (Ok false, s1) => Left s1
      | (Raise e, s1) => Raised e s1
      | (_, s1) => Starved s1
      end
  | _ => c
  end.

(** The configuration is one in which the loop has ended. *)
Definition loop_ended (c : loop_state St) : bool :=
  match c with
  | Looping _ | Starved _ => false
  | _ => true
  end.

(** ** Facts *)

Lemma loop_iter_ended n c : loop_ended c = true → loop_iter n c = c.
Proof. by destruct n, c. Qed.

Lemma loop_iter_S n s :
  loop_iter (S n) (Looping s) = loop_iter n (loop_next s).
Proof. reflexivity. Qed.

Lemma loop_iter_add n m c : loop_iter (n + m) c = loop_iter m (loop_iter n c).
Proof.
  revert c. induction n as [|n IH]; intros c; [done|].
  destruct c; simpl; [apply IH | by destruct m..].
Qed.

(** Steps and iteration agree. *)
Lemma loop_iter_steps n c : rtc loop_step c (loop_iter n c).
Proof.
  revert c. induction n as [|n IH]; intros c; [done|].
  destruct c as [s| | | |]; simpl; try done.
  eapply rtc_l; [constructor | apply IH].
Qed.

Lemma loop_steps_iter c c' : rtc loop_step c c' → ∃ n, c' = loop_iter n c.
Proof.
  induction 1 as [c|c1 c2 c3 Hs _ [n ->]]; [by exists 0|].
  destruct Hs. by exists (S n).
Qed.

(** A configuration that has ended takes no step. *)
Lemma loop_step_ended c c' : loop_step c c' → loop_ended c = false.
Proof. by destruct 1. Qed.

(** The steps are deterministic. *)
Lemma loop_step_det c c1 c2 : loop_step c c1 → loop_step c c2 → c1 = c2.
Proof. intros H1 H2. inversion H1; inversion H2; congruence. Qed.

(** The fuelled loop is the iteration of [loop_next]: [fuel] steps, and
    one more evaluation of the test when they leave the loop at its head.
    The two agree on the outcome and on the state, in every case. *)
Lemma while_loop_iter fuel s :
  while_loop fuel cond body s =
  loop_result (loop_finish (loop_iter fuel (Looping s))).
Proof.
  revert s. induction fuel as [|fuel IH]; intros s.
  - rewrite while_loop_0. simpl. by destruct (cond s) as [[[]|?|] s1].
  - rewrite while_loop_unfold, loop_iter_S. unfold loop_next.
    destruct (cond s) as [[[]|?|] s1]; try by destruct fuel.
    by destruct (body s1) as [[[]|?|] s2]; try by destruct fuel.
Qed.

(** A loop that has ended within [n] steps is what the statement computes
    with any fuel from [n] on. *)
Lemma while_loop_ended n fuel s :
  loop_ended (loop_iter n (Looping s)) = true → n ≤ fuel →
  while_loop fuel cond body s = loop_result (loop_iter n (Looping s)).
Proof.
  intros He Hle. rewrite while_loop_iter.
  replace fuel with (n + (fuel - n)) by lia.
  rewrite loop_iter_add, loop_iter_ended by done.
  by destruct (loop_iter n (Looping s)).
Qed.

End Loops.
