(* ===== verification/Base64.v ===== *)
(** * Base64

    The encoding that [get_image_base64] of [src/app.py] (line 15) applies
    to the bytes of the background picture: [base64.b64encode], the
    standard alphabet of RFC 4648 with padding, followed by [.decode()],
    which turns the ASCII bytes into a string.  The sources only call it;
    it is written out here so that what the page embeds can be computed,
    with a reference decoder and the theorem that decoding gives the bytes
    back. *)

From Stdlib Require Import ZArith Lia Ascii String.
From stdpp Require Import base option list strings.
From S2P Require Import Prelude.
Local Open Scope Z_scope.

(** ** Groups of three bytes *)

(** A byte. *)
Definition is_byte (b : Z) : Prop := 0 ≤ b < 256.

#[export] Instance is_byte_dec b : Decision (is_byte b).
Proof. unfold is_byte. apply _. Defined.

(** Three bytes as one 24-bit number, first byte on top. *)
Definition group (b0 b1 b2 : Z) : Z := b0 * 65536 + b1 * 256 + b2.

(** The [i]-th of the four 6-bit fields of a 24-bit number. *)
Definition sextet (n i : Z) : Z := (n / 2 ^ (18 - 6 * i)) mod 64.

(** The [i]-th of its three bytes. *)
Definition octet (n i : Z) : Z := (n / 2 ^ (16 - 8 * i)) mod 256.

(** Four 6-bit fields as one number. *)
Definition ungroup (s0 s1 s2 s3 : Z) : Z :=
  s0 * 262144 + s1 * 4096 + s2 * 64 + s3.

(** ** The alphabet *)

Definition b64_alphabet : list ascii :=
  list_ascii_of_string
    "ABCDEFGHIJKLMNOPQRSTUVWXYZabcdefghijklmnopqrstuvwxyz0123456789+/".

Definition b64_pad : ascii := "="%char.

(** The character of a 6-bit value. *)
Definition b64_char (s : Z) : ascii :=
  default b64_pad (b64_alphabet !! Z.to_nat s).

(** The 6-bit value of a character of the alphabet. *)
Definition b64_index (c : ascii) : option Z :=
  (λ r, Z.of_nat r.1) <$> list_find (λ x, x = c) b64_alphabet.

(** ** Encoding *)

(** [base64.b64encode(bs).decode()] *)
Fixpoint b64encode (bs : list Z) : string :=
  match bs with
  | [] => EmptyString
  | [b0] =>
      let n := group b0 0 0 in
      String (b64_char (sextet n 0)) (String (b64_char (sextet n 1))
        (String b64_pad (String b64_pad EmptyString)))
  | [b0; b1] =>
      let n := group b0 b1 0 in
      String (b64_char (sextet n 0)) (String (b64_char (sextet n 1))
        (String (b64_char (sextet n 2)) (String b64_pad EmptyString)))
  | b0 :: b1 :: b2 :: rest =>
      let n := group b0 b1 b2 in
      String (b64_char (sextet n 0)) (String (b64_char (sextet n 1))
        (String (b64_char (sextet n 2)) (String (b64_char (sextet n 3))
          (b64encode rest))))
  end.

(** ** A reference decoder *)

(** The bytes of one group of four characters; padding is accepted in the
    last group only. *)
Definition b64decode_group (c0 c1 c2 c3 : ascii) (last : bool)
  : option (list Z) :=
  s0 ← b64_index c0; s1 ← b64_index c1;
  if decide (c3 = b64_pad) then
    if last then
      if decide (c2 = b64_pad) then
        Some [octet (ungroup s0 s1 0 0) 0]
      else
        s2 ← b64_index c2;
        let n := ungroup s0 s1 s2 0 in Some [octet n 0; octet n 1]
    else None
  else
    s2 ← b64_index c2; s3 ← b64_index c3;
    let n := ungroup s0 s1 s2 s3 in Some [octet n 0; octet n 1; octet n 2].

Fixpoint b64decode (s : string) : option (list Z) :=
  match s with
  | EmptyString => Some []
  | String c0 (String c1 (String c2 (String c3 rest))) =>
      bs ← b64decode_group c0 c1 c2 c3 (bool_decide (rest = EmptyString));
      rest' ← b64decode rest;
      Some (bs ++ rest')
  | _ => None
  end.

(** ** Facts *)

(** The fields are bit fields: a shift and a mask. *)
Lemma sextet_bits n i :
  0 ≤ i ≤ 3 → sextet n i = Z.land (Z.shiftr n (18 - 6 * i)) 63.
Proof.
  intros Hi. unfold sextet.
  rewrite Z.shiftr_div_pow2 by lia. change 63 with (Z.ones 6).
  by rewrite Z.land_ones by lia.
Qed.

Lemma octet_bits n i :
  0 ≤ i ≤ 2 → octet n i = Z.land (Z.shiftr n (16 - 8 * i)) 255.
Proof.
  intros Hi. unfold octet.
  rewrite Z.shiftr_div_pow2 by lia. change 255 with (Z.ones 8).
  by rewrite Z.land_ones by lia.
Qed.

Lemma sextet_range n i : 0 ≤ sextet n i < 64.
Proof. unfold sextet. by apply Z.mod_pos_bound. Qed.

Lemma octet_range n i : is_byte (octet n i).
Proof. unfold octet, is_byte. by apply Z.mod_pos_bound. Qed.

(** The four fields of a group of bytes make up the group, and its bytes
    are the bytes it was made of. *)
Lemma ungroup_sextets b0 b1 b2 :
  is_byte b0 → is_byte b1 → is_byte b2 →
  let n := group b0 b1 b2 in
  ungroup (sextet n 0) (sextet n 1) (sextet n 2) (sextet n 3) = n.
Proof.
  unfold is_byte, group, ungroup, sextet. intros H0 H1 H2; simpl.
  change (2 ^ 18) with 262144. change (2 ^ 12) with 4096.
  change (2 ^ 6) with 64. change (2 ^ 0) with 1.
  Z.div_mod_to_equations. lia.
Qed.

Lemma octets_group b0 b1 b2 :
  is_byte b0 → is_byte b1 → is_byte b2 →
  let n := group b0 b1 b2 in
  octet n 0 = b0 ∧ octet n 1 = b1 ∧ octet n 2 = b2.
Proof.
  unfold is_byte, group, octet. intros H0 H1 H2; simpl.
  change (2 ^ 16) with 65536. change (2 ^ 8) with 256.
  change (2 ^ 0) with 1.
  Z.div_mod_to_equations. lia.
Qed.

(** With one or two bytes the fields left out are zero. *)
Lemma octets_group_1 b0 :
  is_byte b0 →
  let n := group b0 0 0 in
  octet (ungroup (sextet n 0) (sextet n 1) 0 0) 0 = b0.
Proof.
  unfold is_byte, group, ungroup, octet, sextet. intros H0; simpl.
  change (2 ^ 18) with 262144. change (2 ^ 12) with 4096.
  change (2 ^ 16) with 65536.
  Z.div_mod_to_equations. lia.
Qed.

Lemma octets_group_2 b0 b1 :
  is_byte b0 → is_byte b1 →
  let n := group b0 b1 0 in
  let m := ungroup (sextet n 0) (sextet n 1) (sextet n 2) 0 in
  octet m 0 = b0 ∧ octet m 1 = b1.
Proof.
  unfold is_byte, group, ungroup, octet, sextet. intros H0 H1; simpl.
  change (2 ^ 18) with 262144. change (2 ^ 12) with 4096.
  change (2 ^ 16) with 65536. change (2 ^ 8) with 256. change (2 ^ 6) with 64.
  Z.div_mod_to_equations. lia.
Qed.

(** Every 6-bit value has a character, which is not the padding and which
    the decoder reads back. *)
Lemma b64_index_char s :
  0 ≤ s < 64 → b64_index (b64_char s) = Some s ∧ b64_char s ≠ b64_pad.
Proof.
  intros Hs.
  assert (Forall (λ n, b64_index (b64_char (Z.of_nat n)) = Some (Z.of_nat n) ∧
                       b64_char (Z.of_nat n) ≠ b64_pad) (seq 0 64)) as Hall
    by (apply (bool_decide_unpack _); vm_compute; exact I).
  rewrite Forall_forall in Hall.
  rewrite <- (Z2Nat.id s) by lia. apply Hall, elem_of_seq. lia.
Qed.

(** A full group decodes to its three bytes, wherever it stands. *)
Lemma b64decode_group_full b0 b1 b2 last :
  is_byte b0 → is_byte b1 → is_byte b2 →
  let n := group b0 b1 b2 in
  b64decode_group (b64_char (sextet n 0)) (b64_char (sextet n 1))
    (b64_char (sextet n 2)) (b64_char (sextet n 3)) last = Some [b0; b1; b2].
Proof.
  intros H0 H1 H2 n. unfold b64decode_group.
  destruct (b64_index_char (sextet n 0) (sextet_range n 0)) as [-> _].
  destruct (b64_index_char (sextet n 1) (sextet_range n 1)) as [-> _].
  destruct (b64_index_char (sextet n 2) (sextet_range n 2)) as [-> _].
  destruct (b64_index_char (sextet n 3) (sextet_range n 3)) as [-> Hp].
  simpl. rewrite decide_False by done. unfold n.
  rewrite ungroup_sextets by done.
  by destruct (octets_group b0 b1 b2 H0 H1 H2) as (-> & -> & ->).
Qed.

(** The two padded groups decode to the bytes they hold. *)
Lemma b64decode_group_1 b0 :
  is_byte b0 →
  let n := group b0 0 0 in
  b64decode_group (b64_char (sextet n 0)) (b64_char (sextet n 1))
    b64_pad b64_pad true = Some [b0].
Proof.
  intros H0 n. unfold b64decode_group.
  destruct (b64_index_char (sextet n 0) (sextet_range n 0)) as [-> _].
  destruct (b64_index_char (sextet n 1) (sextet_range n 1)) as [-> _].
  simpl. rewrite ?decide_True by done. unfold n.
  by rewrite octets_group_1.
Qed.

Lemma b64decode_group_2 b0 b1 :
  is_byte b0 → is_byte b1 →
  let n := group b0 b1 0 in
  b64decode_group (b64_char (sextet n 0)) (b64_char (sextet n 1))
    (b64_char (sextet n 2)) b64_pad true = Some [b0; b1].
Proof.
  intros H0 H1 n. unfold b64decode_group.
  destruct (b64_index_char (sextet n 0) (sextet_range n 0)) as [-> _].
  destruct (b64_index_char (sextet n 1) (sextet_range n 1)) as [-> _].
  destruct (b64_index_char (sextet n 2) (sextet_range n 2)) as [-> Hp].
  simpl. rewrite ?decide_True by done. rewrite ?decide_False by done.
  unfold n.
  by destruct (octets_group_2 b0 b1 H0 H1) as (-> & ->).
Qed.

(** Decoding gives the bytes back, for lists of at most [k] bytes. *)
Lemma b64decode_encode_upto k bs :
  (length bs ≤ k)%nat → Forall is_byte bs → b64decode (b64encode bs) = Some bs.
Proof.
  revert bs. induction k as [|k IH]; intros bs Hk Hbs.
  { by destruct bs; [|simpl in Hk; lia]. }
  destruct bs as [|b0 [|b1 [|b2 rest]]]; [done|..].
  - apply Forall_cons in Hbs as [H0 _]. simpl.
    by rewrite (b64decode_group_1 b0 H0).
  - apply Forall_cons in Hbs as [H0 [H1 _]%Forall_cons]. simpl.
    by rewrite (b64decode_group_2 b0 b1 H0 H1).
  - apply Forall_cons in Hbs as [H0 [H1 [H2 Hrest]%Forall_cons]%Forall_cons].
    cbn [b64encode b64decode].
    rewrite (b64decode_group_full b0 b1 b2 _ H0 H1 H2); simpl.
    rewrite IH; [done | simpl in Hk; lia | done].
Qed.

(** The encoding is four characters for every three bytes, the last group
    padded. *)
Lemma b64encode_length bs :
  Z.of_nat (String.length (b64encode bs)) = 4 * ((Z.of_nat (length bs) + 2) / 3).
Proof.
  assert (∀ k bs, (length bs ≤ k)%nat →
    Z.of_nat (String.length (b64encode bs)) =
    4 * ((Z.of_nat (length bs) + 2) / 3)) as Hk; [|by eapply Hk].
  clear bs. intros k. induction k as [|k IH]; intros bs Hle.
  { by destruct bs; [|simpl in Hle; lia]. }
  destruct bs as [|b0 [|b1 [|b2 rest]]]; [done..|].
  cbn [b64encode String.length length].
  rewrite !Nat2Z.inj_succ, IH by (simpl in Hle; lia).
  Z.div_mod_to_equations. lia.
Qed.
