(* ===== verification/Image.v ===== *)
(** * Raster images

    Frames and pictures as the sources handle them: numpy arrays of shape
    height x width x channels.  This file holds the image operations that
    [src/utils.py] itself performs or fixes the parameters of: the standard
    frame size of [_display_detected_frames] (line 21), the channel reversal
    [[:, :, ::-1]] of [infer_uploaded_image] (line 77) and the channel order
    under which a picture is handed to the page ([channels="BGR"], line 30).
    A nearest-neighbour resize is given as a reference instance of the
    resize contract that [Backend.v] states for [cv2.resize]. *)

From Stdlib Require Import ZArith QArith Lia PrimFloat Uint63.
From stdpp Require Import base option list.
From S2P Require Import Prelude.
Close Scope Q_scope.
Close Scope uint63_scope.

(** ** Data *)

(** A pixel is its list of channel values; an image is a list of rows. *)
Abbreviation Pixel := (list Z) (only parsing).
Abbreviation Image := (list (list (list Z))) (only parsing).

(** The channel order a picture is declared to be in when displayed. *)
Inductive channels : Type := RGB | BGR.

#[export] Instance channels_eq_dec : EqDecision channels.
Proof. solve_decision. Defined.

(** numpy's [shape == (h, w, c)]. *)
Definition has_shape (h w c : nat) (im : Image) : Prop :=
  length im = h ∧
  Forall (λ row, length row = w ∧ Forall (λ px : Pixel, length px = c) row) im.

#[export] Instance has_shape_dec h w c im : Decision (has_shape h w c im).
Proof. unfold has_shape. apply _. Defined.

(** Every channel value is a byte. *)
Definition byte_valued (im : Image) : Prop :=
  Forall (Forall (Forall (λ v : Z, (0 ≤ v < 256)%Z))) im.

#[export] Instance byte_valued_dec im : Decision (byte_valued im).
Proof. unfold byte_valued. apply _. Defined.

(** ** Operations of the sources *)

(** [(720, int(720 * (9 / 16)))]: the (width, height) every video and
    camera frame is resized to. *)
Definition standard_size : Z * Z := (720%Z, py_int (720 * (9 / 16))%Q).

(** The same height computed as Python does, in binary64. *)
Definition standard_height_float : float := (720 * (9 / 16))%float.

(** [im[:, :, ::-1]]: reverse the channel axis of every pixel. *)
Definition reverse_channels (im : Image) : Image :=
  map (map (@reverse Z)) im.

(** The picture the browser shows for an array declared in order [ch]:
    a BGR array is converted to RGB by the page, an RGB one is shown as is. *)
Definition displayed_rgb (ch : channels) (im : Image) : Image :=
  match ch with
  | RGB => im
  | BGR => reverse_channels im
  end.

(** ** A reference resize *)

(** Nearest-neighbour sampling of [im] to [h] rows of [w] pixels. *)
Definition resize_nearest (im : Image) (w h : nat) : Image :=
  let H := length im in
  (λ y, let row := default [] (im !! (y * H / h)) in
        let W := length row in
        (λ x, default [0; 0; 0]%Z (row !! (x * W / w))) <$> seq 0 w)
  <$> seq 0 h.

(** ** Facts *)

Lemma standard_size_eq : standard_size = (720, 405)%Z.
Proof. reflexivity. Qed.

(** The rational model of the height agrees with the binary64 computation. *)
Lemma standard_height_float_eq :
  standard_height_float = of_uint63 (Uint63.of_Z (standard_size.2)).
Proof. reflexivity. Qed.

Lemma reverse_channels_involutive im : reverse_channels (reverse_channels im) = im.
Proof.
  unfold reverse_channels. rewrite map_map.
  rewrite <- (map_id im) at 2. apply map_ext; intros row.
  rewrite map_map. rewrite <- (map_id row) at 2.
  apply map_ext; intros px. apply reverse_involutive.
Qed.

Lemma reverse_channels_shape h w c im :
  has_shape h w c im → has_shape h w c (reverse_channels im).
Proof.
  unfold has_shape, reverse_channels. intros [Hh Hrows]. split.
  { by rewrite length_map. }
  apply Forall_map. eapply Forall_impl; [exact Hrows|].
  intros row [Hw Hpx]; simpl. split; [by rewrite length_map|].
  apply Forall_map. eapply Forall_impl; [exact Hpx|].
  intros px Hc; simpl. by rewrite length_reverse.
Qed.

Lemma reverse_channels_byte_valued im :
  byte_valued im → byte_valued (reverse_channels im).
Proof.
  unfold byte_valued, reverse_channels. intros H.
  apply Forall_map. eapply Forall_impl; [exact H|]. intros row Hrow; simpl.
  apply Forall_map. eapply Forall_impl; [exact Hrow|]. intros px Hpx; simpl.
  by apply Forall_reverse.
Qed.

(** On a three-channel pixel the reversal swaps the first and the third
    channel and keeps the second: BGR becomes RGB and back. *)
Lemma reverse_channels_pixel (b g r : Z) :
  reverse_channels [[[b; g; r]]] = [[[r; g; b]]].
Proof. reflexivity. Qed.

Lemma displayed_rgb_reverse im :
  displayed_rgb BGR im = displayed_rgb RGB (reverse_channels im).
Proof. reflexivity. Qed.

Lemma resize_nearest_shape im w h :
  Forall (Forall (λ px : Pixel, length px = 3)) im →
  has_shape h w 3 (resize_nearest im w h).
Proof.
  intros Him. unfold has_shape, resize_nearest. split.
  { by rewrite length_fmap, length_seq. }
  apply Forall_fmap, Forall_forall. intros y _; simpl. split.
  { by rewrite length_fmap, length_seq. }
  apply Forall_fmap, Forall_forall. intros x _; simpl.
  destruct (im !! _) as [row|] eqn:Hrow; simpl; [|by destruct (_ `div` _)].
  destruct (row !! _) as [px|] eqn:Hpx; simpl; [|done].
  eapply Forall_lookup_1 in Hrow; [|exact Him]. simpl in Hrow.
  by eapply Forall_lookup_1 in Hpx; [|exact Hrow].
Qed.
