(* ===== verification/Streamlit.v ===== *)
(** * The dashboard page (Streamlit)

    The part of the widget framework the sources rely on, as a state the
    script writes and a record of inputs it reads.  One run of the script
    rebuilds the page from the top: elements are appended in call order
    into the container that is current ([with col1:], the sidebar), a
    placeholder made by [st.empty()] owns one slot whose content each
    [st_frame.image(...)] overwrites, and every widget call returns the
    value the user gave it for this run.  The operations here are pure
    functions on [Page]; [World.v] lifts them into the monad. *)

From Stdlib Require Import ZArith Ascii String.
From stdpp Require Import base option list strings.
From S2P Require Import Prelude Image.

(** ** Data *)

(** A file handed over by [st.file_uploader]: its name and its bytes. *)
Record Upload : Type := {
  up_name : string;
  up_data : list Z
}.

#[export] Instance Upload_eq_dec : EqDecision Upload.
Proof. solve_decision. Defined.

(** Where an element is placed: the main area, the sidebar, column [i] of
    the column block that is element number [block] of the page, or an
    expander inside another container. *)
Inductive container : Type :=
| Main
| Sidebar
| Column (block i : nat)
| Expander (label : string) (parent : container).

#[export] Instance container_eq_dec : EqDecision container.
Proof. solve_decision. Defined.

(** What [st.image] is given: an array, or the uploaded file itself. *)
Inductive img_src : Type :=
| FromArray (im : Image)
| FromUpload (f : Upload).

#[export] Instance img_src_eq_dec : EqDecision img_src.
Proof. solve_decision. Defined.

(** The page elements the sources create, named after the calls. *)
Inductive element : Type :=
| PageConfig (page_title page_icon layout initial_sidebar_state : string)
| Title (text : string)
| Header (text : string)
| Markdown (body : string) (unsafe_allow_html : bool)
| ErrorBox (msg : string)
| Selectbox (label : string) (options : list string)
| Slider (label : string) (lo hi dflt : Z)
| FileUploader (label : string) (types : list string)
| Button (label : string)
| ImageBox (src : img_src) (caption : string) (ch : channels)
    (use_column_width : bool)
| VideoBox (f : Upload)
| Text (body : string)
| ExceptionBox (e : exn)
| Columns (n : nat)
| ExpanderBox (label : string)
| Placeholder (slot : nat).

#[export] Instance element_eq_dec : EqDecision element.
Proof. solve_decision. Defined.

(** The page a run has built so far. *)
Record Page : Type := {
  elems : list (container * element);
  slots : list (option element);
  current : container
}.

(** The widget values of one run: the option chosen in each selectbox, the
    position of each slider, the file in each uploader (all by label), and
    the button whose click started the run, if any. *)
Record Inputs : Type := {
  in_select : string → nat;
  in_slider : string → option Z;
  in_upload : string → option Upload;
  in_clicked : option string
}.

Definition empty_page : Page :=
  {| elems := []; slots := []; current := Main |}.

(** ** Writing the page *)

(** Append an element to container [c]. *)
Definition page_emit_in (c : container) (e : element) (p : Page) : Page :=
  {| elems := elems p ++ [(c, e)]; slots := slots p; current := current p |}.

(** [st.<element>(...)]: append to the current container. *)
Definition page_emit (e : element) (p : Page) : Page :=
  page_emit_in (current p) e p.

(** A run of elements appended to one container. *)
Definition page_emit_all_in (c : container) (es : list element) (p : Page)
  : Page :=
  {| elems := elems p ++ ((λ e, (c, e)) <$> es); slots := slots p;
     current := current p |}.

(** [st.empty()]: a placeholder with a fresh, empty slot; returns the slot. *)
Definition page_empty (p : Page) : nat * Page :=
  let n := length (slots p) in
  (n, {| elems := elems p ++ [(current p, Placeholder n)];
         slots := slots p ++ [None];
         current := current p |}).

(** [placeholder.<element>(...)]: replace what the slot shows. *)
Definition page_fill (slot : nat) (e : element) (p : Page) : Page :=
  {| elems := elems p; slots := <[slot := Some e]> (slots p);
     current := current p |}.

(** Entering and leaving a [with <container>:] block. *)
Definition page_enter (c : container) (p : Page) : Page :=
  {| elems := elems p; slots := slots p; current := c |}.

(** ** Reading the page *)

(** The messages of the error boxes, in order. *)
Definition error_reports (p : Page) : list string :=
  omap (λ ce, match ce.2 with ErrorBox msg => Some msg | _ => None end)
       (elems p).

(** The elements placed in container [c], in order. *)
Definition elems_in (c : container) (p : Page) : list element :=
  omap (λ ce, if decide (ce.1 = c) then Some ce.2 else None) (elems p).

(** What the browser shows for an element that displays an array. *)
Definition element_rgb (e : element) : option Image :=
  match e with
  | ImageBox (FromArray im) _ ch _ => Some (displayed_rgb ch im)
  | _ => None
  end.

(** ** Widget values *)

(** [selectbox(label, options)]: the chosen option; the first one until
    the user chooses, or when the choice is no longer among the options;
    [None] when there is none to choose. *)
Definition selected_index (i : Inputs) (label : string) (options : list string)
  : nat :=
  if decide (in_select i label < length options) then in_select i label else 0.

Definition selected (i : Inputs) (label : string) (options : list string)
  : option string :=
  options !! selected_index i label options.

(** [slider(label, lo, hi, dflt)]: the position, which the widget keeps
    within its bounds; [dflt] until the user moves it. *)
Definition slid (i : Inputs) (label : string) (lo hi dflt : Z) : Z :=
  match in_slider i label with
  | Some v => if decide (lo ≤ v ≤ hi)%Z then v else dflt
  | None => dflt
  end.

(** The text after the last dot of a file name, when it has a dot. *)
Fixpoint after_last_dot (name : string) (cur : option string) : option string :=
  match name with
  | EmptyString => cur
  | String c rest =>
      if Ascii.eqb c "." then after_last_dot rest (Some EmptyString)
      else after_last_dot rest ((λ e, e +:+ String c EmptyString) <$> cur)
  end.

Definition file_extension (name : string) : option string :=
  after_last_dot name None.

(** The uploader takes a file when no type list is given, or when the
    file's extension is in the list. *)
Definition accepts (types : list string) (name : string) : bool :=
  match types, file_extension name with
  | [], _ => true
  | _, Some e => bool_decide (e ∈ types)
  | _, None => false
  end.

(** [file_uploader(label, type=types)]: the file in the uploader, which
    holds only files it accepts. *)
Definition uploaded (i : Inputs) (label : string) (types : list string)
  : option Upload :=
  match in_upload i label with
  | Some f => if accepts types (up_name f) then Some f else None
  | None => None
  end.

(** [button(label)]: true in the run its click started. *)
Definition clicked (i : Inputs) (label : string) : bool :=
  bool_decide (in_clicked i = Some label).

(** ** Facts *)

Section PageFacts.
Implicit Types (p : Page) (e : element) (c : container).

Lemma page_fill_slots_length slot e p :
  length (slots (page_fill slot e p)) = length (slots p).
Proof. simpl. apply length_insert. Qed.

Lemma page_fill_elems slot e p : elems (page_fill slot e p) = elems p.
Proof. reflexivity. Qed.

(** Filling a slot twice leaves only the last content. *)
Lemma page_fill_overwrite slot e1 e2 p :
  page_fill slot e2 (page_fill slot e1 p) = page_fill slot e2 p.
Proof. unfold page_fill; simpl. by rewrite list_insert_insert_eq. Qed.

Lemma page_fill_lookup slot e p :
  slot < length (slots p) → slots (page_fill slot e p) !! slot = Some (Some e).
Proof. intros H. simpl. by apply list_lookup_insert_eq. Qed.

Lemma page_fill_lookup_ne slot slot' e p :
  slot ≠ slot' → slots (page_fill slot e p) !! slot' = slots p !! slot'.
Proof. intros H. simpl. by apply list_lookup_insert_ne. Qed.

(** [st.empty()] returns a slot that exists afterwards and shows nothing. *)
Lemma page_empty_fresh p :
  slots (page_empty p).2 !! (page_empty p).1 = Some None.
Proof. simpl. by rewrite lookup_app_r, Nat.sub_diag. Qed.

Lemma page_empty_slots_length p :
  length (slots (page_empty p).2) = S (length (slots p)).
Proof. simpl. rewrite length_app. simpl. lia. Qed.

Lemma error_reports_emit_in c e p :
  error_reports (page_emit_in c e p) =
  error_reports p ++ match e with ErrorBox msg => [msg] | _ => [] end.
Proof.
  unfold error_reports; simpl. rewrite omap_app. f_equal. by destruct e.
Qed.

Lemma error_reports_emit e p :
  error_reports (page_emit e p) =
  error_reports p ++ match e with ErrorBox msg => [msg] | _ => [] end.
Proof. apply error_reports_emit_in. Qed.

(** The error reports are read off the elements alone. *)
Lemma error_reports_elems p q :
  elems p = elems q → error_reports p = error_reports q.
Proof. unfold error_reports. by intros ->. Qed.

Lemma error_reports_fill slot e p :
  error_reports (page_fill slot e p) = error_reports p.
Proof. reflexivity. Qed.

Lemma error_reports_empty p :
  error_reports (page_empty p).2 = error_reports p.
Proof. unfold error_reports; simpl. rewrite omap_app; simpl. apply app_nil_r. Qed.

End PageFacts.

(** Leaving a [with] block after one element is placing it in the block's
    container. *)
Lemma page_with_emit c e p :
  page_enter (current p) (page_emit e (page_enter c p)) = page_emit_in c e p.
Proof. reflexivity. Qed.

Lemma page_emit_all_in_nil c p : page_emit_all_in c [] p = p.
Proof. destruct p. unfold page_emit_all_in; simpl. by rewrite app_nil_r. Qed.

Lemma page_emit_all_in_cons c e es p :
  page_emit_all_in c (e :: es) p = page_emit_all_in c es (page_emit_in c e p).
Proof. unfold page_emit_all_in; simpl. by rewrite <- app_assoc. Qed.

Lemma error_reports_emit_all_in c es p :
  Forall (λ e, ∀ msg, e ≠ ErrorBox msg) es →
  error_reports (page_emit_all_in c es p) = error_reports p.
Proof.
  intros Hes. revert p. induction Hes as [|e es He _ IH]; intros p.
  - by rewrite page_emit_all_in_nil.
  - rewrite page_emit_all_in_cons, IH, error_reports_emit_in.
    destruct e; try apply app_nil_r. by destruct (He msg).
Qed.

(** A selectbox with options returns one of them. *)
Lemma selected_elem i label options :
  options ≠ [] → ∃ o, selected i label options = Some o ∧ o ∈ options.
Proof.
  intros Hne. unfold selected, selected_index.
  destruct (lookup_lt_is_Some_2 options
    (if decide (in_select i label < length options)
     then in_select i label else 0)) as [o Ho].
  - case_decide; [done|]. destruct options; [done | simpl; lia].
  - exists o. split; [done|]. by eapply list_elem_of_lookup_2.
Qed.

Lemma selected_nil i label : selected i label [] = None.
Proof. reflexivity. Qed.

(** An uploader without a type list holds whatever was uploaded. *)
Lemma uploaded_any i label : uploaded i label [] = in_upload i label.
Proof. unfold uploaded. by destruct (in_upload i label). Qed.

(** Whatever an uploader holds is a file it accepts. *)
Lemma uploaded_accepts i label types f :
  uploaded i label types = Some f →
  in_upload i label = Some f ∧ accepts types (up_name f) = true.
Proof.
  unfold uploaded. destruct (in_upload i label) as [g|]; [|done].
  destruct (accepts types (up_name g)) eqn:Ha; [|done]. by intros [= <-].
Qed.

Lemma slid_bounds i label lo hi dflt :
  (lo ≤ dflt ≤ hi)%Z → (lo ≤ slid i label lo hi dflt ≤ hi)%Z.
Proof.
  intros H. unfold slid. destruct (in_slider i label) as [v|]; [|done].
  by case_decide.
Qed.

#[export] Hint Rewrite page_fill_slots_length page_fill_elems
  page_empty_slots_length error_reports_emit_in error_reports_emit
  error_reports_fill error_reports_empty : py.
