(* ===== verification/Backend.v ===== *)
(** * The external collaborators

    What the sources call and do not define: the detection library
    ([ultralytics.YOLO] and its [predict]), OpenCV ([cv2.resize] and the
    video decoder behind [cv2.VideoCapture]), PIL ([Image.open]), the text
    PyTorch prints for a tensor, and the files of the repository.  The
    class [Backend] is the interface the rest of the development is proved
    against: the functions, and the two contracts the specification gives
    them (the confidence filter of the detector and the output size of a
    resize).  [stub_backend] is an instance (a detector that scores each
    row of the picture by its brightness, and a nearest-neighbour resize),
    which shows the contracts satisfiable and lets the theorems be run on
    concrete inputs. *)

From Stdlib Require Import ZArith QArith Lia.
From stdpp Require Import base option list strings pretty.
From S2P Require Import Prelude Image Streamlit.
Close Scope Q_scope.

(** ** Data *)

(** One detection: its box (centre x, centre y, width, height), class and
    score. *)
Record Box : Type := {
  xywh : list Q;
  cls : nat;
  conf : Q
}.

(** [res[0]] of a [predict] call: the boxes and the annotated picture that
    [plot()] draws (in BGR order, as OpenCV frames are).  The results are
    those of detection weights, the one task of the script (app.py 85-97):
    [boxes] is a list.  For weights of another task the library gives
    [None] there; such weights are outside the model. *)
Record Results : Type := {
  boxes : list Box;
  plot : Image
}.

(** A loaded model: which load created it, and from which weights file. *)
Record Model : Type := {
  model_id : nat;
  model_path : string
}.

#[export] Instance Model_eq_dec : EqDecision Model.
Proof. solve_decision. Defined.

(** ** The interface *)

Class Backend : Type := {
  (** [YOLO(path)]: the exception it raises, if the weights do not load *)
  yolo_load : string → option exn;
  (** [model.predict(image, conf=conf)[0]] for the weights at a path *)
  yolo_predict : string → Image → Q → exn + Results;
  (** [cv2.resize(image, (width, height))] *)
  cv2_resize : Image → Z * Z → exn + Image;
  (** the frames of a video file, when the decoder can open it *)
  cv2_decode : list Z → option (list Image);
  (** [PIL.Image.open(file)] *)
  pil_open : Upload → exn + Image;
  (** [str(t)] of the tensor holding the numbers [t] *)
  tensor_str : list Q → string;
  (** [open(path, "rb").read()]: the bytes of a file of the repository *)
  fs_read : string → exn + list Z;
  (** no reported box scores below the threshold *)
  yolo_predict_conf path im c r :
    yolo_predict path im c = inr r → Forall (λ b, (c <= conf b)%Q) (boxes r);
  (** a resize of a three-channel picture returns one of the size asked for *)
  cv2_resize_shape im w h im' :
    cv2_resize im (w, h) = inr im' →
    Forall (Forall (λ px : Pixel, length px = 3)) im →
    has_shape (Z.to_nat h) (Z.to_nat w) 3 im'
}.

(** ** A reference instance *)

(** [cv2.resize] refuses an empty picture. *)
Definition stub_resize (im : Image) (size : Z * Z) : exn + Image :=
  match im with
  | [] => inl (LibraryError "resize: empty image")
  | _ => inr (resize_nearest im (Z.to_nat size.1) (Z.to_nat size.2))
  end.

(** A decoder for a toy container: one grey one-pixel frame per byte (a
    damaged, empty frame for a zero byte), and a file that does not open
    when it is empty. *)
Definition stub_frame (b : Z) : Image :=
  if decide (b = 0%Z) then [] else [[[b; b; b]]].

Definition stub_decode (data : list Z) : option (list Image) :=
  match data with
  | [] => None
  | _ => Some (stub_frame <$> data)
  end.

(** A detector that loads any named file and proposes one box per row of
    the picture, scored by the brightness of the row's first pixel; it
    reports the boxes that reach the threshold, draws nothing, and refuses
    a picture without rows. *)
Definition stub_score (row : list Pixel) : Q :=
  match row with
  | (b :: _) :: _ => (inject_Z b / 255)%Q
  | _ => 0%Q
  end.

Definition stub_candidates (im : Image) : list Box :=
  imap (λ i row, {| xywh := [0%Q; inject_Z (Z.of_nat i);
                             inject_Z (Z.of_nat (length row)); 1%Q];
                    cls := 0; conf := stub_score row |}) im.

Definition stub_boxes (c : Q) (im : Image) : list Box :=
  filter (λ b, Is_true (Qle_bool c (conf b))) (stub_candidates im).

Definition stub_predict (path : string) (im : Image) (c : Q) : exn + Results :=
  match im with
  | [] => inl (LibraryError "predict: empty image")
  | _ => inr {| boxes := stub_boxes c im; plot := im |}
  end.

(** The numbers as fractions, in brackets. *)
Definition stub_tensor_str (t : list Q) : string :=
  "tensor([" +:+
  String.concat ", "
    ((λ q, pretty (Qnum q) +:+ "/" +:+ pretty (Z.pos (Qden q))) <$> t) +:+
  "])".

Definition stub_load (path : string) : option exn :=
  if decide (path = "") then Some (LibraryError "no such model") else None.

(** A picture reader for a toy format: the first byte gives a one-pixel
    picture, as [stub_frame] does; an empty file is not a picture. *)
Definition stub_open (f : Upload) : exn + Image :=
  match up_data f with
  | [] => inl (LibraryError "cannot identify image file")
  | b :: _ => inr (stub_frame b)
  end.

(** A file system with one file, the background picture. *)
Definition stub_background : list Z := [255; 216; 255; 224; 0; 16; 74]%Z.

Definition stub_read (path : string) : exn + list Z :=
  if decide (path = "back_images/image2.jpg") then inr stub_background
  else inl (FileNotFoundError path).

Lemma stub_predict_conf path im c r :
  stub_predict path im c = inr r → Forall (λ b, (c <= conf b)%Q) (boxes r).
Proof.
  destruct im; intros [= <-]; simpl. apply Forall_forall. intros b Hb.
  apply list_elem_of_filter in Hb as [Hb _].
  by apply Qle_bool_iff, Is_true_true.
Qed.

Lemma stub_resize_shape im w h im' :
  stub_resize im (w, h) = inr im' →
  Forall (Forall (λ px : Pixel, length px = 3)) im →
  has_shape (Z.to_nat h) (Z.to_nat w) 3 im'.
Proof.
  destruct im as [|row im]; intros [= <-] Him.
  by apply resize_nearest_shape.
Qed.

#[export] Instance stub_backend : Backend := {|
  yolo_load := stub_load;
  yolo_predict := stub_predict;
  cv2_resize := stub_resize;
  cv2_decode := stub_decode;
  pil_open := stub_open;
  tensor_str := stub_tensor_str;
  fs_read := stub_read;
  yolo_predict_conf := stub_predict_conf;
  cv2_resize_shape := stub_resize_shape
|}.

(** ** Consequences of the contracts *)

Section BackendFacts.
Context `{Backend}.

(** A three-channel frame resized to the standard size is 405 rows of 720
    three-channel pixels. *)
Lemma resize_standard_shape im im' :
  cv2_resize im standard_size = inr im' →
  Forall (Forall (λ px : Pixel, length px = 3)) im →
  has_shape 405 720 3 im'.
Proof.
  intros Hr Him.
  exact (cv2_resize_shape im 720 405 im' Hr Him).
Qed.

End BackendFacts.

(** The stub resizes every picture that has a row. *)
Lemma stub_resize_ok row im size : ∃ im', stub_resize (row :: im) size = inr im'.
Proof. by eexists. Qed.
