(* ===== verification/Capture.v ===== *)
(** * Capture objects (cv2.VideoCapture)

    The object [infer_uploaded_video] and [infer_uploaded_webcam] read
    frames from.  A capture is opened on a feed (the decoded frames of a
    file, or a camera), hands the frames out one [read()] at a time, and is
    closed by [release()].  The feed is a function from the frame number to
    the frame, [None] where a read fails: a file's feed fails from its
    length on, a camera's may never fail.  A capture also counts the
    [release()] calls made on it, so that the theorems can say how often a
    device was released. *)

From stdpp Require Import base option list.
From S2P Require Import Prelude Image.

(** ** Data *)

Record Capture : Type := {
  cap_opened : bool;                (** [isOpened()] *)
  cap_feed : nat → option Image;    (** the frames still to come, by number *)
  cap_pos : nat;                    (** frames handed out so far *)
  cap_releases : nat                (** [release()] calls so far *)
}.

(** The feed of a decoded file. *)
Definition feed_of_frames (frames : list Image) : nat → option Image :=
  λ i, frames !! i.

(** ** Operations *)

(** [cv2.VideoCapture(source)]: opened on the source's feed, or not opened
    when the source cannot be opened. *)
Definition capture_new (feed : option (nat → option Image)) : Capture :=
  match feed with
  | Some f => {| cap_opened := true; cap_feed := f; cap_pos := 0;
                 cap_releases := 0 |}
  | None => {| cap_opened := false; cap_feed := λ _, None; cap_pos := 0;
               cap_releases := 0 |}
  end.

(** The capture [n] frames further on. *)
Definition capture_advance (n : nat) (c : Capture) : Capture :=
  {| cap_opened := cap_opened c; cap_feed := cap_feed c;
     cap_pos := n + cap_pos c; cap_releases := cap_releases c |}.

(** [read()]: the next frame of an opened capture ([success] is [True]),
    or nothing ([success] is [False]) at the end of the feed, on a failed
    read and on a capture that is not opened. *)
Definition capture_read (c : Capture) : option Image * Capture :=
  if cap_opened c then
    match cap_feed c (cap_pos c) with
    | Some im => (Some im, capture_advance 1 c)
    | None => (None, c)
    end
  else (None, c).

(** [release()]: closes the capture. *)
Definition capture_release (c : Capture) : Capture :=
  {| cap_opened := false; cap_feed := cap_feed c; cap_pos := cap_pos c;
     cap_releases := S (cap_releases c) |}.

(** ** Reading the state *)

(** A capture that holds its device or decoder: opened and not released. *)
Definition leaked (c : Capture) : bool := cap_opened c.

(** How many frames an opened capture can still hand out before a read
    fails, searching at most [bound] frames ahead. *)
Fixpoint frames_left (bound : nat) (feed : nat → option Image) (pos : nat)
  : nat :=
  match bound with
  | O => O
  | S b => match feed pos with
           | Some _ => S (frames_left b feed (S pos))
           | None => O
           end
  end.

(** ** Facts *)

Section CaptureFacts.
Implicit Types (c : Capture) (frames : list Image).

Lemma capture_release_closed c : cap_opened (capture_release c) = false.
Proof. reflexivity. Qed.

Lemma capture_read_closed c : cap_opened c = false → capture_read c = (None, c).
Proof. unfold capture_read. by intros ->. Qed.

(** A read never opens or closes the capture, and never releases it. *)
Lemma capture_read_opened c : cap_opened (capture_read c).2 = cap_opened c.
Proof.
  unfold capture_read. destruct (cap_opened c) eqn:E; [|done].
  by destruct (cap_feed c (cap_pos c)).
Qed.

Lemma capture_read_releases c :
  cap_releases (capture_read c).2 = cap_releases c.
Proof.
  unfold capture_read. destruct (cap_opened c); [|done].
  by destruct (cap_feed c (cap_pos c)).
Qed.

(** A successful read hands out the frame at the position and advances. *)
Lemma capture_read_Some c im c' :
  capture_read c = (Some im, c') →
  cap_opened c = true ∧ cap_feed c (cap_pos c) = Some im ∧
  c' = capture_advance 1 c.
Proof.
  unfold capture_read. destruct (cap_opened c); [|done].
  destruct (cap_feed c (cap_pos c)) eqn:E; [|done].
  by intros [= <- <-].
Qed.

(** The two cases of a read on an opened capture, as equations. *)
Lemma capture_read_frame c im :
  cap_opened c = true → cap_feed c (cap_pos c) = Some im →
  capture_read c = (Some im, capture_advance 1 c).
Proof. unfold capture_read. by intros -> ->. Qed.

Lemma capture_read_end c :
  cap_feed c (cap_pos c) = None → capture_read c = (None, c).
Proof. unfold capture_read. intros ->. by destruct (cap_opened c). Qed.

Lemma capture_advance_0 c : capture_advance 0 c = c.
Proof. by destruct c. Qed.

Lemma capture_advance_advance n m c :
  capture_advance n (capture_advance m c) = capture_advance (n + m) c.
Proof. unfold capture_advance; simpl. by rewrite Nat.add_assoc. Qed.

(** ** Feeds *)

(** The feed hands out exactly [frames] from position [pos] on. *)
Fixpoint feeds (feed : nat → option Image) (pos : nat) (frames : list Image)
  : Prop :=
  match frames with
  | [] => True
  | f :: fs => feed pos = Some f ∧ feeds feed (S pos) fs
  end.

Lemma feeds_of_frames pre frames post :
  feeds (feed_of_frames (pre ++ frames ++ post)) (length pre) frames.
Proof.
  revert pre. induction frames as [|f fs IH]; intros pre; simpl; [done|].
  split.
  - unfold feed_of_frames. by rewrite lookup_app_r, Nat.sub_diag.
  - specialize (IH (pre ++ [f])).
    by rewrite <- app_assoc, length_app, Nat.add_1_r in IH.
Qed.

(** A decoded file hands out its frames from the start, then fails. *)
Lemma feeds_all frames : feeds (feed_of_frames frames) 0 frames.
Proof.
  pose proof (feeds_of_frames [] frames []) as Hf.
  by rewrite app_nil_r in Hf.
Qed.

Lemma feeds_length feed pos frames i :
  feeds feed pos frames → i < length frames → is_Some (feed (i + pos)).
Proof.
  revert pos i. induction frames as [|f fs IH]; intros pos i; simpl; [lia|].
  intros [Hf Hfs] Hi. destruct i as [|i]; simpl; [by rewrite Hf|].
  rewrite <- Nat.add_succ_r. apply IH; [done | lia].
Qed.

Lemma capture_read_None c c' : capture_read c = (None, c') → c' = c.
Proof.
  unfold capture_read. destruct (cap_opened c); [|by intros [= <-]].
  destruct (cap_feed c (cap_pos c)); [done | by intros [= <-]].
Qed.

Lemma feed_of_frames_end frames i :
  length frames ≤ i → feed_of_frames frames i = None.
Proof. apply lookup_ge_None_2. Qed.

Lemma frames_left_frames frames pos bound :
  length frames - pos ≤ bound →
  frames_left bound (feed_of_frames frames) pos = length frames - pos.
Proof.
  revert pos. induction bound as [|b IH]; intros pos Hb; simpl; [lia|].
  unfold feed_of_frames at 1.
  destruct (frames !! pos) as [im|] eqn:E.
  - apply lookup_lt_Some in E. rewrite IH by lia. lia.
  - apply lookup_ge_None in E. lia.
Qed.

End CaptureFacts.
