(* ===== verification/World.v ===== *)
(** * The world a script run acts on

    Everything outside the script that a run reads or changes, in one
    record: the widget values, the page, the process-wide cache of
    [st.cache_resource], the models constructed, the capture objects, the
    camera, the temporary files, and the log of [predict] calls.  The
    operations are the library calls of the sources, as statements of the
    monad [M World]: each does what the library does to this state and
    returns what the library returns.  The frame property [keeps_loader]
    of statements follows (the cache and the models built are left as
    they were), with the rules and the tactic that prove it by the shape
    of a statement. *)

From Stdlib Require Import ZArith QArith.
From stdpp Require Import base option list strings gmap.
From S2P Require Import Prelude Image Streamlit Backend Capture.
Close Scope Q_scope.

(** ** State *)

(** The cache of [st.cache_resource] is the one state of the process that
    the script reads back.  The captures, the temporary files, the models
    built and the detector calls are kept as logs: the objects are locals
    of the functions of [src/utils.py], reached only through the handle
    that the call which made them returned, and the log records what was
    called on each (reads, [release()]), so that the theorems can say
    which captures were released and how often. *)
Record World : Type := {
  inputs : Inputs;                        (** widget values of this run *)
  page : Page;                            (** the page built so far *)
  cache : gmap string Model;              (** [st.cache_resource] store *)
  models : list string;                   (** log: weights of the models built *)
  caps : list Capture;                    (** log: the capture objects made *)
  camera : option (nat → option Image);   (** device 0, when there is one *)
  tmpfiles : list (list Z);               (** log: temporary files, by number *)
  inferences : list (Model * Image * Q)   (** log: the [predict] calls made *)
}.

Definition with_page (f : Page → Page) (w : World) : World :=
  {| inputs := inputs w; page := f (page w); cache := cache w;
     models := models w; caps := caps w; camera := camera w;
     tmpfiles := tmpfiles w; inferences := inferences w |}.

Definition with_cache (f : gmap string Model → gmap string Model) (w : World)
  : World :=
  {| inputs := inputs w; page := page w; cache := f (cache w);
     models := models w; caps := caps w; camera := camera w;
     tmpfiles := tmpfiles w; inferences := inferences w |}.

Definition with_models (f : list string → list string) (w : World) : World :=
  {| inputs := inputs w; page := page w; cache := cache w;
     models := f (models w); caps := caps w; camera := camera w;
     tmpfiles := tmpfiles w; inferences := inferences w |}.

Definition with_caps (f : list Capture → list Capture) (w : World) : World :=
  {| inputs := inputs w; page := page w; cache := cache w;
     models := models w; caps := f (caps w); camera := camera w;
     tmpfiles := tmpfiles w; inferences := inferences w |}.

Definition with_tmpfiles (f : list (list Z) → list (list Z)) (w : World)
  : World :=
  {| inputs := inputs w; page := page w; cache := cache w;
     models := models w; caps := caps w; camera := camera w;
     tmpfiles := f (tmpfiles w); inferences := inferences w |}.

Definition with_inferences
  (f : list (Model * Image * Q) → list (Model * Image * Q)) (w : World)
  : World :=
  {| inputs := inputs w; page := page w; cache := cache w;
     models := models w; caps := caps w; camera := camera w;
     tmpfiles := tmpfiles w; inferences := f (inferences w) |}.

(** Reduce the projections of updated worlds, and nothing else. *)
Ltac wsimpl :=
  cbn [inputs page cache models caps camera tmpfiles inferences
       with_page with_cache with_models with_caps with_tmpfiles
       with_inferences fst snd] in *.

(** The world at the start of a run: the widgets hold [i], the page is
    blank, the cache is the one the process has.  The logs go on from one
    run to the next: they are ghost state, there for the statements about
    a session, and a run reaches no capture and no file but those it
    makes.  What the destructor of a capture or of a temporary file does
    when the object of an earlier run is collected is not modelled: a
    capture counts as open until [release()] is called on it. *)
Definition start_run (i : Inputs) (w : World) : World :=
  {| inputs := i; page := empty_page; cache := cache w;
     models := models w; caps := caps w; camera := camera w;
     tmpfiles := tmpfiles w; inferences := inferences w |}.

(** A fresh process: nothing loaded, nothing opened. *)
Definition fresh_world (i : Inputs) (cam : option (nat → option Image))
  : World :=
  {| inputs := i; page := empty_page; cache := ∅; models := []; caps := [];
     camera := cam; tmpfiles := []; inferences := [] |}.

(** ** Streamlit calls *)

(** [st.<element>(...)] *)
Definition st_emit (e : element) : M World unit :=
  modify (with_page (page_emit e)).

(** [st.sidebar.<element>(...)] *)
Definition st_sidebar_emit (e : element) : M World unit :=
  modify (with_page (page_emit_in Sidebar e)).

(** [st.error(msg)] *)
Definition st_error (msg : string) : M World unit := st_emit (ErrorBox msg).

(** [st.set_page_config(page_title=..., page_icon=..., layout=...,
    initial_sidebar_state=...)] *)
Definition st_set_page_config
  (page_title page_icon layout initial_sidebar_state : string) : M World unit :=
  st_emit (PageConfig page_title page_icon layout initial_sidebar_state).

(** [st.markdown(body, unsafe_allow_html=...)] *)
Definition st_markdown (body : string) (unsafe_allow_html : bool)
  : M World unit :=
  st_emit (Markdown body unsafe_allow_html).

(** [st.write(text)] *)
Definition st_write (text : string) : M World unit := st_emit (Text text).

(** [st.write(ex)] for an exception object, which the page shows as
    [st.exception] does. *)
Definition st_write_exn (e : exn) : M World unit := st_emit (ExceptionBox e).

(** [st.image(image, caption=..., use_column_width=...)]: the channel order
    is the default, RGB. *)
Definition st_image (src : img_src) (caption : string)
  (use_column_width : bool) : M World unit :=
  st_emit (ImageBox src caption RGB use_column_width).

(** [st.columns(2)]: a block of two columns, returned as a pair. *)
Definition st_columns2 : M World (container * container) :=
  λ w, let b := length (elems (page w)) in
       (Ok (Column b 0, Column b 1), with_page (page_emit (Columns 2)) w).

(** [st.expander(label)]: an expander in the current container. *)
Definition st_expander (label : string) : M World container :=
  λ w, (Ok (Expander label (current (page w))),
        with_page (page_emit (ExpanderBox label)) w).

(** [st.empty()] *)
Definition st_empty : M World nat :=
  λ w, let r := page_empty (page w) in (Ok r.1, with_page (λ _, r.2) w).

(** [st_frame.image(im, caption=..., channels=..., use_column_width=...)] *)
Definition slot_image (slot : nat) (im : Image) (caption : string)
  (ch : channels) (use_column_width : bool) : M World unit :=
  modify (with_page
    (page_fill slot (ImageBox (FromArray im) caption ch use_column_width))).

(** [st.button(label)] *)
Definition st_button (label : string) : M World bool :=
  st_emit (Button label) ;;
  gets (λ w, clicked (inputs w) label).

(** [st.sidebar.file_uploader(label, type=types)] *)
Definition st_sidebar_file_uploader (label : string) (types : list string)
  : M World (option Upload) :=
  st_sidebar_emit (FileUploader label types) ;;
  gets (λ w, uploaded (inputs w) label types).

(** [st.sidebar.selectbox(label, options)] *)
Definition st_sidebar_selectbox (label : string) (options : list string)
  : M World (option string) :=
  st_sidebar_emit (Selectbox label options) ;;
  gets (λ w, selected (inputs w) label options).

(** [st.sidebar.slider(label, lo, hi, dflt)] *)
Definition st_sidebar_slider (label : string) (lo hi dflt : Z) : M World Z :=
  st_sidebar_emit (Slider label lo hi dflt) ;;
  gets (λ w, slid (inputs w) label lo hi dflt).

(** [with c: body]: the block's elements go to [c]; the container that was
    current is restored when the block is left, normally or by a raise. *)
Definition st_with {A} (c : container) (body : M World A) : M World A :=
  λ w, let old := current (page w) in
       let r := body (with_page (page_enter c) w) in
       (r.1, with_page (page_enter old) r.2).

(** [with st.spinner(text): body]: the spinner is shown while the block
    runs and removed after it, so it leaves nothing on the page. *)
Definition st_spinner {A} (text : string) (body : M World A) : M World A :=
  body.

(** ** Temporary files *)

(** [tempfile.NamedTemporaryFile()]: a new empty file; returns its number,
    which stands for both the file object and its name. *)
Definition NamedTemporaryFile : M World nat :=
  λ w, (Ok (length (tmpfiles w)), with_tmpfiles (λ fs, fs ++ [[]]) w).

(** [tfile.write(data)] *)
Definition tfile_write (tfile : nat) (data : list Z) : M World unit :=
  modify (with_tmpfiles (alter (λ old, old ++ data) tfile)).

Section Calls.
Context `{Backend}.

(** ** Captures *)

(** [cv2.VideoCapture(tfile.name)]: a capture on the frames the decoder
    finds in the file, not opened when it finds none. *)
Definition VideoCapture_file (tfile : nat) : M World nat :=
  λ w, let feed := feed_of_frames <$> (tmpfiles w !! tfile ≫= cv2_decode) in
       (Ok (length (caps w)), with_caps (λ cs, cs ++ [capture_new feed]) w).

(** [cv2.VideoCapture(index)]: a capture on camera [index]; only device 0
    may exist. *)
Definition VideoCapture_camera (index : Z) : M World nat :=
  λ w, let feed := if decide (index = 0%Z) then camera w else None in
       (Ok (length (caps w)), with_caps (λ cs, cs ++ [capture_new feed]) w).

(** A call on a capture object. *)
Definition on_capture {A} (vid_cap : nat) (f : Capture → A * Capture)
  : M World A :=
  λ w, match caps w !! vid_cap with
       | Some c => (Ok (f c).1, with_caps (<[vid_cap := (f c).2]>) w)
       | None => (Raise (LibraryError "no such capture"), w)
       end.

(** [vid_cap.isOpened()] *)
Definition cap_isOpened (vid_cap : nat) : M World bool :=
  λ w, match caps w !! vid_cap with
       | Some c => (Ok (cap_opened c), w)
       | None => (Raise (LibraryError "no such capture"), w)
       end.

(** [vid_cap.read()]: [Some image] for [(True, image)], [None] for
    [(False, None)]. *)
Definition cap_read (vid_cap : nat) : M World (option Image) :=
  on_capture vid_cap capture_read.

(** [vid_cap.release()] *)
Definition cap_release (vid_cap : nat) : M World unit :=
  on_capture vid_cap (λ c, (tt, capture_release c)).

(** ** Files *)

(** [with open(path, "rb") as f: f.read()] *)
Definition read_binary (path : string) : M World (list Z) :=
  lift_res (fs_read path).

(** ** Pictures *)

(** [Image.open(f)] *)
Definition Image_open (f : Upload) : M World Image := lift_res (pil_open f).

(** ** The detector *)

(** [YOLO(path)]: a new model object, or the loader's exception. *)
Definition YOLO (path : string) : M World Model :=
  λ w, match yolo_load path with
       | Some e => (Raise e, w)
       | None => (Ok {| model_id := length (models w); model_path := path |},
                  with_models (λ ms, ms ++ [path]) w)
       end.

(** [model.predict(image, conf=conf)[0]]; the call is logged whether it
    returns or raises. *)
Definition model_predict (model : Model) (image : Image) (c : Q)
  : M World Results :=
  modify (with_inferences (λ l, l ++ [(model, image, c)])) ;;
  lift_res (yolo_predict (model_path model) image c).

End Calls.

(** ** Reading the world *)

(** The captures that still hold their device or decoder. *)
Definition open_captures (w : World) : list Capture :=
  filter (λ c, cap_opened c = true) (caps w).

(** All [release()] calls made so far. *)
Definition total_releases (w : World) : nat :=
  sum_list (cap_releases <$> caps w).

(** What slot [slot] of the page shows. *)
Definition shown (w : World) (slot : nat) : option element :=
  mjoin (slots (page w) !! slot).

(** A property of the world that only the model loader can change: it
    reads the cache and the list of models built, and nothing else. *)
Definition loader_only (I : World → Prop) : Prop :=
  ∀ w w', cache w' = cache w → models w' = models w → I w → I w'.

(** A statement that leaves the cache and the models built as they were,
    whatever its outcome; stated as an invariance so that it composes with
    the Hoare rules. *)
Definition keeps_loader {A} (c : M World A) : Prop :=
  ∀ I, loader_only I → preserves I c.

(** ** Facts about the calls *)

Lemma st_error_run msg w :
  st_error msg w = (Ok tt, with_page (page_emit (ErrorBox msg)) w).
Proof. reflexivity. Qed.

(** Counting the captures of a world that another one extends. *)
Lemma open_captures_app w w' cs :
  caps w' = caps w ++ cs →
  length (open_captures w') =
    length (open_captures w) + length (filter (λ c, cap_opened c = true) cs).
Proof.
  intros Hc. unfold open_captures. by rewrite Hc, filter_app, length_app.
Qed.

Lemma total_releases_app w w' cs :
  caps w' = caps w ++ cs →
  total_releases w' = total_releases w + sum_list (cap_releases <$> cs).
Proof.
  intros Hc. unfold total_releases. by rewrite Hc, fmap_app, sum_list_with_app.
Qed.

(** Fresh captures of a source that opens are all open and not released. *)
Lemma open_captures_replicate n feed :
  length (filter (λ c, cap_opened c = true)
            (replicate n (capture_new (Some feed)))) = n.
Proof.
  induction n as [|n IH]; [done|]. cbn [replicate].
  rewrite filter_cons_True by done. cbn [length]. by f_equal.
Qed.

Lemma total_releases_replicate n feed :
  sum_list (cap_releases <$> replicate n (capture_new feed)) = 0.
Proof.
  induction n as [|n IH]; [done|]. cbn [replicate]. rewrite fmap_cons.
  simpl. rewrite IH. by destruct feed.
Qed.

(** Two page updates are equal when they agree on the page they update. *)
Lemma with_page_ext (f g : Page → Page) w :
  f (page w) = g (page w) → with_page f w = with_page g w.
Proof. unfold with_page. by intros ->. Qed.

(** A [for] that places one element per item, inside [with c:]. *)
Lemma for_each_emit {A} (l : list A) (f : A → element) w :
  for_each l (λ x, st_emit (f x)) w =
  (Ok tt, with_page (λ p, page_emit_all_in (current p) (f <$> l) p) w).
Proof.
  revert w. induction l as [|x l IH]; intros w; simpl.
  - f_equal. destruct w; unfold with_page; simpl. f_equal.
    by rewrite page_emit_all_in_nil.
  - unfold bind, st_emit at 1, modify. rewrite IH. f_equal.
    destruct w; unfold with_page; wsimpl. f_equal.
    by rewrite page_emit_all_in_cons.
Qed.

Lemma st_with_for_each_emit {A} c (l : list A) (f : A → element) w :
  st_with c (for_each l (λ x, st_emit (f x))) w =
  (Ok tt, with_page (page_emit_all_in c (f <$> l)) w).
Proof. unfold st_with. rewrite for_each_emit. reflexivity. Qed.

(** ** Statements that keep the loader's state *)

Lemma keeps_loader_frame {A} (c : M World A) :
  (∀ w, cache (c w).2 = cache w ∧ models (c w).2 = models w) →
  keeps_loader c.
Proof. intros Hc I HI w Hw. destruct (Hc w). by eapply HI. Qed.

Lemma keeps_loader_eq {A} (c : M World A) w :
  keeps_loader c → cache (c w).2 = cache w ∧ models (c w).2 = models w.
Proof.
  intros Hc. apply (Hc (λ w', cache w' = cache w ∧ models w' = models w));
    [|done].
  intros w1 w2 -> ->. done.
Qed.

Lemma keeps_loader_bind {A B} (c : M World A) (k : A → M World B) :
  keeps_loader c → (∀ a, keeps_loader (k a)) → keeps_loader (bind c k).
Proof.
  intros Hc Hk I HI. apply preserves_bind; [by apply Hc|intros a; by apply Hk].
Qed.

Lemma keeps_loader_try_except {A} (c : M World A) h :
  keeps_loader c → (∀ e, keeps_loader (h e)) → keeps_loader (try_except c h).
Proof.
  intros Hc Hh I HI.
  apply preserves_try_except; [by apply Hc|intros e; by apply Hh].
Qed.

Lemma keeps_loader_while fuel (cond : M World bool) body :
  keeps_loader cond → keeps_loader body →
  keeps_loader (while_loop fuel cond body).
Proof.
  intros Hc Hb I HI. apply while_loop_preserves; [by apply Hc|by apply Hb].
Qed.

Lemma keeps_loader_for_each {A} (l : list A) body :
  (∀ x, keeps_loader (body x)) → keeps_loader (for_each l body).
Proof. intros Hb I HI. apply for_each_preserves. intros x. by apply Hb. Qed.

Lemma keeps_loader_st_with {A} c (body : M World A) :
  keeps_loader body → keeps_loader (st_with c body).
Proof.
  intros Hb. apply keeps_loader_frame. intros w. unfold st_with; wsimpl.
  apply (keeps_loader_eq body (with_page (page_enter c) w) Hb).
Qed.

Lemma keeps_loader_st_spinner {A} text (body : M World A) :
  keeps_loader body → keeps_loader (st_spinner text body).
Proof. done. Qed.

(** A statement built from the calls of this file, [YOLO] apart, keeps the
    loader's state: decompose it by the rules, and check each call. *)
Ltac unfold_calls :=
  unfold st_write, st_write_exn, st_image, st_button, st_error,
    st_set_page_config, st_markdown,
    st_sidebar_file_uploader, st_sidebar_selectbox, st_sidebar_slider,
    st_sidebar_emit, st_emit, st_empty, st_columns2, st_expander, slot_image,
    NamedTemporaryFile, tfile_write, global_var, local_var, lift_res, bind,
    gets, modify, ret, raise.

Ltac keeps_loader_leaf :=
  apply keeps_loader_frame; intros ?; unfold_calls; repeat case_match; done.

Ltac keeps_loader_step :=
  lazymatch goal with
  | |- keeps_loader (bind _ _) => apply keeps_loader_bind; [|intros ?]
  | |- keeps_loader (try_except _ _) =>
      apply keeps_loader_try_except; [|intros ?]
  | |- keeps_loader (while_loop _ _ _) => apply keeps_loader_while
  | |- keeps_loader (for_each _ _) => apply keeps_loader_for_each; intros ?
  | |- keeps_loader (st_with _ _) => apply keeps_loader_st_with
  | |- keeps_loader (st_spinner _ _) => apply keeps_loader_st_spinner
  | |- keeps_loader (match ?x with _ => _ end) => destruct x
  | |- keeps_loader (if ?b then _ else _) => destruct b
  end.

Ltac keeps_loader_tac :=
  repeat keeps_loader_step; try (by auto with py); try keeps_loader_leaf.

Section CallFacts.
Context `{Backend}.
Implicit Types (w : World) (c : Capture).

Lemma on_capture_lookup {A} vid_cap (f : Capture → A * Capture) w c :
  caps w !! vid_cap = Some c →
  on_capture vid_cap f w =
  (Ok (f c).1, with_caps (<[vid_cap := (f c).2]>) w).
Proof. unfold on_capture. by intros ->. Qed.

Lemma cap_isOpened_lookup vid_cap w c :
  caps w !! vid_cap = Some c → cap_isOpened vid_cap w = (Ok (cap_opened c), w).
Proof. unfold cap_isOpened. by intros ->. Qed.

(** Two updates of one capture: the last one stays. *)
Lemma with_caps_insert_insert vid_cap c1 c2 w :
  with_caps (<[vid_cap := c2]>) (with_caps (<[vid_cap := c1]>) w) =
  with_caps (<[vid_cap := c2]>) w.
Proof. unfold with_caps; simpl. by rewrite list_insert_insert_eq. Qed.

(** Writing back the capture that is there changes nothing. *)
Lemma with_caps_insert_id vid_cap c w :
  caps w !! vid_cap = Some c → with_caps (<[vid_cap := c]>) w = w.
Proof.
  intros Hc. destruct w; unfold with_caps; simpl in *. f_equal.
  by apply list_insert_id.
Qed.

Lemma with_caps_insert_lookup vid_cap c c' w :
  caps w !! vid_cap = Some c →
  caps (with_caps (<[vid_cap := c']>) w) !! vid_cap = Some c'.
Proof.
  intros Hc; simpl. apply list_lookup_insert_eq. by eapply lookup_lt_Some.
Qed.

(** A new capture is the last one, and its handle finds it. *)
Lemma VideoCapture_file_lookup tfile w :
  caps (VideoCapture_file tfile w).2 !! length (caps w) =
  Some (capture_new (feed_of_frames <$> (tmpfiles w !! tfile ≫= cv2_decode))).
Proof. simpl. by rewrite lookup_app_r, Nat.sub_diag. Qed.

Lemma VideoCapture_camera_lookup index w :
  caps (VideoCapture_camera index w).2 !! length (caps w) =
  Some (capture_new (if decide (index = 0%Z) then camera w else None)).
Proof. simpl. by rewrite lookup_app_r, Nat.sub_diag. Qed.

(** Writing to a new temporary file makes its content the data written. *)
Lemma tfile_write_new data w :
  tmpfiles (tfile_write (length (tmpfiles w)) data
              (NamedTemporaryFile w).2).2 !! length (tmpfiles w) = Some data.
Proof.
  simpl. rewrite list_lookup_alter_eq, lookup_app_r, Nat.sub_diag; done.
Qed.

(** The calls on captures, pictures and the detector keep the loader's
    state. *)
Lemma keeps_loader_VideoCapture_file tfile : keeps_loader (VideoCapture_file tfile).
Proof. by apply keeps_loader_frame. Qed.

Lemma keeps_loader_VideoCapture_camera index :
  keeps_loader (VideoCapture_camera index).
Proof. by apply keeps_loader_frame. Qed.

Lemma keeps_loader_on_capture {A} vid_cap (f : Capture → A * Capture) :
  keeps_loader (on_capture vid_cap f).
Proof.
  apply keeps_loader_frame. intros w. unfold on_capture. by case_match.
Qed.

Lemma keeps_loader_cap_isOpened vid_cap : keeps_loader (cap_isOpened vid_cap).
Proof.
  apply keeps_loader_frame. intros w. unfold cap_isOpened. by case_match.
Qed.

Lemma keeps_loader_cap_read vid_cap : keeps_loader (cap_read vid_cap).
Proof. apply keeps_loader_on_capture. Qed.

Lemma keeps_loader_cap_release vid_cap : keeps_loader (cap_release vid_cap).
Proof. apply keeps_loader_on_capture. Qed.

Lemma keeps_loader_read_binary path : keeps_loader (read_binary path).
Proof. unfold read_binary. keeps_loader_leaf. Qed.

Lemma keeps_loader_Image_open f : keeps_loader (Image_open f).
Proof. unfold Image_open. keeps_loader_leaf. Qed.

Lemma keeps_loader_model_predict model image (q : Q) :
  keeps_loader (model_predict model image q).
Proof. unfold model_predict. keeps_loader_leaf. Qed.

End CallFacts.

#[export] Hint Resolve keeps_loader_VideoCapture_file
  keeps_loader_VideoCapture_camera keeps_loader_cap_isOpened
  keeps_loader_cap_read keeps_loader_cap_release keeps_loader_Image_open
  keeps_loader_read_binary
  keeps_loader_model_predict : py.
