(* ===== verification/Inference.v ===== *)
(** * The inference step

    [_display_detected_frames] of [src/utils.py] (lines 11-32): resize one
    frame to the standard size, run the detector on it, and put the
    annotated picture into the display slot.  [infer_frame] is what the
    specification calls [infer(handle, image, confidence)], as a function;
    the theorems say that the code computes it, what it leaves in the world
    on each of its three ways out (shown, resize raised, detector raised),
    and that it touches nothing else. *)

From Stdlib Require Import ZArith QArith Lia.
From stdpp Require Import base option list strings gmap.
From S2P Require Import Prelude Image Streamlit Backend Capture World.
Close Scope Q_scope.

(** ** Texts shared by the sources *)

(** The start button and the spinner of the image and video sources. *)
Definition START_LABEL : string := "开始执行".
Definition SPINNER_TEXT : string := "执行中...".

Section Inference.
Context `{Backend}.
Implicit Types (w : World) (conf : Q) (model : Model) (image : Image).

(** ** The code *)

(** The caption of the video slot. *)
Definition VIDEO_CAPTION : string := "检测视频".

Definition _display_detected_frames (conf : Q) (model : Model) (st_frame : nat)
  (image : Image) : M World unit :=
  image <- lift_res (cv2_resize image standard_size) ;;
  res <- model_predict model image conf ;;
  let res_plotted := plot res in
  slot_image st_frame res_plotted VIDEO_CAPTION BGR true.

(** ** Its specification *)

(** The inference step as a function: the resized frame and the result of
    the detector on it, or the exception of the first call that raises. *)
Definition infer_frame (conf : Q) (model : Model) (image : Image)
  : exn + Image * Results :=
  match cv2_resize image standard_size with
  | inl e => inl e
  | inr resized =>
      match yolo_predict (model_path model) resized conf with
      | inl e => inl e
      | inr res => inr (resized, res)
      end
  end.

(** The world after one frame was inferred and shown. *)
Definition show_frame (conf : Q) (model : Model) (st_frame : nat)
  (gr : Image * Results) (w : World) : World :=
  with_page
    (page_fill st_frame
       (ImageBox (FromArray (plot gr.2)) VIDEO_CAPTION BGR true))
    (with_inferences (λ l, l ++ [(model, gr.1, conf)]) w).

(** ** Behaviour on every branch *)

Lemma display_ok conf model st_frame image gr w :
  infer_frame conf model image = inr gr →
  _display_detected_frames conf model st_frame image w =
  (Ok tt, show_frame conf model st_frame gr w).
Proof.
  unfold infer_frame, _display_detected_frames, model_predict, slot_image.
  destruct (cv2_resize _ _) as [e|g]; [done|]. munfold; simpl.
  destruct (yolo_predict _ _ _) as [e|r]; [done|]. by intros [= <-].
Qed.

Lemma display_resize_raises conf model st_frame image e w :
  cv2_resize image standard_size = inl e →
  _display_detected_frames conf model st_frame image w = (Raise e, w).
Proof. unfold _display_detected_frames. munfold. by intros ->. Qed.

Lemma display_predict_raises conf model st_frame image resized e w :
  cv2_resize image standard_size = inr resized →
  yolo_predict (model_path model) resized conf = inl e →
  _display_detected_frames conf model st_frame image w =
  (Raise e, with_inferences (λ l, l ++ [(model, resized, conf)]) w).
Proof.
  unfold _display_detected_frames, model_predict. munfold.
  intros Hr Hp. rewrite Hr; simpl. by rewrite Hp.
Qed.

(** The step raises exactly when [infer_frame] does, with its exception. *)
Lemma display_raises conf model st_frame image e w :
  infer_frame conf model image = inl e →
  ∃ w', _display_detected_frames conf model st_frame image w = (Raise e, w') ∧
        page w' = page w ∧ caps w' = caps w.
Proof.
  unfold infer_frame. destruct (cv2_resize _ _) as [e1|g] eqn:Hr.
  - intros [= ->]. rewrite (display_resize_raises _ _ _ _ e) by done. eauto.
  - destruct (yolo_predict _ _ _) as [e1|r] eqn:Hp; [|done]. intros [= ->].
    rewrite (display_predict_raises _ _ _ _ g e) by done. eauto.
Qed.

(** The step runs no loop: it never runs out of fuel. *)
Lemma display_terminates conf model st_frame image w :
  terminated (_display_detected_frames conf model st_frame image w).1.
Proof.
  destruct (infer_frame conf model image) as [e|gr] eqn:E.
  - destruct (display_raises _ _ st_frame _ _ w E) as (w' & -> & _). done.
  - by rewrite (display_ok _ _ _ _ gr).
Qed.

(** ** What a shown frame changes *)

Lemma show_frame_caps conf model st_frame gr w :
  caps (show_frame conf model st_frame gr w) = caps w.
Proof. reflexivity. Qed.

Lemma show_frame_inferences conf model st_frame gr w :
  inferences (show_frame conf model st_frame gr w) =
  inferences w ++ [(model, gr.1, conf)].
Proof. reflexivity. Qed.

Lemma show_frame_errors conf model st_frame gr w :
  error_reports (page (show_frame conf model st_frame gr w)) =
  error_reports (page w).
Proof. reflexivity. Qed.

Lemma show_frame_elems conf model st_frame gr w :
  elems (page (show_frame conf model st_frame gr w)) = elems (page w).
Proof. reflexivity. Qed.

Lemma show_frame_slots_length conf model st_frame gr w :
  length (slots (page (show_frame conf model st_frame gr w))) =
  length (slots (page w)).
Proof. simpl. apply length_insert. Qed.

(** The slot shows the annotated picture, declared BGR. *)
Lemma show_frame_shown conf model st_frame gr w :
  st_frame < length (slots (page w)) →
  shown (show_frame conf model st_frame gr w) st_frame =
  Some (ImageBox (FromArray (plot gr.2)) VIDEO_CAPTION BGR true).
Proof.
  intros Hs. unfold shown; simpl. by rewrite list_lookup_insert_eq.
Qed.

(** A slot other than the display slot is left as it was. *)
Lemma show_frame_shown_ne conf model st_frame slot gr w :
  st_frame ≠ slot → shown (show_frame conf model st_frame gr w) slot = shown w slot.
Proof.
  intros Hs. unfold shown; simpl. by rewrite list_lookup_insert_ne.
Qed.

(** Showing a frame commutes with any change of the captures. *)
Lemma show_frame_with_caps conf model st_frame gr f w :
  show_frame conf model st_frame gr (with_caps f w) =
  with_caps f (show_frame conf model st_frame gr w).
Proof. reflexivity. Qed.

(** The inference step keeps the loader's state, whatever its outcome. *)
Lemma display_keeps_loader conf model st_frame image :
  keeps_loader (_display_detected_frames conf model st_frame image).
Proof. unfold _display_detected_frames. keeps_loader_tac. Qed.

(** ** The contracts of the collaborators, carried through *)

(** Every box the detector reports for a frame scores at least [conf]. *)
Lemma infer_frame_conf conf model image gr :
  infer_frame conf model image = inr gr →
  Forall (λ b, (conf <= Backend.conf b)%Q) (boxes gr.2).
Proof.
  unfold infer_frame. destruct (cv2_resize _ _) as [|g]; [done|].
  destruct (yolo_predict _ _ _) as [|r] eqn:E; [done|]. intros [= <-].
  by eapply yolo_predict_conf.
Qed.

(** The detector sees a 720 x 405 picture, whatever the frame's size. *)
Lemma infer_frame_shape conf model image gr :
  infer_frame conf model image = inr gr →
  Forall (Forall (λ px : Pixel, length px = 3)) image →
  has_shape 405 720 3 gr.1.
Proof.
  unfold infer_frame. destruct (cv2_resize _ _) as [|g] eqn:Hr; [done|].
  destruct (yolo_predict _ _ _) as [|r]; [done|]. intros [= <-] Him.
  by eapply resize_standard_shape.
Qed.

(** C35: whatever the size of a frame, the picture the detector is given
    for it is 405 rows of 720 three-channel pixels: a call of
    [_display_detected_frames] on a three-channel frame logs at most one
    detector call, made for the model and the confidence of the session on
    a picture of that shape, whether the call then returns or raises. *)
Theorem detector_sees_standard_shape conf model st_frame image w :
  Forall (Forall (λ px : Pixel, length px = 3)) image →
  ∃ l, inferences (_display_detected_frames conf model st_frame image w).2 =
         inferences w ++ l ∧
       length l ≤ 1 ∧
       Forall (λ i, i.1.1 = model ∧ i.2 = conf ∧ has_shape 405 720 3 i.1.2) l.
Proof.
  intros Him. unfold _display_detected_frames, model_predict, slot_image.
  munfold. destruct (cv2_resize image standard_size) as [e|g] eqn:Hr; simpl.
  { exists []. rewrite app_nil_r. split_and!; [done | simpl; lia | done]. }
  exists [(model, g, conf)].
  split; [by destruct (yolo_predict _ _ _)|]. split; [simpl; lia|].
  apply Forall_singleton; simpl. split_and!; [done..|].
  by eapply resize_standard_shape.
Qed.

End Inference.

#[export] Hint Rewrite @show_frame_caps @show_frame_inferences
  @show_frame_errors @show_frame_elems @show_frame_slots_length : py.
