(* ===== verification/Demo.v ===== *)
(** * Concrete inputs

    A small closed world on which the theorems of the components are run:
    the reference backend of [Backend.v], a ten-frame toy video (the
    scenario of the specification's section 8), a camera that delivers
    three frames and then fails, and widget values built from labels.
    Nothing here models the sources; it only instantiates them. *)

From Stdlib Require Import ZArith QArith.
From stdpp Require Import base option list strings gmap.
From S2P Require Import Prelude Image Streamlit Backend Capture World Inference.
Close Scope Q_scope.

(** ** Data *)

Definition demo_model : Model :=
  {| model_id := 0; model_path := "weights/yolov8n.pt" |}.

Definition demo_conf : Q := (1 # 2)%Q.

(** Ten bytes, which the reference decoder reads as ten frames. *)
Definition demo_video : Upload :=
  {| up_name := "clip.mp4";
     up_data := [10; 20; 30; 40; 50; 60; 70; 80; 90; 100]%Z |}.

(** A file the reference decoder cannot open. *)
Definition demo_broken_video : Upload :=
  {| up_name := "broken.mp4"; up_data := [] |}.

(** A file whose third frame is damaged. *)
Definition demo_damaged_video : Upload :=
  {| up_name := "damaged.mp4"; up_data := [10; 20; 0; 40]%Z |}.

(** A bright picture, a file that is no picture, a picture without rows,
    and a file of a format the image uploader does not take. *)
Definition demo_image : Upload :=
  {| up_name := "plane.jpg"; up_data := [200; 10; 10]%Z |}.

Definition demo_unreadable_image : Upload :=
  {| up_name := "torn.png"; up_data := [] |}.

Definition demo_blank_image : Upload :=
  {| up_name := "blank.bmp"; up_data := [0]%Z |}.

Definition demo_text_file : Upload :=
  {| up_name := "notes.txt"; up_data := [72; 105]%Z |}.

Definition demo_frames : list Image := stub_frame <$> up_data demo_video.

(** What the reference backend infers for a frame: the resized frame, the
    boxes it scores at the threshold or above, and the resized frame again
    as the annotated picture. *)
Definition demo_result_at (c : Q) (f : Image) : Image * Results :=
  let g := resize_nearest f 720 405 in
  (g, {| boxes := stub_boxes c g; plot := g |}).

Definition demo_result : Image → Image * Results := demo_result_at demo_conf.

(** Widget values: one uploader holds [f], one button was clicked. *)
Definition demo_inputs (upload_label : string) (f : option Upload)
  (click : option string) : Inputs :=
  {| in_select := λ _, 0;
     in_slider := λ _, None;
     in_upload := λ l, if decide (l = upload_label) then f else None;
     in_clicked := click |}.

(** A camera that hands out three frames and then fails. *)
Definition demo_camera_frames : list Image := stub_frame <$> [10; 20; 30]%Z.

Definition demo_camera : nat → option Image :=
  feed_of_frames demo_camera_frames.

(** ** The reference backend on these inputs *)

Lemma resize_nearest_cons im w h :
  0 < h → ∃ row rows, resize_nearest im w h = row :: rows.
Proof.
  intros Hh. destruct h as [|h]; [lia|].
  unfold resize_nearest. simpl. eauto.
Qed.

(** The reference backend infers every frame that has a row. *)
Lemma stub_infers conf model row im :
  infer_frame (H := stub_backend) conf model (row :: im) =
  inr (demo_result_at conf (row :: im)).
Proof.
  unfold infer_frame, demo_result_at. cbn [cv2_resize stub_backend stub_resize].
  cbn [yolo_predict stub_backend stub_predict standard_size fst snd].
  change (py_int _) with 405%Z.
  change (Z.to_nat 720) with 720. change (Z.to_nat 405) with 405.
  destruct (resize_nearest_cons (row :: im) 720 405) as (r & rs & ->); [lia|].
  done.
Qed.

Lemma demo_frames_decoded :
  cv2_decode (Backend := stub_backend) (up_data demo_video) = Some demo_frames.
Proof. reflexivity. Qed.

(** Every frame decoded from non-zero bytes infers. *)
Lemma stub_frames_infer conf model (data : list Z) :
  Forall (λ b, b ≠ 0%Z) data →
  Forall2 (λ f gr, infer_frame (H := stub_backend) conf model f = inr gr)
    (stub_frame <$> data) (demo_result_at conf <$> (stub_frame <$> data)).
Proof.
  induction 1 as [|b data Hb _ IH]; constructor; [|done].
  unfold stub_frame. rewrite decide_False by done. apply stub_infers.
Qed.

Lemma demo_frames_infer model :
  Forall2 (λ f gr, infer_frame (H := stub_backend) demo_conf model f = inr gr)
    demo_frames (demo_result <$> demo_frames).
Proof. apply stub_frames_infer. by repeat constructor. Qed.

Lemma demo_camera_frames_infer model :
  Forall2 (λ f gr, infer_frame (H := stub_backend) demo_conf model f = inr gr)
    demo_camera_frames (demo_result <$> demo_camera_frames).
Proof. apply stub_frames_infer. by repeat constructor. Qed.

(** ** A detector that reports nothing *)

(** The reference backend with a detector that finds no box in any
    picture and draws nothing. *)
Definition quiet_predict (path : string) (im : Image) (c : Q)
  : exn + Results :=
  inr {| boxes := []; plot := im |}.

Lemma quiet_predict_conf path im c r :
  quiet_predict path im c = inr r → Forall (λ b, (c <= conf b)%Q) (boxes r).
Proof. by intros [= <-]. Qed.

Definition quiet_backend : Backend :=
  {| yolo_load := stub_load; yolo_predict := quiet_predict;
     cv2_resize := stub_resize; cv2_decode := stub_decode;
     pil_open := stub_open; tensor_str := stub_tensor_str;
     fs_read := stub_read;
     yolo_predict_conf := quiet_predict_conf;
     cv2_resize_shape := stub_resize_shape |}.

(** What it infers for a frame: the resized frame, and no box. *)
Definition quiet_result (f : Image) : Image * Results :=
  let g := resize_nearest f 720 405 in (g, {| boxes := []; plot := g |}).

Lemma quiet_frames_infer conf model (data : list Z) :
  Forall (λ b, b ≠ 0%Z) data →
  Forall2 (λ f gr, infer_frame (H := quiet_backend) conf model f = inr gr)
    (stub_frame <$> data) (quiet_result <$> (stub_frame <$> data)).
Proof.
  induction 1 as [|b data Hb _ IH]; constructor; [|done].
  unfold stub_frame. by rewrite decide_False by done.
Qed.

(** The damaged frame does not: the resize refuses it. *)
Lemma stub_damaged_raises conf model :
  infer_frame (H := stub_backend) conf model (stub_frame 0) =
  inl (LibraryError "resize: empty image").
Proof. reflexivity. Qed.

(** Every frame of the demo video has three-channel pixels. *)
Lemma demo_frames_three_channels :
  Forall (Forall (Forall (λ px : Pixel, length px = 3))) demo_frames.
Proof. by apply (bool_decide_unpack _). Qed.

Lemma detector_sees_standard_shape_witness :
  ∃ l, inferences (_display_detected_frames (H := stub_backend) demo_conf
                     demo_model 0 (stub_frame 10)
                     (fresh_world (demo_inputs "" None None) None)).2 =
         [] ++ l ∧
       length l ≤ 1 ∧
       Forall (λ i, i.1.1 = demo_model ∧ i.2 = demo_conf ∧
                    has_shape 405 720 3 i.1.2) l.
Proof.
  refine (detector_sees_standard_shape (H := stub_backend) demo_conf demo_model
            0 (stub_frame 10) (fresh_world (demo_inputs "" None None) None) _).
  by apply (bool_decide_unpack _).
Defined.
