(* ===== verification/ModelLoader.v ===== *)
(** * The model loader

    [load_model] of [src/utils.py] (lines 34-46): [YOLO(model_path)] under
    the decorator [st.cache_resource].  The decorator keeps, for the life
    of the process, the object the function returned for each argument: a
    call with an argument seen before returns that object without running
    the body, and a call whose body raises stores nothing.  The theorems
    show the contract of the specification's section 4.1: identical paths
    give the identical handle with no second load, a failed load leaves no
    handle, and over any sequence of calls each weights file is loaded at
    most once. *)

From Stdlib Require Import ZArith QArith.
From stdpp Require Import base option list strings gmap.
From S2P Require Import Prelude Image Streamlit Backend Capture World Demo.
Close Scope Q_scope.

Section ModelLoader.
Context `{Backend}.
Implicit Types (w : World) (model_path : string) (model : Model).

(** ** The code *)

(** [@st.cache_resource]: the cached object for [key] when there is one;
    otherwise the body's result, stored under [key] when the body returns.
    The key is the argument of the call as a string: the script passes a
    [pathlib.Path] (app.py 104), keyed by the string it prints, or the
    empty string when no model is selected (app.py 102); a path never
    prints as the empty string ([App.Path_not_empty]), so the two kinds
    of argument never share a key. *)
Definition cache_resource (key : string) (body : M World Model)
  : M World Model :=
  λ w, match cache w !! key with
       | Some cached => (Ok cached, w)
       | None =>
           (value <- body ;;
            modify (with_cache (<[key := value]>)) ;;
            ret value) w
       end.

Definition load_model (model_path : string) : M World Model :=
  cache_resource model_path
    (model <- YOLO model_path ;;
     ret model).

(** Calling [load_model] on each path in turn, ignoring the failures. *)
Definition load_each (paths : list string) (w : World) : World :=
  foldl (λ w p, (load_model p w).2) w paths.

(** ** The invariant of the cache *)

(** Every cached handle is the model built from the path it is stored
    under, a path that loads; and every model built is the cached one for
    its path. *)
Definition cache_ok (w : World) : Prop :=
  (∀ k m, cache w !! k = Some m →
     model_path m = k ∧ models w !! model_id m = Some k ∧
     yolo_load k = None) ∧
  (∀ i k, models w !! i = Some k →
     cache w !! k = Some {| model_id := i; model_path := k |}).

(** ** Behaviour on every branch *)

Lemma load_model_hit model_path model w :
  cache w !! model_path = Some model →
  load_model model_path w = (Ok model, w).
Proof. unfold load_model, cache_resource. by intros ->. Qed.

Lemma load_model_miss model_path w :
  cache w !! model_path = None → yolo_load model_path = None →
  load_model model_path w =
  (Ok {| model_id := length (models w); model_path := model_path |},
   with_cache
     (<[model_path :=
          {| model_id := length (models w); model_path := model_path |}]>)
     (with_models (λ ms, ms ++ [model_path]) w)).
Proof.
  unfold load_model, cache_resource, YOLO, bind. by intros -> ->.
Qed.

Lemma load_model_fails model_path e w :
  cache w !! model_path = None → yolo_load model_path = Some e →
  load_model model_path w = (Raise e, w).
Proof. unfold load_model, cache_resource, YOLO, bind. by intros -> ->. Qed.

(** The three cases are all there are. *)
Lemma load_model_cases model_path w :
  (∃ model, cache w !! model_path = Some model ∧
            load_model model_path w = (Ok model, w)) ∨
  (∃ e, cache w !! model_path = None ∧ yolo_load model_path = Some e ∧
        load_model model_path w = (Raise e, w)) ∨
  (cache w !! model_path = None ∧ yolo_load model_path = None ∧
   load_model model_path w =
   (Ok {| model_id := length (models w); model_path := model_path |},
    with_cache
      (<[model_path :=
           {| model_id := length (models w); model_path := model_path |}]>)
      (with_models (λ ms, ms ++ [model_path]) w))).
Proof.
  destruct (cache w !! model_path) as [model|] eqn:Hc.
  { left. exists model. by rewrite (load_model_hit _ model). }
  right. destruct (yolo_load model_path) as [e|] eqn:Hl.
  - left. exists e. by rewrite (load_model_fails _ e).
  - right. by rewrite load_model_miss.
Qed.

Lemma cache_ok_fresh i cam : cache_ok (fresh_world i cam).
Proof. split; intros ??; simpl; by rewrite ?lookup_empty. Qed.

Lemma cache_ok_miss model_path w :
  cache_ok w → cache w !! model_path = None → yolo_load model_path = None →
  cache_ok (with_cache
    (<[model_path :=
         {| model_id := length (models w); model_path := model_path |}]>)
    (with_models (λ ms, ms ++ [model_path]) w)).
Proof.
  intros [Hc Hm] Hnone Hload. split; wsimpl.
  - intros k m. rewrite lookup_insert. case_decide as Hk.
    + intros [= <-]; simpl. subst k. split; [done|]. split; [|done].
      by rewrite lookup_app_r, Nat.sub_diag.
    + intros Hkm. destruct (Hc k m Hkm) as (Hp & Hi & Hl).
      split; [done|]. split; [|done]. by apply lookup_app_l_Some.
  - intros i k. rewrite lookup_app_Some. intros [Hi|[Hlen Hi]].
    + rewrite lookup_insert_ne; [by apply Hm|].
      intros <-. specialize (Hm i model_path Hi). by rewrite Hnone in Hm.
    + apply list_lookup_singleton_Some in Hi as [Hi <-].
      rewrite lookup_insert_eq. do 2 f_equal. lia.
Qed.

Lemma load_model_cache_ok model_path w :
  cache_ok w → cache_ok (load_model model_path w).2.
Proof.
  intros Hok.
  destruct (load_model_cases model_path w)
    as [(m & _ & ->) | [(e & _ & _ & ->) | (Hc & Hl & ->)]]; try done.
  by apply cache_ok_miss.
Qed.

(** The invariant reads the cache and the models built, nothing else. *)
Lemma cache_ok_loader_only : loader_only cache_ok.
Proof. intros w w' Hc Hm. unfold cache_ok. by rewrite Hc, Hm. Qed.

(** No weights file is among the models built twice. *)
Lemma cache_ok_NoDup w : cache_ok w → NoDup (models w).
Proof.
  intros [_ Hm]. apply NoDup_alt. intros i j k Hi Hj.
  apply Hm in Hi, Hj. rewrite Hi in Hj. by injection Hj.
Qed.

(** The models built after one call. *)
Lemma load_model_models model_path w p :
  cache_ok w →
  p ∈ models (load_model model_path w).2 ↔
  p ∈ models w ∨ (p = model_path ∧ yolo_load model_path = None).
Proof.
  intros [Hc Hm].
  destruct (load_model_cases model_path w)
    as [(m & Hhit & ->) | [(e & _ & Hl & ->) | (_ & Hl & ->)]]; cbn [snd].
  - split; [by left|]. intros [?|[-> _]]; [done|].
    destruct (Hc _ _ Hhit) as (_ & Hi & _). by eapply list_elem_of_lookup_2.
  - split; [by left|]. intros [?|[_ Hl']]; [done|]. by rewrite Hl in Hl'.
  - wsimpl. rewrite elem_of_app, list_elem_of_singleton.
    intuition congruence.
Qed.

Lemma load_each_models paths w :
  cache_ok w →
  cache_ok (load_each paths w) ∧
  ∀ p, p ∈ models (load_each paths w) ↔
       p ∈ models w ∨ (p ∈ paths ∧ yolo_load p = None).
Proof.
  revert w. induction paths as [|a paths IH]; intros w Hok; simpl.
  { split; [done|]. intros p. rewrite elem_of_nil. tauto. }
  destruct (IH _ (load_model_cache_ok a w Hok)) as [Hok' Hiff].
  split; [done|]. intros p.
  rewrite Hiff, (load_model_models a w p Hok), elem_of_cons.
  intuition congruence.
Qed.

End ModelLoader.

(** ** The contract of section 4.1 *)

Section LoaderClaims.
Context `{Backend}.
Implicit Types (w : World) (model_path : string) (model : Model).

(** C8: a second call of [load_model] with the same path returns the
    handle of the first, the identical object, and changes nothing: the
    weights are not loaded again. *)
Theorem load_model_twice_same_handle model_path model w :
  (load_model model_path w).1 = Ok model →
  load_model model_path (load_model model_path w).2 =
  (Ok model, (load_model model_path w).2).
Proof.
  destruct (load_model_cases model_path w)
    as [(m & Hhit & ->) | [(e & _ & _ & ->) | (_ & _ & ->)]];
    cbn [fst snd]; intros [= <-].
  - by apply load_model_hit.
  - apply load_model_hit. wsimpl. apply lookup_insert_eq.
Qed.

(** C27: a load that fails raises the loader's exception and leaves the
    world as it was: no handle is cached, no model is built, and a later
    call tries the load again. *)
Theorem load_model_failure_leaves_no_handle model_path e w :
  cache w !! model_path = None → yolo_load model_path = Some e →
  load_model model_path w = (Raise e, w) ∧
  load_model model_path (load_model model_path w).2 = (Raise e, w).
Proof.
  intros Hc Hl. rewrite (load_model_fails _ e) by done. split; [done|].
  by apply load_model_fails.
Qed.

(** [load_model] keeps the cache consistent: after any call every
    cached handle is the model built from the path it is stored under,
    and every model built is the one cached for its path. *)
Theorem load_model_preserves_cache_ok model_path w :
  cache_ok w → cache_ok (load_model model_path w).2.
Proof. apply load_model_cache_ok. Qed.

(** C26: over any sequence of calls in one process each weights file is
    loaded at most once: the models built are exactly the requested paths
    that load, without repetition. *)
Theorem load_each_loads_once paths i cam :
  NoDup (models (load_each paths (fresh_world i cam))) ∧
  ∀ p, p ∈ models (load_each paths (fresh_world i cam)) ↔
       p ∈ paths ∧ yolo_load p = None.
Proof.
  destruct (load_each_models paths (fresh_world i cam) (cache_ok_fresh i cam))
    as [Hok Hiff].
  split; [by apply cache_ok_NoDup|]. intros p. rewrite Hiff; simpl.
  rewrite elem_of_nil. tauto.
Qed.

(** C39: the cached loader agrees with the plain constructor: when the
    cache is consistent, [load_model] returns a handle exactly when
    [YOLO] would, for the same weights file, and raises exactly the
    exception [YOLO] would raise. *)
Theorem load_model_agrees_with_YOLO model_path w :
  cache_ok w →
  match (load_model model_path w).1, (YOLO model_path w).1 with
  | Ok cached, Ok built => Backend.model_path cached = Backend.model_path built
  | Raise e, Raise e' => e = e'
  | _, _ => False
  end.
Proof.
  intros [Hc _].
  destruct (load_model_cases model_path w)
    as [(m & Hhit & ->) | [(e & _ & Hl & ->) | (_ & Hl & ->)]];
    unfold YOLO; cbn [fst]; rewrite ?Hl; try done.
  destruct (Hc _ _ Hhit) as (Hp & _ & ->). done.
Qed.

End LoaderClaims.

(** ** The theorems on concrete inputs *)

Definition loader_demo_world : World := fresh_world (demo_inputs "" None None) None.

Lemma load_model_twice_same_handle_witness :
  load_model (H := stub_backend) "weights/yolov8n.pt"
    (load_model (H := stub_backend) "weights/yolov8n.pt" loader_demo_world).2 =
  (Ok demo_model,
   (load_model (H := stub_backend) "weights/yolov8n.pt" loader_demo_world).2).
Proof.
  apply (load_model_twice_same_handle (H := stub_backend)). reflexivity.
Defined.

Lemma load_model_failure_leaves_no_handle_witness :
  load_model (H := stub_backend) "" loader_demo_world =
  (Raise (LibraryError "no such model"), loader_demo_world) ∧
  load_model (H := stub_backend) ""
    (load_model (H := stub_backend) "" loader_demo_world).2 =
  (Raise (LibraryError "no such model"), loader_demo_world).
Proof.
  apply (load_model_failure_leaves_no_handle (H := stub_backend));
    reflexivity.
Defined.

Lemma load_model_preserves_cache_ok_witness :
  cache_ok (H := stub_backend)
    (load_model (H := stub_backend) "weights/yolov8n.pt" loader_demo_world).2.
Proof.
  apply (load_model_preserves_cache_ok (H := stub_backend)).
  apply cache_ok_fresh.
Defined.

Lemma load_model_agrees_with_YOLO_witness :
  match (load_model (H := stub_backend) "weights/yolov8n.pt"
           loader_demo_world).1,
        (YOLO (H := stub_backend) "weights/yolov8n.pt" loader_demo_world).1
  with
  | Ok cached, Ok built => Backend.model_path cached = Backend.model_path built
  | Raise e, Raise e' => e = e'
  | _, _ => False
  end.
Proof.
  apply (load_model_agrees_with_YOLO (H := stub_backend)).
  apply cache_ok_fresh.
Defined.

