(* ===== verification/FrameLoop.v ===== *)
(** * The frame loop

    The loop body that [infer_uploaded_video] (lines 114-119) and
    [infer_uploaded_webcam] (lines 135-140) of [src/utils.py] share: read a
    frame; on success infer and show it; otherwise release the capture and
    leave the loop.  The theorems describe a whole run of the loop under
    any loop test that lets an opened capture through: what the world is
    when the feed ends after [n] good frames, what it is when the
    inference of a frame raises, and that on a feed that ends the loop
    needs only finitely many iterations. *)

From Stdlib Require Import ZArith QArith.
From stdpp Require Import base option list strings gmap.
From S2P Require Import Prelude Image Streamlit Backend Capture World Inference.
Close Scope Q_scope.

Section FrameLoop.
Context `{Backend}.
Context (conf : Q) (model : Model) (st_frame vid_cap : nat).
Implicit Types (w : World) (c : Capture) (frames : list Image)
  (grs : list (Image * Results)).

(** ** The code *)

(** One iteration: [success, image = vid_cap.read()], then the [if]. *)
Definition frame_step : M World loop_ctl :=
  r <- cap_read vid_cap ;;
  match r with
  | Some image =>
      _display_detected_frames conf model st_frame image ;;
      ret Continue
  | None =>
      cap_release vid_cap ;;
      ret Break
  end.

(** ** Specification of a run *)

(** Frame [f] infers to [gr]. *)
Definition infers (f : Image) (gr : Image * Results) : Prop :=
  infer_frame conf model f = inr gr.

(** The world after the frames with inference results [grs] were shown,
    one after the other, in the slot. *)
Definition play (grs : list (Image * Results)) (w : World) : World :=
  foldl (λ w gr, show_frame conf model st_frame gr w) w grs.

(** ** One iteration, on each branch *)

Lemma frame_step_frame w c image gr :
  caps w !! vid_cap = Some c → cap_opened c = true →
  cap_feed c (cap_pos c) = Some image → infers image gr →
  frame_step w =
  (Ok Continue,
   show_frame conf model st_frame gr
     (with_caps (<[vid_cap := capture_advance 1 c]>) w)).
Proof.
  intros Hc Ho Hf Hi. unfold frame_step, cap_read, bind.
  rewrite (on_capture_lookup _ _ _ c Hc), (capture_read_frame c image Ho Hf).
  simpl. by rewrite (display_ok _ _ _ _ gr _ Hi).
Qed.

Lemma frame_step_end w c :
  caps w !! vid_cap = Some c → capture_read c = (None, c) →
  frame_step w = (Ok Break, with_caps (<[vid_cap := capture_release c]>) w).
Proof.
  intros Hc Hr. unfold frame_step, cap_read, cap_release, bind.
  rewrite (on_capture_lookup _ _ _ c Hc), Hr; simpl.
  rewrite (on_capture_lookup _ _ _ c); simpl.
  - by rewrite with_caps_insert_insert.
  - apply list_lookup_insert_eq. by eapply lookup_lt_Some.
Qed.

Lemma frame_step_raises w c image e :
  caps w !! vid_cap = Some c → cap_opened c = true →
  cap_feed c (cap_pos c) = Some image → infer_frame conf model image = inl e →
  ∃ w', frame_step w = (Raise e, w') ∧ page w' = page w ∧
        caps w' = <[vid_cap := capture_advance 1 c]> (caps w).
Proof.
  intros Hc Ho Hf Hi. unfold frame_step, cap_read, bind.
  rewrite (on_capture_lookup _ _ _ c Hc), (capture_read_frame c image Ho Hf).
  simpl.
  destruct (display_raises conf model st_frame image e
              (with_caps (<[vid_cap := capture_advance 1 c]>) w) Hi)
    as (w' & -> & Hp & Hcaps).
  by exists w'.
Qed.

(** An iteration runs no loop of its own. *)
Lemma frame_step_terminates w : terminated (frame_step w).1.
Proof.
  unfold frame_step, cap_read, cap_release, on_capture, bind.
  destruct (caps w !! vid_cap) as [c|]; [|done]; simpl.
  destruct (capture_read c).1 as [image|]; simpl.
  - pose proof (display_terminates conf model st_frame image
                  (with_caps <[vid_cap:=(capture_read c).2]> w)) as Ht.
    by destruct (_display_detected_frames _ _ _ _ _) as [[]?].
  - by destruct (_ !! vid_cap).
Qed.

(** The three ways an iteration can end. *)
Lemma frame_step_cases w c :
  caps w !! vid_cap = Some c →
  (∃ w', frame_step w = (Ok Break, w')) ∨
  (∃ e w', frame_step w = (Raise e, w')) ∨
  (∃ image w', frame_step w = (Ok Continue, w') ∧
     cap_feed c (cap_pos c) = Some image ∧
     caps w' !! vid_cap = Some (capture_advance 1 c)).
Proof.
  intros Hc. destruct (cap_opened c) eqn:Ho.
  2: { left. eexists. apply (frame_step_end w c Hc).
       by apply capture_read_closed. }
  destruct (cap_feed c (cap_pos c)) as [image|] eqn:Hf.
  2: { left. eexists. apply (frame_step_end w c Hc).
       by apply capture_read_end. }
  right. destruct (infer_frame conf model image) as [e|gr] eqn:Hi.
  - left. destruct (frame_step_raises w c image e Hc Ho Hf Hi) as (w' & ? & _).
    by exists e, w'.
  - right. exists image. eexists. split; [by apply (frame_step_frame w c image gr)|].
    split; [done|]. rewrite show_frame_caps. by apply (with_caps_insert_lookup _ c).
Qed.

(** An iteration keeps the loader's state, whatever its outcome. *)
Lemma frame_step_keeps_loader : keeps_loader frame_step.
Proof.
  unfold frame_step. keeps_loader_tac. apply display_keeps_loader.
Qed.

(** ** Playing frames *)

Lemma play_nil w : play [] w = w.
Proof. reflexivity. Qed.

Lemma play_cons gr grs w :
  play (gr :: grs) w = play grs (show_frame conf model st_frame gr w).
Proof. reflexivity. Qed.

Lemma play_snoc grs gr w :
  play (grs ++ [gr]) w = show_frame conf model st_frame gr (play grs w).
Proof. unfold play. by rewrite foldl_app. Qed.

Lemma play_with_caps f grs w :
  play grs (with_caps f w) = with_caps f (play grs w).
Proof.
  revert w. induction grs as [|gr grs IH]; intros w; [done|].
  by rewrite !play_cons, show_frame_with_caps, IH.
Qed.

Lemma play_caps grs w : caps (play grs w) = caps w.
Proof.
  revert w. induction grs as [|gr grs IH]; intros w; [done|].
  by rewrite play_cons, IH.
Qed.

Lemma play_inferences grs w :
  inferences (play grs w) =
  inferences w ++ ((λ gr, (model, gr.1, conf)) <$> grs).
Proof.
  revert w. induction grs as [|gr grs IH]; intros w.
  - simpl. by rewrite app_nil_r.
  - by rewrite play_cons, IH, show_frame_inferences, fmap_cons, <- app_assoc.
Qed.

Lemma play_elems grs w : elems (page (play grs w)) = elems (page w).
Proof.
  revert w. induction grs as [|gr grs IH]; intros w; [done|].
  by rewrite play_cons, IH.
Qed.

Lemma play_errors grs w :
  error_reports (page (play grs w)) = error_reports (page w).
Proof. apply error_reports_elems, play_elems. Qed.

Lemma play_inputs grs w : inputs (play grs w) = inputs w.
Proof.
  revert w. induction grs as [|gr grs IH]; intros w; [done|].
  by rewrite play_cons, IH.
Qed.

Lemma play_slots_length grs w :
  length (slots (page (play grs w))) = length (slots (page w)).
Proof.
  revert w. induction grs as [|gr grs IH]; intros w; [done|].
  by rewrite play_cons, IH, show_frame_slots_length.
Qed.

(** After playing, the slot shows the last frame played. *)
Lemma play_shown grs gr w :
  st_frame < length (slots (page w)) →
  shown (play (grs ++ [gr]) w) st_frame =
  Some (ImageBox (FromArray (plot gr.2)) VIDEO_CAPTION BGR true).
Proof.
  intros Hs. rewrite play_snoc. apply show_frame_shown.
  by rewrite play_slots_length.
Qed.

(** Playing leaves every other slot alone. *)
Lemma play_shown_ne grs slot w :
  st_frame ≠ slot → shown (play grs w) slot = shown w slot.
Proof.
  intros Hs. revert w. induction grs as [|gr grs IH]; intros w; [done|].
  by rewrite play_cons, IH, show_frame_shown_ne.
Qed.

(** ** A run of the loop *)

Section Run.
Context (cond : M World bool).
Hypothesis cond_opened : ∀ w c,
  caps w !! vid_cap = Some c → cap_opened c = true → cond w = (Ok true, w).

(** The feed ends after [frames], each of which infers: the loop shows
    them all in order, releases the capture once, and returns. *)
Lemma frame_loop_exhausts frames grs :
  Forall2 infers frames grs →
  ∀ fuel w c,
    caps w !! vid_cap = Some c → cap_opened c = true →
    feeds (cap_feed c) (cap_pos c) frames →
    cap_feed c (length frames + cap_pos c) = None →
    length frames < fuel →
    while_loop fuel cond frame_step w =
    (Ok tt,
     with_caps
       (<[vid_cap := capture_release (capture_advance (length frames) c)]>)
       (play grs w)).
Proof.
  induction 1 as [|f gr frames grs Hi _ IH];
    intros [|fuel] w c Hc Ho Hfeed Hend Hfuel; simpl in Hfuel; try lia;
    rewrite while_loop_unfold, (cond_opened w c Hc Ho).
  - rewrite (frame_step_end w c Hc (capture_read_end c Hend)).
    by rewrite capture_advance_0.
  - destruct Hfeed as [Hf Hfeed].
    rewrite (frame_step_frame w c f gr Hc Ho Hf Hi).
    rewrite (IH fuel _ (capture_advance 1 c)).
    + rewrite play_cons, show_frame_with_caps, play_with_caps.
      rewrite with_caps_insert_insert, capture_advance_advance.
      by rewrite Nat.add_1_r.
    + by apply (with_caps_insert_lookup _ c).
    + done.
    + done.
    + simpl in Hend |- *. by rewrite <- Nat.add_succ_r in Hend.
    + lia.
Qed.

(** The inference of the frame after [frames] raises: the loop shows
    [frames], then raises that exception with the capture still open and
    unreleased. *)
Lemma frame_loop_raises frames grs bad e :
  Forall2 infers frames grs →
  infer_frame conf model bad = inl e →
  ∀ fuel w c,
    caps w !! vid_cap = Some c → cap_opened c = true →
    feeds (cap_feed c) (cap_pos c) (frames ++ [bad]) →
    length frames < fuel →
    ∃ w', while_loop fuel cond frame_step w = (Raise e, w') ∧
          page w' = page (play grs w) ∧
          caps w' =
          <[vid_cap := capture_advance (S (length frames)) c]> (caps w).
Proof.
  intros Hall Hbad. induction Hall as [|f gr frames grs Hi _ IH];
    intros [|fuel] w c Hc Ho Hfeed Hfuel; simpl in Hfuel; try lia;
    rewrite while_loop_unfold, (cond_opened w c Hc Ho);
    destruct Hfeed as [Hf Hfeed].
  - destruct (frame_step_raises w c bad e Hc Ho Hf Hbad) as (w' & -> & ? & ?).
    by exists w'.
  - rewrite (frame_step_frame w c f gr Hc Ho Hf Hi).
    destruct (IH fuel (show_frame conf model st_frame gr
                (with_caps (<[vid_cap := capture_advance 1 c]>) w))
                (capture_advance 1 c)) as (w' & -> & Hp & Hcaps);
      [by apply (with_caps_insert_lookup _ c) | done | done | lia |].
    exists w'. split; [done|]. split.
    + by rewrite Hp, play_cons, show_frame_with_caps, play_with_caps.
    + rewrite Hcaps; simpl. rewrite list_insert_insert_eq.
      by rewrite capture_advance_advance, Nat.add_1_r.
Qed.

(** The feed still hands out frames when the fuel is spent: every unit of
    fuel went into one shown frame, and the capture is still open. *)
Lemma frame_loop_out_of_fuel frames grs :
  Forall2 infers frames grs →
  ∀ w c,
    caps w !! vid_cap = Some c → cap_opened c = true →
    feeds (cap_feed c) (cap_pos c) frames →
    while_loop (length frames) cond frame_step w =
    (OutOfFuel,
     with_caps (<[vid_cap := capture_advance (length frames) c]>)
       (play grs w)).
Proof.
  induction 1 as [|f gr frames grs Hi _ IH]; intros w c Hc Ho Hfeed.
  - cbn [length]. rewrite while_loop_0, (cond_opened w c Hc Ho).
    by rewrite capture_advance_0, play_nil, (with_caps_insert_id _ c).
  - destruct Hfeed as [Hf Hfeed]. simpl length.
    rewrite while_loop_unfold, (cond_opened w c Hc Ho).
    rewrite (frame_step_frame w c f gr Hc Ho Hf Hi).
    rewrite (IH _ (capture_advance 1 c));
      [| by apply (with_caps_insert_lookup _ c) | done | done].
    rewrite play_cons, show_frame_with_caps, play_with_caps.
    rewrite with_caps_insert_insert, capture_advance_advance.
    by rewrite Nat.add_1_r.
Qed.

End Run.

(** ** Termination *)

Section Termination.
Context (cond : M World bool).
Hypothesis cond_pure : ∀ w, terminated (cond w).1 ∧ (cond w).2 = w.

(** On a feed that fails [n] frames ahead, [n + 1] iterations are enough,
    whatever the inferences do. *)
Lemma frame_loop_terminates n :
  ∀ fuel w c,
    caps w !! vid_cap = Some c → cap_feed c (n + cap_pos c) = None →
    n < fuel →
    terminated (while_loop fuel cond frame_step w).1.
Proof.
  induction n as [|n IH]; intros [|fuel] w c Hc Hend Hfuel; try lia;
    rewrite while_loop_unfold;
    destruct (cond_pure w) as [Ht Hw];
    destruct (cond w) as [[[]|?|] w1]; simpl in *; try done; subst w1;
    destruct (frame_step_cases w c Hc)
      as [(w' & ->) | [(e & w' & ->) | (image & w' & -> & Hf & Hc')]];
    try done.
  - by rewrite Hend in Hf.
  - apply (IH fuel w' (capture_advance 1 c)); [done | | lia].
    simpl. by rewrite Nat.add_succ_r.
Qed.

End Termination.

End FrameLoop.
