(* ===== verification/Video.v ===== *)
(** * The video source

    [infer_uploaded_video] of [src/utils.py] (lines 91-121): the uploader
    and the start button, then, in a [try], a temporary copy of the upload,
    a capture on it, one display slot, and the frame loop under the test
    [vid_cap.isOpened()]; an exception is turned into an error box.  The
    loop is bounded by [fuel] in the model; [video_terminates] shows that
    one more unit than the file has frames is always enough. *)

From Stdlib Require Import ZArith QArith.
From stdpp Require Import base option list strings gmap.
From S2P Require Import Prelude Image Streamlit Backend Capture World.
From S2P Require Import Inference Demo FrameLoop.
Close Scope Q_scope.

(** ** Texts *)

Definition VIDEO_UPLOAD_LABEL : string := "选择一个视频...".
Definition VIDEO_ERROR_PREFIX : string := "加载视频出错: ".

Section Video.
Context `{Backend}.
Implicit Types (w : World) (conf : Q) (model : Model) (f : Upload)
  (frames : list Image) (grs : list (Image * Results)).

(** ** The code *)

(** [while vid_cap.isOpened(): ...] *)
Definition video_loop (fuel : nat) (conf : Q) (model : Model)
  (st_frame vid_cap : nat) : M World unit :=
  while_loop fuel (cap_isOpened vid_cap)
    (frame_step conf model st_frame vid_cap).

(** The [try] statement of lines 108-121. *)
Definition video_run (fuel : nat) (conf : Q) (model : Model)
  (source_video : Upload) : M World unit :=
  try_except
    (tfile <- NamedTemporaryFile ;;
     tfile_write tfile (up_data source_video) ;;
     vid_cap <- VideoCapture_file tfile ;;
     st_frame <- st_empty ;;
     video_loop fuel conf model st_frame vid_cap)
    (λ e, st_error (VIDEO_ERROR_PREFIX +:+ exn_str e)).

Definition infer_uploaded_video (fuel : nat) (conf : Q) (model : Model)
  : M World unit :=
  source_video <- st_sidebar_file_uploader VIDEO_UPLOAD_LABEL [] ;;
  match source_video with
  | Some f => st_emit (VideoBox f)
  | None => ret tt
  end ;;
  match source_video with
  | Some f =>
      start <- st_button START_LABEL ;;
      if start : bool then
        st_spinner SPINNER_TEXT (video_run fuel conf model f)
      else ret tt
  | None => ret tt
  end.

(** ** The worlds a run goes through *)

(** The page once the widgets are drawn. *)
Definition video_widgets (source_video : option Upload) (w : World) : World :=
  match source_video with
  | Some f =>
      with_page (λ p, page_emit (Button START_LABEL)
                        (page_emit (VideoBox f)
                           (page_emit_in Sidebar
                              (FileUploader VIDEO_UPLOAD_LABEL []) p))) w
  | None =>
      with_page (page_emit_in Sidebar (FileUploader VIDEO_UPLOAD_LABEL [])) w
  end.

(** The capture made on the upload. *)
Definition video_capture (f : Upload) : Capture :=
  capture_new (feed_of_frames <$> cv2_decode (up_data f)).

(** The world when the loop is entered: the temporary copy, the capture
    and the display slot exist. *)
Definition video_opened (f : Upload) (w : World) : World :=
  with_page (λ p, (page_empty p).2)
    (with_caps (λ cs, cs ++ [video_capture f])
       (with_tmpfiles (λ fs, fs ++ [up_data f]) w)).

(** The world after every frame was shown and the capture released. *)
Definition video_done (conf : Q) (model : Model) (f : Upload)
  (frames : list Image) (grs : list (Image * Results)) (w : World) : World :=
  with_caps
    (<[length (caps w) :=
         capture_release (capture_advance (length frames) (video_capture f))]>)
    (play conf model (length (slots (page w))) grs (video_opened f w)).

(** ** Unfolding the code *)

(** Writing the upload to a new temporary file and opening it. *)
Lemma video_opened_caps f w :
  caps (video_opened f w) !! length (caps w) = Some (video_capture f).
Proof. simpl. by rewrite lookup_app_r, Nat.sub_diag. Qed.

Lemma video_opened_errors f w :
  error_reports (page (video_opened f w)) = error_reports (page w).
Proof. apply error_reports_empty. Qed.

Lemma tmpfile_written (data : list Z) (fs : list (list Z)) :
  alter (λ old, old ++ data) (length fs) (fs ++ [[]]) = fs ++ [data].
Proof. by rewrite alter_app_r_alt, Nat.sub_diag. Qed.

Lemma video_run_unfold fuel conf model f w :
  video_run fuel conf model f w =
  try_except
    (video_loop fuel conf model (length (slots (page w))) (length (caps w)))
    (λ e, st_error (VIDEO_ERROR_PREFIX +:+ exn_str e))
    (video_opened f w).
Proof.
  unfold video_run, video_loop, try_except, bind, NamedTemporaryFile,
    tfile_write, VideoCapture_file, st_empty, modify; simpl.
  match goal with
  | |- context [while_loop _ _ _ ?w1] =>
      replace w1 with (video_opened f w); [done|]
  end.
  unfold video_opened, video_capture, with_page, with_caps, with_tmpfiles;
    simpl.
  by rewrite tmpfile_written, lookup_app_r, Nat.sub_diag.
Qed.

Lemma infer_uploaded_video_start fuel conf model f w :
  in_upload (inputs w) VIDEO_UPLOAD_LABEL = Some f →
  clicked (inputs w) START_LABEL = true →
  infer_uploaded_video fuel conf model w =
  video_run fuel conf model f (video_widgets (Some f) w).
Proof.
  intros Hup Hclick.
  unfold infer_uploaded_video, st_sidebar_file_uploader, st_button,
    st_sidebar_emit, st_emit, st_spinner, bind, gets, modify; wsimpl.
  by rewrite uploaded_any, Hup; wsimpl; rewrite Hclick.
Qed.

Lemma infer_uploaded_video_idle fuel conf model w :
  in_upload (inputs w) VIDEO_UPLOAD_LABEL = None ∨
  clicked (inputs w) START_LABEL = false →
  infer_uploaded_video fuel conf model w =
  (Ok tt, video_widgets (in_upload (inputs w) VIDEO_UPLOAD_LABEL) w).
Proof.
  unfold infer_uploaded_video, st_sidebar_file_uploader, st_button,
    st_sidebar_emit, st_emit, st_spinner, bind, gets, modify; wsimpl.
  rewrite uploaded_any.
  destruct (in_upload _ _) as [f|]; wsimpl; [|done].
  by intros [?| ->].
Qed.

(** ** The loop test *)

Lemma isOpened_opened vid_cap w c :
  caps w !! vid_cap = Some c → cap_opened c = true →
  cap_isOpened vid_cap w = (Ok true, w).
Proof. intros Hc Ho. by rewrite (cap_isOpened_lookup _ _ c), Ho. Qed.

Lemma isOpened_pure vid_cap w :
  terminated (cap_isOpened vid_cap w).1 ∧ (cap_isOpened vid_cap w).2 = w.
Proof. unfold cap_isOpened. by destruct (caps w !! vid_cap). Qed.

(** The capture on a file the decoder opens. *)
Lemma video_capture_decoded f frames :
  cv2_decode (up_data f) = Some frames →
  video_capture f = capture_new (Some (feed_of_frames frames)).
Proof. unfold video_capture. by intros ->. Qed.

(** ** The [try] statement, on each way out *)

Lemma video_run_plays fuel conf model f frames grs w :
  cv2_decode (up_data f) = Some frames →
  Forall2 (infers conf model) frames grs →
  length frames < fuel →
  video_run fuel conf model f w = (Ok tt, video_done conf model f frames grs w).
Proof.
  intros Hdec Hall Hfuel. rewrite video_run_unfold. apply try_except_ok.
  unfold video_loop, video_done.
  apply (frame_loop_exhausts conf model _ _ _ (isOpened_opened _) frames grs
           Hall); try done.
  - apply video_opened_caps.
  - by rewrite (video_capture_decoded f frames).
  - rewrite (video_capture_decoded f frames) by done. apply feeds_all.
  - rewrite (video_capture_decoded f frames) by done.
    apply feed_of_frames_end. simpl. lia.
Qed.

Lemma video_run_raises fuel conf model f frames grs bad rest e w :
  cv2_decode (up_data f) = Some (frames ++ bad :: rest) →
  Forall2 (infers conf model) frames grs →
  infer_frame conf model bad = inl e →
  length frames < fuel →
  ∃ w', video_run fuel conf model f w = (Ok tt, w') ∧
        error_reports (page w') =
        error_reports (page w) ++ [VIDEO_ERROR_PREFIX +:+ exn_str e] ∧
        caps w' =
        caps w ++ [capture_advance (S (length frames)) (video_capture f)].
Proof.
  intros Hdec Hall Hbad Hfuel. rewrite video_run_unfold. unfold video_loop.
  destruct (frame_loop_raises conf model (length (slots (page w)))
              (length (caps w)) _ (isOpened_opened _) frames grs bad e Hall Hbad
              fuel (video_opened f w) (video_capture f))
    as (w' & Hrun & Hpage & Hcaps); try done.
  - apply video_opened_caps.
  - by rewrite (video_capture_decoded f _ Hdec).
  - rewrite (video_capture_decoded f _ Hdec); simpl.
    pose proof (feeds_of_frames [] (frames ++ [bad]) rest) as Hf.
    by rewrite <- app_assoc in Hf.
  - rewrite (try_except_raise _ _ _ e w' Hrun), st_error_run.
    eexists. split; [done|]. wsimpl.
    rewrite error_reports_emit, Hpage, play_errors, video_opened_errors, Hcaps.
    split; [done|]. unfold video_opened; wsimpl.
    by rewrite insert_app_r_alt, Nat.sub_diag.
Qed.

Lemma video_run_not_opened fuel conf model f w :
  cv2_decode (up_data f) = None →
  video_run fuel conf model f w = (Ok tt, video_opened f w).
Proof.
  intros Hdec. rewrite video_run_unfold. apply try_except_ok.
  apply while_loop_false.
  rewrite (cap_isOpened_lookup _ _ _ (video_opened_caps f w)).
  unfold video_capture. by rewrite Hdec.
Qed.

(** ** What the final world of a full play shows *)

Lemma video_done_inferences conf model f frames grs w :
  inferences (video_done conf model f frames grs w) =
  inferences w ++ ((λ gr, (model, gr.1, conf)) <$> grs).
Proof. unfold video_done; wsimpl. by rewrite play_inferences. Qed.

Lemma video_done_caps conf model f frames grs w :
  caps (video_done conf model f frames grs w) =
  caps w ++
  [capture_release (capture_advance (length frames) (video_capture f))].
Proof.
  unfold video_done; wsimpl. rewrite play_caps. unfold video_opened; wsimpl.
  by rewrite insert_app_r_alt, Nat.sub_diag.
Qed.

Lemma video_done_elems conf model f frames grs w :
  elems (page (video_done conf model f frames grs w)) =
  elems (page w) ++
  [(current (page w), Placeholder (length (slots (page w))))].
Proof. unfold video_done; wsimpl. by rewrite play_elems. Qed.

Lemma video_done_errors conf model f frames grs w :
  error_reports (page (video_done conf model f frames grs w)) =
  error_reports (page w).
Proof.
  rewrite (error_reports_elems _ (page (video_opened f w))).
  - apply video_opened_errors.
  - unfold video_done; wsimpl. apply play_elems.
Qed.

Lemma video_done_slots_length conf model f frames grs w :
  length (slots (page (video_done conf model f frames grs w))) =
  S (length (slots (page w))).
Proof.
  unfold video_done; wsimpl. rewrite play_slots_length.
  unfold video_opened; wsimpl. apply page_empty_slots_length.
Qed.

Lemma video_done_shown conf model f frames grs gr w :
  shown (video_done conf model f frames (grs ++ [gr]) w)
    (length (slots (page w))) =
  Some (ImageBox (FromArray (plot gr.2)) VIDEO_CAPTION BGR true).
Proof.
  unfold video_done, shown; wsimpl. apply play_shown.
  unfold video_opened; wsimpl. rewrite page_empty_slots_length. lia.
Qed.

Lemma video_widgets_inferences o w :
  inferences (video_widgets o w) = inferences w.
Proof. by destruct o. Qed.

Lemma video_widgets_caps o w : caps (video_widgets o w) = caps w.
Proof. by destruct o. Qed.

Lemma video_widgets_slots o w :
  slots (page (video_widgets o w)) = slots (page w).
Proof. by destruct o. Qed.

Lemma video_widgets_errors o w :
  error_reports (page (video_widgets o w)) = error_reports (page w).
Proof.
  destruct o; unfold video_widgets; wsimpl;
    by rewrite ?error_reports_emit, ?error_reports_emit_in, ?app_nil_r.
Qed.

(** The video source keeps the loader's state, whatever its outcome. *)
Lemma video_keeps_loader fuel conf model :
  keeps_loader (infer_uploaded_video fuel conf model).
Proof.
  unfold infer_uploaded_video, video_run, video_loop. keeps_loader_tac.
  apply frame_step_keeps_loader.
Qed.

End Video.

#[global] Hint Rewrite @video_done_inferences @video_done_caps
  @video_done_elems @video_done_slots_length @video_widgets_inferences
  @video_widgets_caps @video_widgets_slots @video_widgets_errors : py.


(** ** The source as a whole: a file that plays to its end *)

Section Plays.
Context `{Backend}.
Context (fuel : nat) (conf : Q) (model : Model) (w : World) (f : Upload)
  (frames : list Image) (grs : list (Image * Results)).
Hypothesis uploaded : in_upload (inputs w) VIDEO_UPLOAD_LABEL = Some f.
Hypothesis started : clicked (inputs w) START_LABEL = true.
Hypothesis decoded : cv2_decode (up_data f) = Some frames.
Hypothesis inferred : Forall2 (infers conf model) frames grs.
Hypothesis enough : length frames < fuel.

(** The run, as one equation. *)
Lemma video_plays :
  infer_uploaded_video fuel conf model w =
  (Ok tt, video_done conf model f frames grs (video_widgets (Some f) w)).
Proof.
  rewrite (infer_uploaded_video_start _ _ _ f) by done.
  by apply video_run_plays.
Qed.

(** C1: with a video uploaded and the start button clicked, on a file of
    N decodable frames whose inferences all succeed,
    [infer_uploaded_video] returns normally (for any fuel above N) in
    exactly the world [video_done]: widgets drawn, one temporary copy, one
    capture advanced by N frames and released, and the N frames shown in
    order in the one slot. *)
Theorem video_plays_every_frame :
  infer_uploaded_video fuel conf model w =
  (Ok tt, video_done conf model f frames grs (video_widgets (Some f) w)).
Proof.
  rewrite (infer_uploaded_video_start _ _ _ f) by done.
  by apply video_run_plays.
Qed.

(** C2: in that run the detector is invoked exactly once per frame, in
    frame order, on the resized frame and with the session's confidence:
    the log of [predict] calls grows by exactly those N entries. *)
Theorem video_infers_each_frame_once :
  inferences (infer_uploaded_video fuel conf model w).2 =
  inferences w ++ ((λ gr, (model, gr.1, conf)) <$> grs) ∧
  length (inferences (infer_uploaded_video fuel conf model w).2) =
  length (inferences w) + length frames.
Proof.
  rewrite video_plays; cbn [fst snd].
  rewrite video_done_inferences, video_widgets_inferences. split; [done|].
  rewrite length_app, length_fmap. by rewrite (Forall2_length _ _ _ inferred).
Qed.

(** C3: in that run exactly one capture is created, and it ends closed,
    advanced by the N frames and released exactly once; the captures that
    existed before are untouched. *)
Theorem video_releases_once :
  ∃ c, caps (infer_uploaded_video fuel conf model w).2 = caps w ++ [c] ∧
       cap_opened c = false ∧ cap_releases c = 1 ∧ cap_pos c = length frames.
Proof.
  rewrite video_plays; cbn [fst snd].
  rewrite video_done_caps, video_widgets_caps. eexists. split; [done|].
  rewrite (video_capture_decoded f frames decoded); simpl. by rewrite Nat.add_0_r.
Qed.

(** In that run the page gains one placeholder, whatever N is: the
    elements are the uploader, the video preview, the button and the one
    slot, and no error box is added. *)
Theorem video_single_slot :
  elems (page (infer_uploaded_video fuel conf model w).2) =
  elems (page w) ++
  [(Sidebar, FileUploader VIDEO_UPLOAD_LABEL []);
   (current (page w), VideoBox f);
   (current (page w), Button START_LABEL);
   (current (page w), Placeholder (length (slots (page w))))] ∧
  length (slots (page (infer_uploaded_video fuel conf model w).2)) =
  S (length (slots (page w))) ∧
  error_reports (page (infer_uploaded_video fuel conf model w).2) =
  error_reports (page w).
Proof.
  rewrite video_plays; cbn [fst snd]. split; [|split].
  - rewrite video_done_elems. unfold video_widgets, page_emit, page_emit_in;
      wsimpl; simpl. by rewrite <- !app_assoc.
  - by rewrite video_done_slots_length, video_widgets_slots.
  - by rewrite video_done_errors, video_widgets_errors.
Qed.

End Plays.

(** C36: when the file has at least one frame, the slot ends showing the
    annotated picture of the last frame, declared in BGR order, under the
    caption of the video slot. *)
Theorem video_shows_last_frame `{Backend} fuel conf model w f frames grs
    last_frame gr :
  in_upload (inputs w) VIDEO_UPLOAD_LABEL = Some f →
  clicked (inputs w) START_LABEL = true →
  cv2_decode (up_data f) = Some (frames ++ [last_frame]) →
  Forall2 (infers conf model) (frames ++ [last_frame]) (grs ++ [gr]) →
  length (frames ++ [last_frame]) < fuel →
  shown (infer_uploaded_video fuel conf model w).2 (length (slots (page w))) =
  Some (ImageBox (FromArray (plot gr.2)) VIDEO_CAPTION BGR true).
Proof.
  intros Hup Hst Hdec Hall Hfuel.
  rewrite (video_plays fuel conf model w f _ _ Hup Hst Hdec Hall Hfuel);
    cbn [fst snd].
  rewrite <- (video_widgets_slots (Some f) w). apply video_done_shown.
Qed.

(** ** The source as a whole: the other ways out *)

Section Outcomes.
Context `{Backend}.
Implicit Types (w : World) (conf : Q) (model : Model) (f : Upload).

(** C18: when the inference of a frame raises, the run still returns
    normally: the exception is caught, the loop is left, and one error box
    with the exception's text after the fixed prefix is added to the page;
    the frames before the failing one were inferred. *)
Theorem video_exception_reported fuel conf model w f frames grs bad rest e :
  in_upload (inputs w) VIDEO_UPLOAD_LABEL = Some f →
  clicked (inputs w) START_LABEL = true →
  cv2_decode (up_data f) = Some (frames ++ bad :: rest) →
  Forall2 (infers conf model) frames grs →
  infer_frame conf model bad = inl e →
  length frames < fuel →
  (infer_uploaded_video fuel conf model w).1 = Ok tt ∧
  error_reports (page (infer_uploaded_video fuel conf model w).2) =
  error_reports (page w) ++ [VIDEO_ERROR_PREFIX +:+ exn_str e].
Proof.
  intros Hup Hst Hdec Hall Hbad Hfuel.
  rewrite (infer_uploaded_video_start _ _ _ f) by done.
  destruct (video_run_raises fuel conf model f frames grs bad rest e
              (video_widgets (Some f) w) Hdec Hall Hbad Hfuel)
    as (w' & -> & Herr & _).
  cbn [fst snd]. by rewrite Herr, video_widgets_errors.
Qed.

(** C4: in that case the capture is never released: after the run it is
    still opened, with no [release()] call made on it, positioned after
    the failing frame. *)
Theorem video_exception_leaks_capture fuel conf model w f frames grs bad rest
    e :
  in_upload (inputs w) VIDEO_UPLOAD_LABEL = Some f →
  clicked (inputs w) START_LABEL = true →
  cv2_decode (up_data f) = Some (frames ++ bad :: rest) →
  Forall2 (infers conf model) frames grs →
  infer_frame conf model bad = inl e →
  length frames < fuel →
  ∃ c, caps (infer_uploaded_video fuel conf model w).2 = caps w ++ [c] ∧
       cap_opened c = true ∧ cap_releases c = 0 ∧
       cap_pos c = S (length frames).
Proof.
  intros Hup Hst Hdec Hall Hbad Hfuel.
  rewrite (infer_uploaded_video_start _ _ _ f) by done.
  destruct (video_run_raises fuel conf model f frames grs bad rest e
              (video_widgets (Some f) w) Hdec Hall Hbad Hfuel)
    as (w' & -> & _ & Hcaps).
  cbn [fst snd]. rewrite Hcaps, video_widgets_caps. eexists. split; [done|].
  rewrite (video_capture_decoded f _ Hdec); simpl. by rewrite Nat.add_0_r.
Qed.

(** C28: a file the decoder cannot open is passed over in silence: the run
    returns normally, the capture is made but not opened and never
    released, no frame is inferred, and no error box is added. *)
Theorem video_undecodable_silent fuel conf model w f :
  in_upload (inputs w) VIDEO_UPLOAD_LABEL = Some f →
  clicked (inputs w) START_LABEL = true →
  cv2_decode (up_data f) = None →
  (infer_uploaded_video fuel conf model w).1 = Ok tt ∧
  error_reports (page (infer_uploaded_video fuel conf model w).2) =
  error_reports (page w) ∧
  inferences (infer_uploaded_video fuel conf model w).2 = inferences w ∧
  caps (infer_uploaded_video fuel conf model w).2 =
  caps w ++ [capture_new None].
Proof.
  intros Hup Hst Hdec.
  rewrite (infer_uploaded_video_start _ _ _ f) by done.
  rewrite video_run_not_opened by done. cbn [fst snd].
  rewrite video_opened_errors, video_widgets_errors.
  unfold video_opened, video_capture; wsimpl.
  by rewrite Hdec, video_widgets_inferences, video_widgets_caps.
Qed.

(** Without an upload, or without a click on the start button, the
    run only draws the widgets: no temporary file, no capture, no
    inference, whatever the fuel. *)
Theorem video_idle fuel conf model w :
  in_upload (inputs w) VIDEO_UPLOAD_LABEL = None ∨
  clicked (inputs w) START_LABEL = false →
  (infer_uploaded_video fuel conf model w).1 = Ok tt ∧
  caps (infer_uploaded_video fuel conf model w).2 = caps w ∧
  tmpfiles (infer_uploaded_video fuel conf model w).2 = tmpfiles w ∧
  inferences (infer_uploaded_video fuel conf model w).2 = inferences w ∧
  slots (page (infer_uploaded_video fuel conf model w).2) = slots (page w).
Proof.
  intros Hidle. rewrite infer_uploaded_video_idle by done. cbn [fst snd].
  by destruct (in_upload _ _).
Qed.

(** [infer_uploaded_video] never raises: whatever the world, the upload
    and the fuel, no exception leaves the function. *)
Lemma video_never_raises fuel conf model w e :
  (infer_uploaded_video fuel conf model w).1 ≠ Raise e.
Proof.
  destruct (in_upload (inputs w) VIDEO_UPLOAD_LABEL) as [f|] eqn:Hup;
    [destruct (clicked (inputs w) START_LABEL) eqn:Hst|].
  - rewrite (infer_uploaded_video_start _ _ _ f) by done.
    by apply try_except_no_raise.
  - by rewrite infer_uploaded_video_idle by auto.
  - by rewrite infer_uploaded_video_idle by auto.
Qed.

(** The fuel that is enough for a world: one more than the frames of the
    uploaded file. *)
Definition video_fuel (w : World) : nat :=
  match in_upload (inputs w) VIDEO_UPLOAD_LABEL ≫= (cv2_decode ∘ up_data) with
  | Some frames => S (length frames)
  | None => 0
  end.

(** [infer_uploaded_video] terminates on every world: with the fuel
    [video_fuel w], or any larger, the loop never runs out of fuel,
    whether the frames infer or raise. *)
Lemma video_terminates fuel conf model w :
  video_fuel w ≤ fuel →
  terminated (infer_uploaded_video fuel conf model w).1.
Proof.
  unfold video_fuel.
  destruct (in_upload (inputs w) VIDEO_UPLOAD_LABEL) as [f|] eqn:Hup;
    [destruct (clicked (inputs w) START_LABEL) eqn:Hst|];
    [|by rewrite infer_uploaded_video_idle by auto..].
  simpl. intros Hfuel. rewrite (infer_uploaded_video_start _ _ _ f) by done.
  destruct (cv2_decode (up_data f)) as [frames|] eqn:Hdec;
    [|by rewrite video_run_not_opened].
  rewrite video_run_unfold. apply try_except_terminated; [|done].
  apply (frame_loop_terminates conf model _ _ _ (isOpened_pure _)
           (length frames) _ _ (video_capture f)); [| |lia].
  - apply video_opened_caps.
  - rewrite (video_capture_decoded f frames Hdec).
    apply feed_of_frames_end. simpl. lia.
Qed.

(** C19: [infer_uploaded_video] always returns.  On every world, whether
    or not a file is uploaded, whether it decodes, and whether its frames
    infer or raise, with fuel [video_fuel w] (one more than the file has
    frames) or more the function ends normally: it neither raises nor
    runs out of fuel. *)
Theorem video_always_returns fuel conf model w :
  video_fuel w ≤ fuel →
  (infer_uploaded_video fuel conf model w).1 = Ok tt.
Proof.
  intros Hfuel. apply returns_ok; [by apply video_terminates|].
  intros e. apply video_never_raises.
Qed.

End Outcomes.

(** ** The theorems on concrete inputs *)

(** A fresh process in which [f] is uploaded and the start button was
    clicked. *)
Definition video_demo_world (f : Upload) : World :=
  fresh_world (demo_inputs VIDEO_UPLOAD_LABEL (Some f) (Some START_LABEL)) None.

Lemma video_plays_every_frame_witness :
  infer_uploaded_video (H := stub_backend) 11 demo_conf demo_model
    (video_demo_world demo_video) =
  (Ok tt,
   video_done demo_conf demo_model demo_video demo_frames
     (demo_result <$> demo_frames)
     (video_widgets (Some demo_video) (video_demo_world demo_video))).
Proof.
  apply (video_plays_every_frame (H := stub_backend));
    [reflexivity | reflexivity | reflexivity | apply demo_frames_infer |
     simpl; lia].
Defined.

Lemma video_infers_each_frame_once_witness :
  length (inferences
            (infer_uploaded_video (H := stub_backend) 11 demo_conf demo_model
               (video_demo_world demo_video)).2) = 10.
Proof.
  apply (video_infers_each_frame_once (H := stub_backend) 11 demo_conf
           demo_model (video_demo_world demo_video) demo_video demo_frames
           (demo_result <$> demo_frames));
    [reflexivity | reflexivity | reflexivity | apply demo_frames_infer |
     simpl; lia].
Defined.

Lemma video_releases_once_witness :
  ∃ c, caps (infer_uploaded_video (H := stub_backend) 11 demo_conf demo_model
               (video_demo_world demo_video)).2 = [] ++ [c] ∧
       cap_opened c = false ∧ cap_releases c = 1 ∧ cap_pos c = 10.
Proof.
  apply (video_releases_once (H := stub_backend) 11 demo_conf demo_model
           (video_demo_world demo_video) demo_video demo_frames
           (demo_result <$> demo_frames));
    [reflexivity | reflexivity | reflexivity | apply demo_frames_infer |
     simpl; lia].
Defined.

Lemma video_single_slot_witness :
  length (slots (page
    (infer_uploaded_video (H := stub_backend) 11 demo_conf demo_model
       (video_demo_world demo_video)).2)) = 1 ∧
  error_reports (page
    (infer_uploaded_video (H := stub_backend) 11 demo_conf demo_model
       (video_demo_world demo_video)).2) = [].
Proof.
  apply (video_single_slot (H := stub_backend) 11 demo_conf demo_model
           (video_demo_world demo_video) demo_video demo_frames
           (demo_result <$> demo_frames));
    [reflexivity | reflexivity | reflexivity | apply demo_frames_infer |
     simpl; lia].
Defined.

Lemma video_shows_last_frame_witness :
  shown (infer_uploaded_video (H := stub_backend) 11 demo_conf demo_model
           (video_demo_world demo_video)).2 0 =
  Some (ImageBox (FromArray (resize_nearest (stub_frame 100) 720 405))
          VIDEO_CAPTION BGR true).
Proof.
  apply (video_shows_last_frame (H := stub_backend) 11 demo_conf demo_model
           (video_demo_world demo_video) demo_video
           (take 9 demo_frames) (demo_result <$> take 9 demo_frames)
           (stub_frame 100) (demo_result (stub_frame 100)));
    [reflexivity | reflexivity | reflexivity | apply demo_frames_infer |
     simpl; lia].
Defined.

Lemma video_exception_reported_witness :
  (infer_uploaded_video (H := stub_backend) 5 demo_conf demo_model
     (video_demo_world demo_damaged_video)).1 = Ok tt ∧
  error_reports (page
    (infer_uploaded_video (H := stub_backend) 5 demo_conf demo_model
       (video_demo_world demo_damaged_video)).2) =
  [] ++ [VIDEO_ERROR_PREFIX +:+ "resize: empty image"].
Proof.
  apply (video_exception_reported (H := stub_backend) 5 demo_conf demo_model
           (video_demo_world demo_damaged_video) demo_damaged_video
           (stub_frame <$> [10; 20]%Z)
           (demo_result <$> (stub_frame <$> [10; 20]%Z))
           (stub_frame 0) [stub_frame 40]
           (LibraryError "resize: empty image"));
    [reflexivity | reflexivity | reflexivity |
     apply stub_frames_infer; by repeat constructor |
     apply stub_damaged_raises | simpl; lia].
Defined.

Lemma video_exception_leaks_capture_witness :
  ∃ c, caps (infer_uploaded_video (H := stub_backend) 5 demo_conf demo_model
               (video_demo_world demo_damaged_video)).2 = [] ++ [c] ∧
       cap_opened c = true ∧ cap_releases c = 0 ∧ cap_pos c = 3.
Proof.
  refine (video_exception_leaks_capture (H := stub_backend) 5 demo_conf
            demo_model (video_demo_world demo_damaged_video)
            demo_damaged_video (stub_frame <$> [10; 20]%Z)
            (demo_result <$> (stub_frame <$> [10; 20]%Z))
            (stub_frame 0) [stub_frame 40]
            (LibraryError "resize: empty image") _ _ _ _ _ _);
    [reflexivity | reflexivity | reflexivity |
     apply stub_frames_infer; by repeat constructor |
     apply stub_damaged_raises | simpl; lia].
Defined.

Lemma video_undecodable_silent_witness :
  (infer_uploaded_video (H := stub_backend) 0 demo_conf demo_model
     (video_demo_world demo_broken_video)).1 = Ok tt ∧
  error_reports (page
    (infer_uploaded_video (H := stub_backend) 0 demo_conf demo_model
       (video_demo_world demo_broken_video)).2) = [] ∧
  inferences
    (infer_uploaded_video (H := stub_backend) 0 demo_conf demo_model
       (video_demo_world demo_broken_video)).2 = [] ∧
  caps (infer_uploaded_video (H := stub_backend) 0 demo_conf demo_model
          (video_demo_world demo_broken_video)).2 = [] ++ [capture_new None].
Proof.
  apply (video_undecodable_silent (H := stub_backend) 0 demo_conf demo_model
           (video_demo_world demo_broken_video) demo_broken_video);
    reflexivity.
Defined.

Lemma video_idle_witness :
  (infer_uploaded_video (H := stub_backend) 0 demo_conf demo_model
     (fresh_world (demo_inputs VIDEO_UPLOAD_LABEL (Some demo_video) None)
        None)).1 = Ok tt.
Proof.
  apply (video_idle (H := stub_backend) 0 demo_conf demo_model
           (fresh_world (demo_inputs VIDEO_UPLOAD_LABEL (Some demo_video) None)
              None)).
  right. reflexivity.
Defined.

Lemma video_always_returns_witness :
  (infer_uploaded_video (H := stub_backend) 11 demo_conf demo_model
     (video_demo_world demo_video)).1 = Ok tt.
Proof.
  apply (video_always_returns (H := stub_backend) 11 demo_conf demo_model
           (video_demo_world demo_video)).
  vm_compute. lia.
Defined.
