(* ===== verification/Webcam.v ===== *)
(** * The camera source

    [infer_uploaded_webcam] of [src/utils.py] (lines 123-142): inside one
    [try], the stop button is read once into [flag], a capture is opened
    on camera 0, a display slot is made, and the frame loop runs under the
    test [not flag].  [flag] is a local that nothing assigns again, so the
    test is constant during a run: the theorems show what that means for
    stopping, for releasing the camera, and for termination. *)

From Stdlib Require Import ZArith QArith.
From stdpp Require Import base option list strings gmap.
From S2P Require Import Prelude Image Streamlit Backend Capture World.
From S2P Require Import Inference Demo FrameLoop.
Close Scope Q_scope.

(** ** Texts *)

Definition STOP_LABEL : string := "停止运行".
Definition WEBCAM_ERROR_PREFIX : string := "加载视频出错: ".

Section Webcam.
Context `{Backend}.
Implicit Types (w : World) (conf : Q) (model : Model)
  (frames : list Image) (grs : list (Image * Results)).

(** ** The code *)

(** [while not flag: ...] *)
Definition webcam_loop (fuel : nat) (flag : bool) (conf : Q) (model : Model)
  (st_frame vid_cap : nat) : M World unit :=
  while_loop fuel (ret (negb flag)) (frame_step conf model st_frame vid_cap).

Definition infer_uploaded_webcam (fuel : nat) (conf : Q) (model : Model)
  : M World unit :=
  try_except
    (flag <- st_button STOP_LABEL ;;
     vid_cap <- VideoCapture_camera 0 ;;
     st_frame <- st_empty ;;
     webcam_loop fuel flag conf model st_frame vid_cap)
    (λ e, st_error (WEBCAM_ERROR_PREFIX +:+ exn_str e)).

(** ** The worlds a run goes through *)

(** The capture made on camera 0. *)
Definition webcam_capture (w : World) : Capture := capture_new (camera w).

(** The world when the loop is reached: the stop button is drawn, the
    capture and the display slot exist. *)
Definition webcam_opened (w : World) : World :=
  with_page (λ p, (page_empty (page_emit (Button STOP_LABEL) p)).2)
    (with_caps (λ cs, cs ++ [webcam_capture w]) w).

(** The world after the camera delivered [frames], all shown, and then
    failed: the capture is released. *)
Definition webcam_done (conf : Q) (model : Model) (frames : list Image)
  (grs : list (Image * Results)) (w : World) : World :=
  with_caps
    (<[length (caps w) :=
         capture_release (capture_advance (length frames) (webcam_capture w))]>)
    (play conf model (length (slots (page w))) grs (webcam_opened w)).

(** The world when the fuel ran out after [frames]: the capture is still
    open. *)
Definition webcam_running (conf : Q) (model : Model) (frames : list Image)
  (grs : list (Image * Results)) (w : World) : World :=
  with_caps
    (<[length (caps w) := capture_advance (length frames) (webcam_capture w)]>)
    (play conf model (length (slots (page w))) grs (webcam_opened w)).

(** The first [n] frames of a camera that has them. *)
Definition camera_frames (cam : nat → option Image) (n : nat) : list Image :=
  omap cam (seq 0 n).

(** The read that follows [n] frames fails: the camera has no frame
    there, or there is no camera. *)
Definition camera_fails_at (w : World) (n : nat) : Prop :=
  match camera w with
  | Some cam => cam n = None
  | None => True
  end.

(** The loop of a run with [fuel] ends: the stop button was clicked, or a
    read fails within [fuel] frames. *)
Definition webcam_ends_within (fuel : nat) (w : World) : Prop :=
  clicked (inputs w) STOP_LABEL = true ∨ ∃ n, n < fuel ∧ camera_fails_at w n.

(** ** Unfolding the code *)

Lemma infer_uploaded_webcam_unfold fuel conf model w :
  infer_uploaded_webcam fuel conf model w =
  try_except
    (webcam_loop fuel (clicked (inputs w) STOP_LABEL) conf model
       (length (slots (page w))) (length (caps w)))
    (λ e, st_error (WEBCAM_ERROR_PREFIX +:+ exn_str e))
    (webcam_opened w).
Proof. reflexivity. Qed.

Lemma webcam_opened_caps w :
  caps (webcam_opened w) !! length (caps w) = Some (webcam_capture w).
Proof. simpl. by rewrite lookup_app_r, Nat.sub_diag. Qed.

Lemma webcam_opened_errors w :
  error_reports (page (webcam_opened w)) = error_reports (page w).
Proof.
  unfold webcam_opened; wsimpl.
  by rewrite error_reports_empty, error_reports_emit, app_nil_r.
Qed.

Lemma webcam_opened_inferences w : inferences (webcam_opened w) = inferences w.
Proof. reflexivity. Qed.

(** The loop test lets every capture through while [flag] is unset. *)
Lemma not_flag_opened vid_cap w c :
  caps w !! vid_cap = Some c → cap_opened c = true →
  ret (negb false) w = (Ok true, w).
Proof. reflexivity. Qed.

Lemma not_flag_pure (flag : bool) w :
  terminated (ret (St := World) (negb flag) w).1 ∧ (ret (negb flag) w).2 = w.
Proof. done. Qed.

Lemma webcam_capture_camera w cam :
  camera w = Some cam →
  webcam_capture w =
  {| cap_opened := true; cap_feed := cam; cap_pos := 0; cap_releases := 0 |}.
Proof. unfold webcam_capture. by intros ->. Qed.

Lemma webcam_done_caps conf model frames grs w :
  caps (webcam_done conf model frames grs w) =
  caps w ++
  [capture_release (capture_advance (length frames) (webcam_capture w))].
Proof.
  unfold webcam_done; wsimpl. rewrite play_caps. unfold webcam_opened; wsimpl.
  by rewrite insert_app_r_alt, Nat.sub_diag.
Qed.

Lemma webcam_running_caps conf model frames grs w :
  caps (webcam_running conf model frames grs w) =
  caps w ++ [capture_advance (length frames) (webcam_capture w)].
Proof.
  unfold webcam_running; wsimpl. rewrite play_caps.
  unfold webcam_opened; wsimpl.
  by rewrite insert_app_r_alt, Nat.sub_diag.
Qed.

(** A camera that never fails has [n] frames for every [n]. *)
Lemma camera_frames_feeds cam n :
  (∀ i, is_Some (cam i)) →
  length (camera_frames cam n) = n ∧ feeds cam 0 (camera_frames cam n).
Proof.
  intros Hcam. unfold camera_frames. generalize 0 as k.
  induction n as [|n IH]; intros k; [done|].
  simpl. destruct (Hcam k) as [f Hf]. rewrite Hf; simpl.
  destruct (IH (S k)) as [Hlen Hfeeds]. split; [by f_equal | done].
Qed.

(** The camera source keeps the loader's state, whatever its outcome. *)
Lemma webcam_keeps_loader fuel conf model :
  keeps_loader (infer_uploaded_webcam fuel conf model).
Proof.
  unfold infer_uploaded_webcam, webcam_loop. keeps_loader_tac.
  apply frame_step_keeps_loader.
Qed.

End Webcam.

(** ** The source as a whole *)

Section WebcamClaims.
Context `{Backend}.
Implicit Types (w : World) (conf : Q) (model : Model)
  (frames : list Image) (grs : list (Image * Results)).

(** The run the stop button starts, as one equation. *)
Lemma webcam_stop_run fuel conf model w :
  clicked (inputs w) STOP_LABEL = true →
  infer_uploaded_webcam fuel conf model w = (Ok tt, webcam_opened w).
Proof.
  intros Hstop. rewrite infer_uploaded_webcam_unfold, Hstop.
  apply try_except_ok. by apply while_loop_false.
Qed.

(** C6: in the run that the stop button starts, the camera is opened and
    the loop is not entered at all: the function returns with the capture
    it has just made still open and never released, and no frame is
    inferred. *)
Theorem webcam_stop_never_releases fuel conf model w :
  clicked (inputs w) STOP_LABEL = true →
  infer_uploaded_webcam fuel conf model w = (Ok tt, webcam_opened w) ∧
  caps (webcam_opened w) = caps w ++ [capture_new (camera w)] ∧
  inferences (webcam_opened w) = inferences w.
Proof.
  intros Hstop. split; [by apply webcam_stop_run | done].
Qed.

(** C20: with the stop button not clicked, a camera that delivers N frames
    whose inferences succeed and then fails is played to that point: the
    function returns normally in exactly the world [webcam_done], with the
    N frames inferred in order and the capture released once. *)
Theorem webcam_plays_until_read_fails fuel conf model w cam frames grs :
  clicked (inputs w) STOP_LABEL = false →
  camera w = Some cam →
  feeds cam 0 frames → cam (length frames) = None →
  Forall2 (infers conf model) frames grs →
  length frames < fuel →
  infer_uploaded_webcam fuel conf model w =
  (Ok tt, webcam_done conf model frames grs w) ∧
  inferences (webcam_done conf model frames grs w) =
  inferences w ++ ((λ gr, (model, gr.1, conf)) <$> grs) ∧
  caps (webcam_done conf model frames grs w) =
  caps w ++ [{| cap_opened := false; cap_feed := cam;
                cap_pos := length frames; cap_releases := 1 |}].
Proof.
  intros Hstop Hcam Hfeeds Hend Hall Hfuel. split; [|split].
  - rewrite infer_uploaded_webcam_unfold, Hstop. apply try_except_ok.
    apply (frame_loop_exhausts conf model _ _ _ (not_flag_opened _) frames grs
             Hall); [apply webcam_opened_caps | ..];
      rewrite ?(webcam_capture_camera w cam Hcam); simpl;
      rewrite ?Nat.add_0_r; done.
  - unfold webcam_done; wsimpl. by rewrite play_inferences.
  - rewrite webcam_done_caps, (webcam_capture_camera w cam Hcam).
    unfold capture_release, capture_advance; simpl. by rewrite Nat.add_0_r.
Qed.

(** C7: with the stop button not clicked, on a camera that never fails
    and frames whose inferences succeed, the loop cannot end: for every
    fuel the run spends all of it, one shown frame per unit, and the
    camera is still open.  No click made during the run is seen by it. *)
Theorem webcam_never_stops fuel conf model w cam :
  clicked (inputs w) STOP_LABEL = false →
  camera w = Some cam →
  (∀ i, ∃ f gr, cam i = Some f ∧ infers conf model f gr) →
  (infer_uploaded_webcam fuel conf model w).1 = OutOfFuel ∧
  length (inferences (infer_uploaded_webcam fuel conf model w).2) =
  length (inferences w) + fuel ∧
  ∃ c, caps (infer_uploaded_webcam fuel conf model w).2 = caps w ++ [c] ∧
       cap_opened c = true ∧ cap_releases c = 0.
Proof.
  intros Hstop Hcam Hall.
  destruct (camera_frames_feeds cam fuel) as [Hlen Hfeeds].
  { intros i. destruct (Hall i) as (f & _ & -> & _). eauto. }
  assert (∃ grs, Forall2 (infers conf model) (camera_frames cam fuel) grs)
    as [grs Hgrs].
  { unfold camera_frames. generalize (seq 0 fuel). intros l.
    induction l as [|i l [grs IH]]; [by exists []|]. simpl.
    destruct (Hall i) as (f & gr & -> & Hi). exists (gr :: grs). by constructor. }
  rewrite infer_uploaded_webcam_unfold, Hstop. unfold webcam_loop.
  rewrite (try_except_out_of_fuel _ _ _
             (webcam_running conf model (camera_frames cam fuel) grs w)).
  - cbn [fst snd]. split; [done|]. rewrite webcam_running_caps.
    split; [|by rewrite (webcam_capture_camera w cam Hcam); eauto].
    unfold webcam_running; wsimpl.
    rewrite play_inferences, length_app, length_fmap, webcam_opened_inferences.
    by rewrite <- (Forall2_length _ _ _ Hgrs), Hlen.
  - rewrite <- Hlen at 1.
    apply (frame_loop_out_of_fuel conf model _ _ _ (not_flag_opened _) _ grs
             Hgrs); [apply webcam_opened_caps | ..];
      by rewrite ?(webcam_capture_camera w cam Hcam).
Qed.

(** C29: without a camera the capture is not opened; with the stop button
    not clicked the first read fails, the capture is released once and the
    function returns normally, with no frame inferred and no error box. *)
Theorem webcam_no_camera_silent fuel conf model w :
  clicked (inputs w) STOP_LABEL = false →
  camera w = None →
  0 < fuel →
  (infer_uploaded_webcam fuel conf model w).1 = Ok tt ∧
  error_reports (page (infer_uploaded_webcam fuel conf model w).2) =
  error_reports (page w) ∧
  inferences (infer_uploaded_webcam fuel conf model w).2 = inferences w ∧
  caps (infer_uploaded_webcam fuel conf model w).2 =
  caps w ++ [capture_release (capture_new None)].
Proof.
  intros Hstop Hcam Hfuel.
  rewrite infer_uploaded_webcam_unfold, Hstop. unfold webcam_loop.
  destruct fuel as [|fuel]; [lia|].
  rewrite (try_except_ok _ _ _ tt
    (with_caps (<[length (caps w) := capture_release (webcam_capture w)]>)
       (webcam_opened w))).
  - cbn [fst snd]; wsimpl.
    rewrite webcam_opened_errors, webcam_opened_inferences.
    repeat (split; [done|]). unfold webcam_opened; wsimpl.
    rewrite insert_app_r_alt, Nat.sub_diag by done.
    unfold webcam_capture. by rewrite Hcam.
  - rewrite while_loop_unfold. cbn [ret negb].
    rewrite (frame_step_end conf model _ _ _ (webcam_capture w)); [done| |].
    + apply webcam_opened_caps.
    + apply capture_read_closed. unfold webcam_capture. by rewrite Hcam.
Qed.

(** C21: when the inference of a camera frame raises, the function
    returns normally with one error box added, and the camera is left
    open: no [release()] call is made on the capture. *)
Theorem webcam_exception_leaks_camera fuel conf model w cam frames grs bad e :
  clicked (inputs w) STOP_LABEL = false →
  camera w = Some cam →
  feeds cam 0 (frames ++ [bad]) →
  Forall2 (infers conf model) frames grs →
  infer_frame conf model bad = inl e →
  length frames < fuel →
  (infer_uploaded_webcam fuel conf model w).1 = Ok tt ∧
  error_reports (page (infer_uploaded_webcam fuel conf model w).2) =
  error_reports (page w) ++ [WEBCAM_ERROR_PREFIX +:+ exn_str e] ∧
  caps (infer_uploaded_webcam fuel conf model w).2 =
  caps w ++ [{| cap_opened := true; cap_feed := cam;
                cap_pos := S (length frames); cap_releases := 0 |}].
Proof.
  intros Hstop Hcam Hfeeds Hall Hbad Hfuel.
  rewrite infer_uploaded_webcam_unfold, Hstop. unfold webcam_loop.
  destruct (frame_loop_raises conf model (length (slots (page w)))
              (length (caps w)) _ (not_flag_opened _) frames grs bad e Hall
              Hbad fuel (webcam_opened w) (webcam_capture w))
    as (w' & Hrun & Hpage & Hcaps);
    [apply webcam_opened_caps | ..];
    rewrite ?(webcam_capture_camera w cam Hcam); try done.
  rewrite (try_except_raise _ _ _ e w' Hrun), st_error_run.
  cbn [fst snd]; wsimpl.
  rewrite error_reports_emit, Hpage, play_errors, webcam_opened_errors, Hcaps.
  repeat (split; [done|]). unfold webcam_opened; wsimpl.
  rewrite insert_app_r_alt, Nat.sub_diag by done.
  rewrite (webcam_capture_camera w cam Hcam).
  unfold capture_advance; simpl. by rewrite Nat.add_0_r.
Qed.

(** No exception leaves [infer_uploaded_webcam]. *)
Lemma webcam_never_raises fuel conf model w e :
  (infer_uploaded_webcam fuel conf model w).1 ≠ Raise e.
Proof. by apply try_except_no_raise. Qed.

(** On a camera whose read fails [n] frames ahead the function terminates
    with any fuel above [n], whatever the inferences do; without a camera
    the first read fails; after a click on the stop button any fuel will
    do. *)
Lemma webcam_terminates fuel conf model w :
  webcam_ends_within fuel w →
  terminated (infer_uploaded_webcam fuel conf model w).1.
Proof.
  intros [Hstop | (n & Hfuel & Hend)]; [by rewrite webcam_stop_run|].
  rewrite infer_uploaded_webcam_unfold.
  apply try_except_terminated; [|done].
  apply (frame_loop_terminates conf model _ _ _ (not_flag_pure _) n _ _
           (webcam_capture w)); [apply webcam_opened_caps | | done].
  unfold camera_fails_at, webcam_capture in *.
  destruct (camera w); simpl; by rewrite ?Nat.add_0_r.
Qed.

(** C30: [infer_uploaded_webcam] returns whenever its loop can end.  After
    a click on the stop button, on a camera whose read fails [n] frames
    ahead with fuel above [n], and without a camera with one unit of
    fuel, the function ends normally, whatever the inferences do: it neither
    raises nor runs out of fuel. *)
Theorem webcam_returns fuel conf model w :
  webcam_ends_within fuel w →
  (infer_uploaded_webcam fuel conf model w).1 = Ok tt.
Proof.
  intros Hends. apply returns_ok; [by apply webcam_terminates|].
  intros e. apply webcam_never_raises.
Qed.

End WebcamClaims.

(** ** The theorems on concrete inputs *)

(** A fresh process with camera [cam], in which the button [click] was
    clicked. *)
Definition webcam_demo_world (cam : option (nat → option Image))
  (click : option string) : World :=
  fresh_world (demo_inputs "" None click) cam.

(** A camera that delivers the same frame for ever. *)
Definition endless_camera : nat → option Image := λ _, Some (stub_frame 7).

(** A camera whose second frame is damaged. *)
Definition damaged_camera : nat → option Image :=
  feed_of_frames (stub_frame <$> [10; 0; 30]%Z).

Lemma webcam_stop_never_releases_witness :
  infer_uploaded_webcam (H := stub_backend) 5 demo_conf demo_model
    (webcam_demo_world (Some demo_camera) (Some STOP_LABEL)) =
  (Ok tt, webcam_opened (webcam_demo_world (Some demo_camera) (Some STOP_LABEL)))
  ∧ caps (webcam_opened
            (webcam_demo_world (Some demo_camera) (Some STOP_LABEL))) =
    [] ++ [capture_new (Some demo_camera)]
  ∧ inferences (webcam_opened
                  (webcam_demo_world (Some demo_camera) (Some STOP_LABEL))) = [].
Proof.
  apply (webcam_stop_never_releases (H := stub_backend) 5 demo_conf demo_model
           (webcam_demo_world (Some demo_camera) (Some STOP_LABEL))).
  reflexivity.
Defined.

Lemma webcam_plays_until_read_fails_witness :
  infer_uploaded_webcam (H := stub_backend) 4 demo_conf demo_model
    (webcam_demo_world (Some demo_camera) None) =
  (Ok tt,
   webcam_done demo_conf demo_model demo_camera_frames
     (demo_result <$> demo_camera_frames)
     (webcam_demo_world (Some demo_camera) None)).
Proof.
  apply (webcam_plays_until_read_fails (H := stub_backend) 4 demo_conf
           demo_model (webcam_demo_world (Some demo_camera) None) demo_camera
           demo_camera_frames (demo_result <$> demo_camera_frames));
    [reflexivity | reflexivity | apply feeds_all | reflexivity |
     apply demo_camera_frames_infer | simpl; lia].
Defined.

Lemma webcam_never_stops_witness :
  (infer_uploaded_webcam (H := stub_backend) 50 demo_conf demo_model
     (webcam_demo_world (Some endless_camera) None)).1 = OutOfFuel.
Proof.
  apply (webcam_never_stops (H := stub_backend) 50 demo_conf demo_model
           (webcam_demo_world (Some endless_camera) None) endless_camera);
    [reflexivity | reflexivity |].
  intros i. exists (stub_frame 7), (demo_result (stub_frame 7)).
  split; [reflexivity | apply stub_infers].
Defined.

Lemma webcam_no_camera_silent_witness :
  (infer_uploaded_webcam (H := stub_backend) 1 demo_conf demo_model
     (webcam_demo_world None None)).1 = Ok tt.
Proof.
  apply (webcam_no_camera_silent (H := stub_backend) 1 demo_conf demo_model
           (webcam_demo_world None None)); [reflexivity | reflexivity | lia].
Defined.

Lemma webcam_exception_leaks_camera_witness :
  (infer_uploaded_webcam (H := stub_backend) 2 demo_conf demo_model
     (webcam_demo_world (Some damaged_camera) None)).1 = Ok tt ∧
  error_reports (page
    (infer_uploaded_webcam (H := stub_backend) 2 demo_conf demo_model
       (webcam_demo_world (Some damaged_camera) None)).2) =
  [] ++ [WEBCAM_ERROR_PREFIX +:+ "resize: empty image"] ∧
  caps (infer_uploaded_webcam (H := stub_backend) 2 demo_conf demo_model
          (webcam_demo_world (Some damaged_camera) None)).2 =
  [] ++ [{| cap_opened := true; cap_feed := damaged_camera; cap_pos := 2;
            cap_releases := 0 |}].
Proof.
  refine (webcam_exception_leaks_camera (H := stub_backend) 2 demo_conf
            demo_model (webcam_demo_world (Some damaged_camera) None)
            damaged_camera [stub_frame 10] [demo_result (stub_frame 10)]
            (stub_frame 0) (LibraryError "resize: empty image")
            _ _ _ _ _ _);
    [reflexivity | reflexivity | by repeat split |
     repeat constructor; apply stub_infers | apply stub_damaged_raises |
     simpl; lia].
Defined.

Lemma webcam_returns_witness :
  (infer_uploaded_webcam (H := stub_backend) 4 demo_conf demo_model
     (webcam_demo_world (Some demo_camera) None)).1 = Ok tt.
Proof.
  apply (webcam_returns (H := stub_backend) 4 demo_conf demo_model
           (webcam_demo_world (Some demo_camera) None)).
  right. exists 3. split; [lia | reflexivity].
Defined.
