(* ===== verification/FrameSource.v ===== *)
(** * The frame source as a state machine

    Section 4.3 of the specification describes a frame source as a machine
    [IDLE → RUNNING → (STOPPED | EXHAUSTED | ERROR)] that holds a capture
    handle while it runs and releases it on every way out.  This file
    states that machine, parameterised by which ways out release the
    handle, proves the invariant of the specified one (the handle is held
    exactly while running, and every open is matched by one release) and
    what the machine holds under the code's policy, and relates the frame
    loop of [src/utils.py] to it: each iteration of the
    loop is one transition of the machine whose policy is the code's
    (release at the end of the stream only), and a run in which no frame
    fails and no stop is requested is a run of the specified machine.  A
    video that plays to its end is the run [Start], [Frame] N times,
    [EndOfStream]. *)

From Stdlib Require Import ZArith QArith Lia.
From stdpp Require Import base option list strings gmap relations.
From S2P Require Import Prelude Loops Image Streamlit Backend Capture World.
From S2P Require Import Inference Demo FrameLoop Video Webcam.
Close Scope Q_scope.

(** ** The machine *)

Inductive phase : Type := IDLE | RUNNING | STOPPED | EXHAUSTED | ERROR.

#[export] Instance phase_eq_dec : EqDecision phase.
Proof. solve_decision. Defined.

(** What happens to a source: it is started, a frame is taken and
    processed, the stream ends, the user stops it, or a frame that was
    taken fails. *)
Inductive event : Type := Start | Frame | EndOfStream | Stop | Fail.

#[export] Instance event_eq_dec : EqDecision event.
Proof. solve_decision. Defined.

(** The phase, the frames taken from the source, whether the capture
    handle is held, and the handles opened and released so far. *)
Record source_state : Type := {
  phase_of : phase;
  taken : nat;
  handle_open : bool;
  opens : nat;
  releases : nat
}.

#[export] Instance source_state_eq_dec : EqDecision source_state.
Proof. solve_decision. Defined.

Definition source_init : source_state :=
  {| phase_of := IDLE; taken := 0; handle_open := false; opens := 0;
     releases := 0 |}.

(** The phases a source ends in. *)
Definition final (p : phase) : bool :=
  match p with
  | STOPPED | EXHAUSTED | ERROR => true
  | IDLE | RUNNING => false
  end.

(** The phase an event leads to. *)
Definition phase_after (e : event) : phase :=
  match e with
  | Start | Frame => RUNNING
  | EndOfStream => EXHAUSTED
  | Stop => STOPPED
  | Fail => ERROR
  end.

(** Which ways out of [RUNNING] release the handle. *)
Definition policy : Type := event → bool.

(** The specification: every way out. *)
Definition spec_policy : policy := λ _, true.

(** The code: at the end of the stream (lines 118 and 139 of
    [src/utils.py]), and neither on a stop nor on a failure.  The policy
    is read off the code, not translated from it: what ties it to the
    code is the simulation below ([loop_next_simulates]), which fails for
    any other policy. *)
Definition code_policy : policy := λ e, bool_decide (e ≠ Stop ∧ e ≠ Fail).

(** The state after leaving [RUNNING] by [e]. *)
Definition leave (pol : policy) (e : event) (s : source_state)
  : source_state :=
  {| phase_of := phase_after e;
     taken := if decide (e = Fail) then S (taken s) else taken s;
     handle_open := if pol e then false else handle_open s;
     opens := opens s;
     releases := if pol e then S (releases s) else releases s |}.

(** The transition function. *)
Definition source_next (pol : policy) (e : event) (s : source_state)
  : option source_state :=
  match phase_of s, e with
  | IDLE, Start =>
      Some {| phase_of := RUNNING; taken := taken s; handle_open := true;
              opens := S (opens s); releases := releases s |}
  | RUNNING, Frame =>
      Some {| phase_of := RUNNING; taken := S (taken s);
              handle_open := handle_open s; opens := opens s;
              releases := releases s |}
  | RUNNING, (EndOfStream | Stop | Fail) => Some (leave pol e s)
  | _, _ => None
  end.

(** The transitions, as a relation. *)
Inductive source_step (pol : policy) : event → source_state → source_state → Prop :=
| step_start s :
    phase_of s = IDLE →
    source_step pol Start s
      {| phase_of := RUNNING; taken := taken s; handle_open := true;
         opens := S (opens s); releases := releases s |}
| step_frame s :
    phase_of s = RUNNING →
    source_step pol Frame s
      {| phase_of := RUNNING; taken := S (taken s);
         handle_open := handle_open s; opens := opens s;
         releases := releases s |}
| step_leave e s :
    phase_of s = RUNNING → e ∈ [EndOfStream; Stop; Fail] →
    source_step pol e s (leave pol e s).

(** A run: the events in order. *)
Fixpoint source_run (pol : policy) (tr : list event) (s : source_state)
  : option source_state :=
  match tr with
  | [] => Some s
  | e :: tr' => source_next pol e s ≫= source_run pol tr'
  end.

(** The states a source can be in. *)
Inductive reachable (pol : policy) : source_state → Prop :=
| reach_init : reachable pol source_init
| reach_step e s s' :
    reachable pol s → source_step pol e s s' → reachable pol s'.

(** The handle is held exactly while the source runs, at most one handle
    was ever opened, and every handle opened and no longer held was
    released once. *)
Definition balanced (s : source_state) : Prop :=
  handle_open s = bool_decide (phase_of s = RUNNING) ∧
  opens s = releases s + (if handle_open s then 1 else 0) ∧
  opens s = (if decide (phase_of s = IDLE) then 0 else 1).

#[export] Instance balanced_dec s : Decision (balanced s).
Proof. unfold balanced. apply _. Defined.

(** ** The loop, seen as a source *)

Section Abstraction.
Context (vid_cap : nat).

(** The world of a configuration. *)
Definition world_of (c : loop_state World) : World :=
  match c with
  | Looping w | Left w | Broke w | Raised _ w | Starved w => w
  end.

(** The phase a configuration of the loop stands for. *)
Definition phase_at (c : loop_state World) : phase :=
  match c with
  | Looping _ | Starved _ => RUNNING
  | Left _ => STOPPED
  | Broke _ => EXHAUSTED
  | Raised _ _ => ERROR
  end.

(** The source state of a configuration: read off the capture.  The
    phase is the configuration's; the frames taken, the handle and the
    releases are the capture's fields.  A capture object is made by one
    [cv2.VideoCapture] call, which is its one open: [opens] is 1. *)
Definition abs (c : loop_state World) : option source_state :=
  cap ← caps (world_of c) !! vid_cap;
  Some {| phase_of := phase_at c; taken := cap_pos cap;
          handle_open := cap_opened cap; opens := 1;
          releases := cap_releases cap |}.

(** The event by which the loop reached a configuration. *)
Definition event_to (c : loop_state World) : event :=
  match c with
  | Looping _ | Starved _ => Frame
  | Left _ => Stop
  | Broke _ => EndOfStream
  | Raised _ _ => Fail
  end.

End Abstraction.

(** ** The machine: facts *)

Section Machine.
Implicit Types (pol : policy) (e : event) (s : source_state).

(** The relation and the function are the same transitions. *)
Lemma source_step_next pol e s s' :
  source_step pol e s s' ↔ source_next pol e s = Some s'.
Proof.
  split.
  - destruct 1 as [s Hp|s Hp|e s Hp He]; unfold source_next; rewrite Hp;
      [done..|]. by set_unfold; destruct He as [->|[->|[->|[]]]].
  - unfold source_next. destruct (phase_of s) eqn:Hp, e; intros [= <-];
      constructor; set_solver.
Qed.

(** A source that has ended takes no transition. *)
Lemma source_step_not_final pol e s s' :
  source_step pol e s s' → final (phase_of s) = false.
Proof. by destruct 1 as [s ->|s ->|e s ->]. Qed.

(** The frames taken never decrease. *)
Lemma source_step_taken pol e s s' : source_step pol e s s' → taken s ≤ taken s'.
Proof. destruct 1; simpl; try case_decide; lia. Qed.

(** The transitions on which the policies agree are those of both
    machines. *)
Lemma source_step_policy pol pol' e s s' :
  pol e = pol' e → source_step pol e s s' → source_step pol' e s s'.
Proof.
  intros Hp. destruct 1 as [s Hs|s Hs|e s Hs He]; try by constructor.
  replace (leave pol e s) with (leave pol' e s)
    by (unfold leave; by rewrite Hp).
  by constructor.
Qed.

Lemma source_run_app pol tr1 tr2 s :
  source_run pol (tr1 ++ tr2) s = source_run pol tr1 s ≫= source_run pol tr2.
Proof.
  revert s. induction tr1 as [|e tr1 IH]; intros s; simpl; [done|].
  destruct (source_next pol e s) as [s1|]; simpl; [apply IH | done].
Qed.

(** A run on whose events two policies agree is a run of both. *)
Lemma source_run_policy pol pol' tr s :
  Forall (λ e, pol e = pol' e) tr → source_run pol tr s = source_run pol' tr s.
Proof.
  intros Htr. revert s. induction Htr as [|e tr He _ IH]; intros s; [done|].
  simpl. replace (source_next pol' e s) with (source_next pol e s).
  - destruct (source_next pol e s); simpl; [apply IH | done].
  - unfold source_next, leave. by rewrite He.
Qed.

(** What a run reaches from a reachable state is reachable. *)
Lemma source_run_reachable pol tr s s' :
  reachable pol s → source_run pol tr s = Some s' → reachable pol s'.
Proof.
  revert s. induction tr as [|e tr IH]; intros s Hs; simpl; [by intros [= <-]|].
  destruct (source_next pol e s) as [s1|] eqn:Hn; [simpl|done].
  apply IH. eapply reach_step; [done|]. by apply source_step_next.
Qed.

Lemma balanced_step e s s' :
  balanced s → source_step spec_policy e s s' → balanced s'.
Proof.
  intros (Ho & Hb & H1). destruct 1 as [s Hp|s Hp|e s Hp He];
    unfold balanced in *; simpl; rewrite Hp in *; simpl in *.
  - rewrite Ho in Hb. simpl in Hb. split; [done|]. lia.
  - done.
  - rewrite Ho in Hb. simpl in Hb. set_unfold.
    destruct He as [->|[->|[->|[]]]]; simpl; split_and!; try done; lia.
Qed.

(** The invariant of the specified machine. *)
Lemma reachable_balanced s : reachable spec_policy s → balanced s.
Proof.
  induction 1 as [|e s s' _ IH Hstep]; [done|]. by eapply balanced_step.
Qed.

(** What the machine holds in each phase under the code's policy: the
    handle it opened is released at the end of the stream and nowhere
    else. *)
Definition code_holds (s : source_state) : Prop :=
  match phase_of s with
  | IDLE => handle_open s = false ∧ opens s = 0 ∧ releases s = 0
  | EXHAUSTED => handle_open s = false ∧ opens s = 1 ∧ releases s = 1
  | RUNNING | STOPPED | ERROR =>
      handle_open s = true ∧ opens s = 1 ∧ releases s = 0
  end.

Lemma reachable_code_holds s : reachable code_policy s → code_holds s.
Proof.
  induction 1 as [|e s s' _ IH Hstep]; [done|].
  destruct Hstep as [s Hp|s Hp|e s Hp He]; unfold code_holds in *;
    rewrite Hp in IH; destruct IH as (Ho & Hn & Hr); simpl;
    rewrite ?Ho, ?Hn, ?Hr; [done..|].
  set_unfold. by destruct He as [->|[->|[->|[]]]].
Qed.

(** Under the code's policy the balance of the specification is lost
    exactly in the phases [STOPPED] and [ERROR]. *)
Lemma code_holds_balanced s :
  code_holds s → (balanced s ↔ phase_of s ≠ STOPPED ∧ phase_of s ≠ ERROR).
Proof.
  unfold code_holds, balanced.
  destruct (phase_of s); intros (-> & -> & ->); simpl; split;
    try done; try (by intros [[=] _]); by intros [? ?].
Qed.

(** A source that has taken [n] frames and holds its only handle. *)
Lemma reachable_running pol n :
  reachable pol {| phase_of := RUNNING; taken := n; handle_open := true;
                   opens := 1; releases := 0 |}.
Proof.
  induction n as [|n IH].
  - apply (reach_step pol Start source_init); [constructor|].
    by apply (step_start pol source_init).
  - eapply reach_step; [exact IH|]. by apply (step_frame pol).
Qed.

End Machine.

(** ** The simulation *)

Section Simulation.
Context `{Backend}.
Context (conf : Q) (model : Model) (st_frame vid_cap : nat).
Context (cond : M World bool).
Implicit Types (w : World) (c : Capture) (k : loop_state World)
  (s : source_state).

(** The loop runs on a capture that exists and is opened. *)
Definition running w : Prop :=
  ∃ c, caps w !! vid_cap = Some c ∧ cap_opened c = true.

(** The loop test reads the world and does not change it. *)
Hypothesis cond_pure : ∀ w, running w → ∃ b, cond w = (Ok b, w).

Local Abbreviation step := (loop_next cond (frame_step conf model st_frame vid_cap)).
Local Abbreviation iter := (loop_iter cond (frame_step conf model st_frame vid_cap)).

(** The next configuration, by what the test, the read and the inference
    give. *)
Lemma loop_next_cases w c :
  caps w !! vid_cap = Some c → cap_opened c = true →
  (step w = Left w) ∨
  (cap_feed c (cap_pos c) = None ∧
   step w = Broke (with_caps (<[vid_cap := capture_release c]>) w)) ∨
  (∃ w', step w = Looping w' ∧
         caps w' !! vid_cap = Some (capture_advance 1 c)) ∨
  (∃ e w', step w = Raised e w' ∧
           caps w' !! vid_cap = Some (capture_advance 1 c)).
Proof.
  intros Hc Ho. unfold loop_next.
  destruct (cond_pure w) as [[] ->]; [by exists c | | by left]. right.
  destruct (cap_feed c (cap_pos c)) as [image|] eqn:Hf.
  - right. destruct (infer_frame conf model image) as [e|gr] eqn:Hi.
    + right.
      destruct (frame_step_raises conf model st_frame vid_cap w c image e
                  Hc Ho Hf Hi) as (w' & -> & _ & Hcaps).
      exists e, w'. split; [done|]. rewrite Hcaps.
      apply list_lookup_insert_eq. by eapply lookup_lt_Some.
    + left. rewrite (frame_step_frame _ _ _ _ w c image gr Hc Ho Hf Hi).
      eexists. split; [done|]. rewrite show_frame_caps.
      by apply (with_caps_insert_lookup _ c).
  - left. split; [done|].
    rewrite (frame_step_end _ _ _ _ w c Hc); [done|].
    by apply capture_read_end.
Qed.

(** One iteration of the loop is one transition of the machine with the
    code's policy, and the loop goes on only on an opened capture. *)
Lemma loop_next_simulates w :
  running w →
  ∃ s s', abs vid_cap (Looping w) = Some s ∧ abs vid_cap (step w) = Some s' ∧
          source_step code_policy (event_to (step w)) s s' ∧
          (∀ w', step w = Looping w' → running w').
Proof.
  intros (c & Hc & Ho).
  exists {| phase_of := RUNNING; taken := cap_pos c;
            handle_open := cap_opened c; opens := 1;
            releases := cap_releases c |}.
  unfold abs at 1; simpl. rewrite Hc; simpl.
  destruct (loop_next_cases w c Hc Ho)
    as [-> | [[Hf ->] | [(w' & -> & Hc') | (e & w' & -> & Hc')]]];
    unfold abs; simpl; rewrite ?Hc, ?Hc'; simpl.
  - eexists. split; [done|]. split; [done|]. split; [|done].
    by apply (step_leave code_policy Stop); [|set_solver].
  - rewrite list_lookup_insert_eq by (by eapply lookup_lt_Some); simpl.
    eexists. split; [done|]. split; [done|]. split; [|done].
    by apply (step_leave code_policy EndOfStream); [|set_solver].
  - eexists. split; [done|]. split; [done|]. split.
    + by apply (step_frame code_policy).
    + intros w'' [= <-]. by exists (capture_advance 1 c).
  - eexists. split; [done|]. split; [done|]. split; [|done].
    by apply (step_leave code_policy Fail); [|set_solver].
Qed.

(** A run of the loop is a run of the machine: the events of its
    iterations, in order, take the source state of the first configuration
    to that of the last. *)
Lemma loop_iter_refines n w :
  running w →
  ∃ tr s s', abs vid_cap (Looping w) = Some s ∧
             abs vid_cap (iter n (Looping w)) = Some s' ∧
             source_run code_policy tr s = Some s' ∧ length tr ≤ n ∧
             (∀ w', iter n (Looping w) = Looping w' → running w').
Proof.
  revert w. induction n as [|n IH]; intros w Hw.
  { destruct (loop_next_simulates w Hw) as (s & _ & Hs & _).
    exists [], s, s. simpl. split_and!; try done. by intros w' [= <-]. }
  destruct (loop_next_simulates w Hw) as (s & s1 & Hs & Hs1 & Hstep & Hrun).
  apply source_step_next in Hstep. rewrite loop_iter_S.
  destruct (step w) as [w1| | | |] eqn:Hk.
  - destruct (IH w1 (Hrun w1 eq_refl)) as (tr & s1' & s' & Hs1' & Hs' & Hr & Hl & Hn).
    rewrite Hs1 in Hs1'. injection Hs1' as <-.
    exists (Frame :: tr), s, s'. simpl in *. rewrite Hstep; simpl.
    split_and!; try done. lia.
  - exists [Stop], s, s1. destruct n; simpl in *; rewrite ?Hstep;
      split_and!; try done; lia.
  - exists [EndOfStream], s, s1. destruct n; simpl in *; rewrite ?Hstep;
      split_and!; try done; lia.
  - exists [Fail], s, s1. destruct n; simpl in *; rewrite ?Hstep;
      split_and!; try done; lia.
  - exists [Frame], s, s1. destruct n; simpl in *; rewrite ?Hstep;
      split_and!; try done; lia.
Qed.

(** The last evaluation of the test is a stop, or no transition at all. *)
Lemma loop_finish_refines w s :
  running w → abs vid_cap (Looping w) = Some s →
  ∃ tr s', abs vid_cap (loop_finish cond (Looping w)) = Some s' ∧
           source_run code_policy tr s = Some s' ∧ length tr ≤ 1.
Proof.
  intros Hw Hs. simpl. destruct (cond_pure w Hw) as [[] ->].
  - exists [], s. split_and!; [by rewrite <- Hs | done | simpl; lia].
  - destruct Hw as (c & Hc & Ho). unfold abs in *; simpl in *.
    rewrite Hc in *; simpl in *. injection Hs as <-.
    eexists [Stop], _. split_and!; [done..|simpl; lia].
Qed.

(** The statement [while cond: frame_step] refines the machine with the
    code's policy: whatever the fuel, the configuration it ends in is
    reached by a run of the machine from the configuration it starts in. *)
Lemma frame_loop_refines_code fuel w :
  running w →
  let k := loop_finish cond (iter fuel (Looping w)) in
  while_loop fuel cond (frame_step conf model st_frame vid_cap) w =
    loop_result k ∧
  ∃ tr s s', abs vid_cap (Looping w) = Some s ∧ abs vid_cap k = Some s' ∧
             source_run code_policy tr s = Some s' ∧ length tr ≤ S fuel.
Proof.
  intros Hw k. split; [apply while_loop_iter|].
  destruct (loop_iter_refines fuel w Hw)
    as (tr & s & s1 & Hs & Hs1 & Hr & Hl & Hn).
  unfold k. destruct (iter fuel (Looping w)) as [w1| | | |] eqn:Hk;
    try (exists tr, s, s1; split_and!; [done..|lia]).
  destruct (loop_finish_refines w1 s1 (Hn w1 eq_refl) Hs1)
    as (tr' & s' & Hs' & Hr' & Hl').
  exists (tr ++ tr'), s, s'. rewrite source_run_app, Hr, length_app.
  split_and!; try done. lia.
Qed.

(** The source state of a loop on a capture that was never released is
    one the machine reaches. *)
Lemma abs_reachable pol w c s :
  caps w !! vid_cap = Some c → cap_opened c = true → cap_releases c = 0 →
  abs vid_cap (Looping w) = Some s → reachable pol s.
Proof.
  intros Hc Ho Hr. unfold abs; simpl. rewrite Hc; simpl. intros [= <-].
  rewrite Ho, Hr. apply reachable_running.
Qed.

(** C13: the frame loop refines the frame-source machine of the
    specification's section 4.3.  From an opened capture and for every
    fuel, the statement [while cond: <read, infer and show, or release and
    break>] ends in the configuration that the iteration of single steps
    ends in, and that configuration is reached from the first one by a run
    of the machine under the code's release policy, one event per
    iteration.  When no event of the run is a stop or a failure, it is a
    run of the specified machine as well, and from a capture never released
    before it ends balanced: the handle is held exactly while running and
    was released once. *)
Theorem frame_loop_refines_machine fuel w c :
  caps w !! vid_cap = Some c → cap_opened c = true → cap_releases c = 0 →
  let k := loop_finish cond (iter fuel (Looping w)) in
  while_loop fuel cond (frame_step conf model st_frame vid_cap) w =
    loop_result k ∧
  ∃ tr s s', abs vid_cap (Looping w) = Some s ∧ abs vid_cap k = Some s' ∧
             source_run code_policy tr s = Some s' ∧ length tr ≤ S fuel ∧
             reachable code_policy s' ∧
             (Forall (λ e, e ≠ Stop ∧ e ≠ Fail) tr →
              source_run spec_policy tr s = Some s' ∧ balanced s').
Proof.
  intros Hc Ho Hr k.
  destruct (frame_loop_refines_code fuel w) as [Hrun (tr & s & s' & Hs & Hs' & Htr & Hl)];
    [by exists c|].
  split; [done|]. exists tr, s, s'. split_and!; try done.
  - eapply source_run_reachable; [|done]. by eapply abs_reachable.
  - intros Hclean.
    assert (source_run spec_policy tr s = Some s') as Hspec.
    { rewrite <- Htr. symmetry. apply source_run_policy.
      eapply Forall_impl; [done|]. intros e He. unfold code_policy, spec_policy.
      by rewrite bool_decide_true. }
    split; [done|]. apply reachable_balanced.
    eapply source_run_reachable; [|done]. by eapply abs_reachable.
Qed.

(** C15: the loop releases its capture at the end of the stream and
    nowhere else.  From a capture that is open and was never released,
    for every fuel and whatever the feed and the detector do, the
    statement [while cond: <read, infer and show, or release and break>]
    ends in a configuration in which the capture is closed and was
    released exactly once when the loop was left by its [break], and is
    still open and was never released in every other case: when the test
    failed (a stop), when an exception left the loop, and when the fuel
    ran out.  So the balance that the specification demands of a frame
    source holds at the end exactly when the loop ends neither by a stop
    nor by an exception. *)
Theorem frame_loop_releases_only_at_end fuel w c :
  caps w !! vid_cap = Some c → cap_opened c = true → cap_releases c = 0 →
  let k := loop_finish cond (iter fuel (Looping w)) in
  while_loop fuel cond (frame_step conf model st_frame vid_cap) w =
    loop_result k ∧
  ∃ c' s', caps (world_of k) !! vid_cap = Some c' ∧ abs vid_cap k = Some s' ∧
    (phase_at k = EXHAUSTED → cap_opened c' = false ∧ cap_releases c' = 1) ∧
    (phase_at k ≠ EXHAUSTED → cap_opened c' = true ∧ cap_releases c' = 0) ∧
    (balanced s' ↔ phase_at k ≠ STOPPED ∧ phase_at k ≠ ERROR).
Proof.
  intros Hc Ho Hr k.
  destruct (frame_loop_refines_code fuel w)
    as [Hrun (tr & s & s' & Hs & Hs' & Htr & _)]; [by exists c|].
  split; [done|].
  assert (code_holds s') as Hholds.
  { apply reachable_code_holds. eapply source_run_reachable; [|done].
    by eapply abs_reachable. }
  pose proof (code_holds_balanced s' Hholds) as Hbal.
  fold k in Hs'. unfold code_holds in Hholds. unfold abs in Hs' |- *.
  destruct (caps (world_of k) !! vid_cap) as [c'|]; simplify_eq/=.
  exists c'. eexists. split_and!; [done..| | |done];
    destruct (phase_at k); intuition congruence.
Qed.

End Simulation.

(** The machine under the code's policy does not keep the balance: a
    failure, or a stop, leaves the handle held in a final phase. *)
Lemma code_machine_leaks e :
  e ∈ [Stop; Fail] →
  ∃ s, source_run code_policy [Start; Frame; e] source_init = Some s ∧
       final (phase_of s) = true ∧ handle_open s = true ∧ ¬ balanced s.
Proof.
  set_unfold. intros [->|[->|[]]]; eexists; (split; [reflexivity|]);
    split_and!; try done; by intros [[=] _].
Qed.

(** ** A stream played to its end *)

(** The events of a source that takes [n] frames and reaches the end of
    its stream. *)
Definition exhausted_trace (n : nat) : list event :=
  Start :: replicate n Frame ++ [EndOfStream].

Lemma source_run_frames pol n tr s :
  phase_of s = RUNNING →
  source_run pol (replicate n Frame ++ tr) s =
  source_run pol tr
    {| phase_of := RUNNING; taken := n + taken s;
       handle_open := handle_open s; opens := opens s;
       releases := releases s |}.
Proof.
  revert s. induction n as [|n IH]; intros s Hs.
  - destruct s; by simplify_eq/=.
  - simpl. unfold source_next at 1. rewrite Hs; simpl.
    rewrite IH by done; simpl. by rewrite Nat.add_succ_r.
Qed.

(** The specified machine on that trace: [n] frames taken, the handle
    opened once and released once. *)
Lemma exhausted_trace_run n :
  source_run spec_policy (exhausted_trace n) source_init =
  Some {| phase_of := EXHAUSTED; taken := n; handle_open := false;
          opens := 1; releases := 1 |}.
Proof.
  unfold exhausted_trace; simpl. rewrite source_run_frames by done; simpl.
  by rewrite Nat.add_0_r.
Qed.

Section Exhausted.
Context `{Backend}.
Context (conf : Q) (model : Model) (st_frame vid_cap : nat).
Context (cond : M World bool).
Hypothesis cond_opened : ∀ w c,
  caps w !! vid_cap = Some c → cap_opened c = true → cond w = (Ok true, w).

Local Abbreviation iter :=
  (loop_iter cond (frame_step conf model st_frame vid_cap)).

(** On a feed that ends after [frames], each of which infers, one
    iteration per frame and one more leave the loop by its [break]. *)
Lemma loop_iter_exhausts frames grs :
  Forall2 (infers conf model) frames grs →
  ∀ w c,
    caps w !! vid_cap = Some c → cap_opened c = true →
    feeds (cap_feed c) (cap_pos c) frames →
    cap_feed c (length frames + cap_pos c) = None →
    iter (S (length frames)) (Looping w) =
    Broke (with_caps
             (<[vid_cap := capture_release (capture_advance (length frames) c)]>)
             (play conf model st_frame grs w)).
Proof.
  induction 1 as [|f gr frames grs Hi _ IH]; intros w c Hc Ho Hfeed Hend;
    rewrite loop_iter_S; unfold loop_next; rewrite (cond_opened w c Hc Ho).
  - rewrite (frame_step_end _ _ _ _ w c Hc (capture_read_end c Hend)).
    by rewrite capture_advance_0.
  - destruct Hfeed as [Hf Hfeed].
    rewrite (frame_step_frame _ _ _ _ w c f gr Hc Ho Hf Hi).
    rewrite (IH _ (capture_advance 1 c));
      [| by apply (with_caps_insert_lookup _ c) | done | done
       | simpl in Hend |- *; by rewrite <- Nat.add_succ_r in Hend].
    rewrite play_cons, show_frame_with_caps, play_with_caps.
    rewrite with_caps_insert_insert, capture_advance_advance.
    by rewrite Nat.add_1_r.
Qed.

(** With more fuel the loop ends in the same configuration. *)
Lemma loop_exhausts fuel frames grs w c :
  Forall2 (infers conf model) frames grs →
  caps w !! vid_cap = Some c → cap_opened c = true →
  feeds (cap_feed c) (cap_pos c) frames →
  cap_feed c (length frames + cap_pos c) = None →
  length frames < fuel →
  loop_finish cond (iter fuel (Looping w)) =
  Broke (with_caps
           (<[vid_cap := capture_release (capture_advance (length frames) c)]>)
           (play conf model st_frame grs w)).
Proof.
  intros Hall Hc Ho Hfeed Hend Hfuel.
  replace fuel with (S (length frames) + (fuel - S (length frames))) by lia.
  rewrite loop_iter_add, (loop_iter_exhausts frames grs Hall w c) by done.
  by rewrite loop_iter_ended.
Qed.

End Exhausted.

(** ** The loops of the two sources *)

(** The test of the video loop reads the capture and changes nothing. *)
Lemma video_test_pure `{Backend} vid_cap w :
  running vid_cap w → ∃ b, cap_isOpened vid_cap w = (Ok b, w).
Proof.
  intros (c & Hc & _). exists (cap_opened c). by apply cap_isOpened_lookup.
Qed.

(** The test of the camera loop reads the flag. *)
Lemma webcam_test_pure vid_cap (flag : bool) w :
  running vid_cap w → ∃ b, ret (negb flag) w = (Ok b, w).
Proof. intros _. by exists (negb flag). Qed.

(** C14: a video that plays to its end is the run [Start], [Frame] N
    times, [EndOfStream] of the specified machine.  With a file of N
    decodable frames uploaded, the start button clicked, every frame
    inferring and fuel above N, the loop of [infer_uploaded_video] ends by
    its [break], in the phase [EXHAUSTED]; the state read off its capture
    (frames taken, handle, opens, releases) is the state of the specified
    machine after that run: N frames taken, the handle opened once and
    released once; the detector was called N times, the page has gained
    one slot and no error report. *)
Theorem video_run_reaches_exhausted `{Backend} fuel conf model w f frames grs :
  in_upload (inputs w) VIDEO_UPLOAD_LABEL = Some f →
  clicked (inputs w) START_LABEL = true →
  cv2_decode (up_data f) = Some frames →
  Forall2 (infers conf model) frames grs →
  length frames < fuel →
  let vid_cap := length (caps w) in
  let st_frame := length (slots (page w)) in
  let k := loop_finish (cap_isOpened vid_cap)
             (loop_iter (cap_isOpened vid_cap)
                (frame_step conf model st_frame vid_cap) fuel
                (Looping (video_opened f (video_widgets (Some f) w)))) in
  infer_uploaded_video fuel conf model w = loop_result k ∧
  phase_at k = EXHAUSTED ∧
  abs vid_cap k =
    source_run spec_policy (exhausted_trace (length frames)) source_init ∧
  length (inferences (world_of k)) = length (inferences w) + length frames ∧
  length (slots (page (world_of k))) = S (length (slots (page w))) ∧
  error_reports (page (world_of k)) = error_reports (page w).
Proof.
  intros Hup Hst Hdec Hall Hfuel vid_cap st_frame k.
  assert (k = Broke (video_done conf model f frames grs
                       (video_widgets (Some f) w))) as ->.
  { apply (loop_exhausts conf model st_frame vid_cap _ (isOpened_opened _)
             fuel frames grs _ (video_capture f));
      [done | apply (video_opened_caps f (video_widgets (Some f) w)) | ..];
      rewrite ?(video_capture_decoded f frames Hdec); try done.
    - apply feeds_all.
    - apply feed_of_frames_end. simpl. lia. }
  rewrite (video_plays fuel conf model w f frames grs) by done.
  cbn [loop_result phase_at world_of]. unfold abs; cbn [world_of phase_at].
  rewrite video_done_caps, video_done_inferences, video_done_slots_length,
    video_done_errors, video_widgets_caps, video_widgets_inferences,
    video_widgets_slots, video_widgets_errors, exhausted_trace_run.
  rewrite length_app, length_fmap, <- (Forall2_length _ _ _ Hall).
  split_and!; try done.
  rewrite lookup_app_r, Nat.sub_diag by done.
  rewrite (video_capture_decoded f frames Hdec); simpl.
  by rewrite Nat.add_0_r.
Qed.

(** ** The theorems on concrete inputs *)

(** The world in which the video loop is entered on the demo video. *)
Definition loop_demo_world : World :=
  video_opened (H := stub_backend) demo_video
    (video_widgets (Some demo_video) (video_demo_world demo_video)).

Lemma frame_loop_refines_machine_witness :
  let k := loop_finish (cap_isOpened 0)
             (loop_iter (cap_isOpened 0)
                (frame_step (H := stub_backend) demo_conf demo_model 0 0) 11
                (Looping loop_demo_world)) in
  while_loop 11 (cap_isOpened 0)
    (frame_step (H := stub_backend) demo_conf demo_model 0 0) loop_demo_world =
    loop_result k ∧
  ∃ tr s s', abs 0 (Looping loop_demo_world) = Some s ∧ abs 0 k = Some s' ∧
             source_run code_policy tr s = Some s' ∧ length tr ≤ 12 ∧
             reachable code_policy s' ∧
             (Forall (λ e, e ≠ Stop ∧ e ≠ Fail) tr →
              source_run spec_policy tr s = Some s' ∧ balanced s').
Proof.
  exact (frame_loop_refines_machine (H := stub_backend) demo_conf demo_model
           0 0 (cap_isOpened 0) (video_test_pure 0) 11 loop_demo_world
           (video_capture (H := stub_backend) demo_video)
           eq_refl eq_refl eq_refl).
Defined.

Lemma frame_loop_releases_only_at_end_witness :
  let k := loop_finish (cap_isOpened 0)
             (loop_iter (cap_isOpened 0)
                (frame_step (H := stub_backend) demo_conf demo_model 0 0) 11
                (Looping loop_demo_world)) in
  while_loop 11 (cap_isOpened 0)
    (frame_step (H := stub_backend) demo_conf demo_model 0 0) loop_demo_world =
    loop_result k ∧
  ∃ c' s', caps (world_of k) !! 0 = Some c' ∧ abs 0 k = Some s' ∧
    (phase_at k = EXHAUSTED → cap_opened c' = false ∧ cap_releases c' = 1) ∧
    (phase_at k ≠ EXHAUSTED → cap_opened c' = true ∧ cap_releases c' = 0) ∧
    (balanced s' ↔ phase_at k ≠ STOPPED ∧ phase_at k ≠ ERROR).
Proof.
  exact (frame_loop_releases_only_at_end (H := stub_backend) demo_conf
           demo_model 0 0 (cap_isOpened 0) (video_test_pure 0) 11
           loop_demo_world (video_capture (H := stub_backend) demo_video)
           eq_refl eq_refl eq_refl).
Defined.

(** The other ways out of the loop, run: a first frame that is damaged
    ends the video loop in [ERROR], a click on the stop button ends the
    camera loop in [STOPPED]; both leave the capture open and never
    released. *)
Example frame_loop_error_leaves_open :
  let f := {| up_name := "torn.mp4"; up_data := [0; 40]%Z |} in
  let w := video_opened (H := stub_backend) f
             (video_widgets (Some f) (video_demo_world f)) in
  let k := loop_finish (cap_isOpened 0)
             (loop_iter (cap_isOpened 0)
                (frame_step (H := stub_backend) demo_conf demo_model 0 0) 3
                (Looping w)) in
  phase_at k = ERROR ∧
  (λ c, (cap_opened c, cap_releases c)) <$> caps (world_of k) !! 0 =
    Some (true, 0).
Proof. by vm_compute. Qed.

Example frame_loop_stop_leaves_open :
  let w := webcam_opened (webcam_demo_world (Some demo_camera)
                            (Some STOP_LABEL)) in
  let k := loop_finish (ret (negb true))
             (loop_iter (ret (negb true))
                (frame_step (H := stub_backend) demo_conf demo_model 0 0) 3
                (Looping w)) in
  phase_at k = STOPPED ∧
  (λ c, (cap_opened c, cap_releases c)) <$> caps (world_of k) !! 0 =
    Some (true, 0).
Proof. by vm_compute. Qed.

(** The scenario of the specification: a video of ten frames, the
    confidence 0.5, and a detector that reports no box. *)
Lemma video_run_reaches_exhausted_witness :
  let w := video_demo_world demo_video in
  let vid_cap := length (caps w) in
  let st_frame := length (slots (page w)) in
  let k := loop_finish (cap_isOpened vid_cap)
             (loop_iter (cap_isOpened vid_cap)
                (frame_step (H := quiet_backend) demo_conf demo_model
                   st_frame vid_cap) 11
                (Looping (video_opened (H := quiet_backend) demo_video
                            (video_widgets (Some demo_video) w)))) in
  infer_uploaded_video (H := quiet_backend) 11 demo_conf demo_model w =
    loop_result k ∧
  phase_at k = EXHAUSTED ∧
  abs vid_cap k =
    source_run spec_policy (exhausted_trace (length demo_frames)) source_init ∧
  length (inferences (world_of k)) = length (inferences w) + length demo_frames ∧
  length (slots (page (world_of k))) = S (length (slots (page w))) ∧
  error_reports (page (world_of k)) = error_reports (page w).
Proof.
  refine (video_run_reaches_exhausted (H := quiet_backend) 11 demo_conf
            demo_model (video_demo_world demo_video) demo_video demo_frames
            (quiet_result <$> demo_frames) eq_refl eq_refl eq_refl _ _).
  - apply quiet_frames_infer. by repeat constructor.
  - simpl. lia.
Defined.

