(* ===== verification/ImageSource.v ===== *)
(** * The image source

    [infer_uploaded_image] of [src/utils.py] (lines 48-89): the uploader
    for the five picture formats, two columns, the uploaded picture opened
    and shown in the first column, and, once the start button is clicked,
    one call of the detector on the picture as uploaded, the annotated
    picture (channels reversed) in the second column, and the position and
    size of every box in an expander.  Only the expander is inside a [try]:
    the theorems show what each way out of the function leaves on the page
    and in the log of detector calls. *)

From Stdlib Require Import ZArith QArith.
From stdpp Require Import base option list strings gmap.
From S2P Require Import Prelude Image Streamlit Backend Capture World.
From S2P Require Import Inference Demo.
Close Scope Q_scope.

(** ** Texts *)

Definition IMAGE_UPLOAD_LABEL : string := "选择一张图片...".
Definition IMAGE_TYPES : list string := ["jpg"; "jpeg"; "png"; "bmp"; "webp"].
Definition UPLOADED_CAPTION : string := "上传的图片".
Definition RESULT_CAPTION : string := "检测结果".
Definition DETAILS_LABEL : string := "检测结果详情".
Definition BOX_PREFIX : string := "位置及大小: ".
Definition NO_IMAGE_TEXT : string := "尚未上传图片！".

Section ImageSource.
Context `{Backend}.
Implicit Types (w : World) (conf : Q) (model : Model) (f : Upload)
  (im : Image) (r : Results).

(** ** The code *)

(** [f"位置及大小: {box.xywh}"] *)
Definition box_line (box : Box) : string :=
  BOX_PREFIX +:+ tensor_str (xywh box).

(** The [try] statement of lines 83-89. *)
Definition image_details (boxes : list Box) : M World unit :=
  try_except
    (panel <- st_expander DETAILS_LABEL ;;
     st_with panel (for_each boxes (λ box, st_write (box_line box))))
    (λ ex, st_write NO_IMAGE_TEXT ;; st_write_exn ex).

Definition infer_uploaded_image (conf : Q) (model : Model) : M World unit :=
  source_img <- st_sidebar_file_uploader IMAGE_UPLOAD_LABEL IMAGE_TYPES ;;
  cols <- st_columns2 ;;
  let '(col1, col2) := cols in
  uploaded_image <-
    st_with col1
      match source_img with
      | Some f =>
          uploaded_image <- Image_open f ;;
          st_image (FromUpload f) UPLOADED_CAPTION true ;;
          ret (Some uploaded_image)
      | None => ret None
      end ;;
  match source_img with
  | Some _ =>
      start <- st_button START_LABEL ;;
      if start : bool then
        st_spinner SPINNER_TEXT
          (uploaded_image <- local_var "uploaded_image" uploaded_image ;;
           res <- model_predict model uploaded_image conf ;;
           let boxes := boxes res in
           let res_plotted := reverse_channels (plot res) in
           st_with col2
             (st_image (FromArray res_plotted) RESULT_CAPTION true ;;
              image_details boxes))
      else ret tt
  | None => ret tt
  end.

(** ** The pages a run goes through *)

(** Column [i] of the block that [st.columns(2)] adds to page [p]: the
    block is the element after the uploader. *)
Definition image_col (i : nat) (p : Page) : container :=
  Column
    (length (elems (page_emit_in Sidebar
                      (FileUploader IMAGE_UPLOAD_LABEL IMAGE_TYPES) p))) i.

(** The uploader and the columns. *)
Definition image_layout (p : Page) : Page :=
  page_emit (Columns 2)
    (page_emit_in Sidebar (FileUploader IMAGE_UPLOAD_LABEL IMAGE_TYPES) p).

(** The uploaded picture in the first column. *)
Definition image_uploaded (f : Upload) (p : Page) : Page :=
  page_emit_in (image_col 0 p)
    (ImageBox (FromUpload f) UPLOADED_CAPTION RGB true) (image_layout p).

(** The start button under them. *)
Definition image_ready (f : Upload) (p : Page) : Page :=
  page_emit (Button START_LABEL) (image_uploaded f p).

(** The expander and one line per box, in container [c]. *)
Definition details_page (c : container) (boxes : list Box) (p : Page) : Page :=
  page_emit_all_in (Expander DETAILS_LABEL c) (Text ∘ box_line <$> boxes)
    (page_emit_in c (ExpanderBox DETAILS_LABEL) p).

(** The annotated picture and the details in the second column. *)
Definition image_result (f : Upload) (r : Results) (p : Page) : Page :=
  details_page (image_col 1 p) (boxes r)
    (page_emit_in (image_col 1 p)
       (ImageBox (FromArray (reverse_channels (plot r))) RESULT_CAPTION RGB
          true)
       (image_ready f p)).

(** The detector call of a run, logged. *)
Definition image_inferred conf model im w : World :=
  with_inferences (λ l, l ++ [(model, im, conf)]) w.

(** The world after a complete run. *)
Definition image_done conf model f im r w : World :=
  with_page (image_result f r) (image_inferred conf model im w).

Lemma image_col_eq i p : image_col i p = Column (S (length (elems p))) i.
Proof. unfold image_col; simpl. rewrite length_app; simpl. f_equal. lia. Qed.

(** None of these pages has a new error box. *)
Lemma image_layout_errors p : error_reports (image_layout p) = error_reports p.
Proof.
  unfold image_layout. autorewrite with py. by rewrite !app_nil_r.
Qed.

Lemma image_ready_errors f p :
  error_reports (image_ready f p) = error_reports p.
Proof.
  unfold image_ready, image_uploaded. autorewrite with py.
  by rewrite image_layout_errors, !app_nil_r.
Qed.

Lemma details_page_errors c boxes p :
  error_reports (details_page c boxes p) = error_reports p.
Proof.
  unfold details_page. rewrite error_reports_emit_all_in.
  - autorewrite with py. by rewrite app_nil_r.
  - by apply Forall_fmap, Forall_true.
Qed.

Lemma image_result_errors f r p :
  error_reports (image_result f r p) = error_reports p.
Proof.
  unfold image_result. rewrite details_page_errors. autorewrite with py.
  by rewrite image_ready_errors, app_nil_r.
Qed.

(** ** The [try] statement *)

(** The expander is drawn with one line per box, and the statement ends
    normally: nothing in its body can raise, so the handler never runs. *)
Lemma image_details_run boxes w :
  image_details boxes w =
  (Ok tt, with_page (λ p, details_page (current p) boxes p) w).
Proof.
  unfold image_details. apply try_except_ok.
  unfold bind, st_expander, st_write. by rewrite st_with_for_each_emit.
Qed.

(** ** The ways through the function *)

(** Unfold the function down to the library calls. *)
Ltac image_unfold :=
  unfold infer_uploaded_image, st_sidebar_file_uploader, st_columns2,
    st_button, st_image, st_sidebar_emit, st_emit, st_spinner, st_with,
    Image_open, model_predict, local_var, lift_res, raise, bind, gets,
    modify, ret; wsimpl.

Section Uploaded.
Context (conf : Q) (model : Model) (w : World) (f : Upload).
Hypothesis Hup : uploaded (inputs w) IMAGE_UPLOAD_LABEL IMAGE_TYPES = Some f.

(** The picture does not open: the exception of [Image.open] leaves the
    function, with the uploader and the columns drawn. *)
Lemma image_run_open_raises e :
  pil_open f = inl e →
  infer_uploaded_image conf model w = (Raise e, with_page image_layout w).
Proof. intros Ho. image_unfold. by rewrite Hup, Ho. Qed.

(** No click: the picture is shown and the button drawn. *)
Lemma image_run_idle im :
  pil_open f = inr im → clicked (inputs w) START_LABEL = false →
  infer_uploaded_image conf model w = (Ok tt, with_page (image_ready f) w).
Proof. intros Ho Hc. image_unfold. by rewrite Hup, Ho; wsimpl; rewrite Hc. Qed.

(** The detector raises: its exception leaves the function. *)
Lemma image_run_predict_raises im e :
  pil_open f = inr im → clicked (inputs w) START_LABEL = true →
  yolo_predict (model_path model) im conf = inl e →
  infer_uploaded_image conf model w =
  (Raise e, with_page (image_ready f) (image_inferred conf model im w)).
Proof.
  intros Ho Hc Hp. image_unfold.
  by rewrite Hup, Ho; wsimpl; rewrite Hc; wsimpl; rewrite Hp.
Qed.

(** The detector returns: both pictures and the details are on the page. *)
Lemma image_run_done im r :
  pil_open f = inr im → clicked (inputs w) START_LABEL = true →
  yolo_predict (model_path model) im conf = inr r →
  infer_uploaded_image conf model w = (Ok tt, image_done conf model f im r w).
Proof.
  intros Ho Hc Hp. image_unfold.
  rewrite Hup, Ho; wsimpl; rewrite Hc; wsimpl; rewrite Hp; wsimpl.
  by rewrite image_details_run.
Qed.

End Uploaded.

(** Nothing in the uploader: only the uploader and the columns are drawn. *)
Lemma image_run_empty conf model w :
  uploaded (inputs w) IMAGE_UPLOAD_LABEL IMAGE_TYPES = None →
  infer_uploaded_image conf model w = (Ok tt, with_page image_layout w).
Proof. intros Hup. image_unfold. by rewrite Hup. Qed.

(** The image source keeps the loader's state, whatever its outcome. *)
Lemma image_keeps_loader conf model :
  keeps_loader (infer_uploaded_image conf model).
Proof. unfold infer_uploaded_image, image_details. keeps_loader_tac. Qed.

(** ** What a run shows and infers *)

(** The elements a complete run appends to page [p]. *)
Definition image_elems (f : Upload) (r : Results) (p : Page)
  : list (container * element) :=
  [(Sidebar, FileUploader IMAGE_UPLOAD_LABEL IMAGE_TYPES);
   (current p, Columns 2);
   (image_col 0 p, ImageBox (FromUpload f) UPLOADED_CAPTION RGB true);
   (current p, Button START_LABEL);
   (image_col 1 p,
    ImageBox (FromArray (reverse_channels (plot r))) RESULT_CAPTION RGB true);
   (image_col 1 p, ExpanderBox DETAILS_LABEL)] ++
  ((λ b, (Expander DETAILS_LABEL (image_col 1 p), Text (box_line b)))
     <$> boxes r).

Lemma image_done_elems conf model f im r w :
  elems (page (image_done conf model f im r w)) =
  elems (page w) ++ image_elems f r (page w).
Proof.
  unfold image_elems; simpl. rewrite <- !app_assoc; simpl.
  by rewrite <- list_fmap_compose.
Qed.

(** The arrays among them, as the browser shows them. *)
Lemma image_elems_rgb f r p :
  omap (element_rgb ∘ snd) (image_elems f r p) = [reverse_channels (plot r)].
Proof.
  unfold image_elems. rewrite omap_app; simpl. f_equal.
  by induction (boxes r).
Qed.

(** C9: a supported picture, uploaded and opened, and a click on the start
    button give exactly one call of the detector, on the picture as opened
    (not resized) and with the session's confidence; the page gains the
    uploader, the two columns, the uploaded picture in the first column,
    the button, the annotated picture in the second column and, in an
    expander there, one line per reported box; every such box scores at
    least the confidence. *)
Theorem image_infers_once_shows_pair conf model w f im r :
  uploaded (inputs w) IMAGE_UPLOAD_LABEL IMAGE_TYPES = Some f →
  pil_open f = inr im →
  clicked (inputs w) START_LABEL = true →
  yolo_predict (model_path model) im conf = inr r →
  let out := infer_uploaded_image conf model w in
  out.1 = Ok tt ∧
  inferences out.2 = inferences w ++ [(model, im, conf)] ∧
  elems (page out.2) = elems (page w) ++ image_elems f r (page w) ∧
  slots (page out.2) = slots (page w) ∧
  Forall (λ b, (conf <= Backend.conf b)%Q) (boxes r).
Proof.
  intros Hup Ho Hc Hp. cbv zeta.
  rewrite (image_run_done _ _ _ _ Hup _ _ Ho Hc Hp); cbn [fst snd].
  rewrite image_done_elems. repeat split.
  by eapply yolo_predict_conf.
Qed.

(** C22: when the detector raises on the uploaded picture, the exception
    leaves [infer_uploaded_image]: no error box is added, no result is
    shown, and the run of the script ends there. *)
Theorem image_predict_error_escapes conf model w f im e :
  uploaded (inputs w) IMAGE_UPLOAD_LABEL IMAGE_TYPES = Some f →
  pil_open f = inr im →
  clicked (inputs w) START_LABEL = true →
  yolo_predict (model_path model) im conf = inl e →
  let out := infer_uploaded_image conf model w in
  out.1 = Raise e ∧
  error_reports (page out.2) = error_reports (page w) ∧
  elems (page out.2) = elems (page (with_page (image_ready f) w)) ∧
  inferences out.2 = inferences w ++ [(model, im, conf)].
Proof.
  intros Hup Ho Hc Hp. cbv zeta.
  rewrite (image_run_predict_raises _ _ _ _ Hup _ _ Ho Hc Hp); cbn [fst snd].
  repeat split. wsimpl. apply image_ready_errors.
Qed.

(** C23: a file the picture reader cannot open makes every run raise, click
    or no click, as soon as it is in the uploader: the exception of
    [Image.open] leaves the function before the picture or the button is
    drawn, and nothing is inferred or reported. *)
Theorem image_open_error_escapes conf model w f e :
  uploaded (inputs w) IMAGE_UPLOAD_LABEL IMAGE_TYPES = Some f →
  pil_open f = inl e →
  let out := infer_uploaded_image conf model w in
  out.1 = Raise e ∧
  error_reports (page out.2) = error_reports (page w) ∧
  elems (page out.2) =
    elems (page w) ++ [(Sidebar, FileUploader IMAGE_UPLOAD_LABEL IMAGE_TYPES);
                       (current (page w), Columns 2)] ∧
  inferences out.2 = inferences w.
Proof.
  intros Hup Ho. cbv zeta. rewrite (image_run_open_raises _ _ _ _ Hup _ Ho).
  cbn [fst snd]. repeat split.
  - wsimpl. apply image_layout_errors.
  - unfold image_layout; simpl. by rewrite <- app_assoc.
Qed.

(** A file whose extension is not one of jpg, jpeg, png, bmp, webp is
    not taken: the run draws the uploader and the columns and nothing else,
    the picture reader and the detector are not called. *)
Theorem image_unsupported_format_ignored conf model w f :
  in_upload (inputs w) IMAGE_UPLOAD_LABEL = Some f →
  accepts IMAGE_TYPES (up_name f) = false →
  infer_uploaded_image conf model w = (Ok tt, with_page image_layout w).
Proof.
  intros Hin Hacc. apply image_run_empty.
  unfold uploaded. by rewrite Hin, Hacc.
Qed.

(** ** Every run *)

(** The five ways through the function, by what the uploader holds, whether
    the picture opens, whether the button was clicked and whether the
    detector returns. *)
Inductive image_way conf model w : outcome unit * World → Prop :=
| way_empty :
    uploaded (inputs w) IMAGE_UPLOAD_LABEL IMAGE_TYPES = None →
    image_way conf model w (Ok tt, with_page image_layout w)
| way_open_raises f e :
    uploaded (inputs w) IMAGE_UPLOAD_LABEL IMAGE_TYPES = Some f →
    pil_open f = inl e →
    image_way conf model w (Raise e, with_page image_layout w)
| way_idle f im :
    uploaded (inputs w) IMAGE_UPLOAD_LABEL IMAGE_TYPES = Some f →
    pil_open f = inr im → clicked (inputs w) START_LABEL = false →
    image_way conf model w (Ok tt, with_page (image_ready f) w)
| way_predict_raises f im e :
    uploaded (inputs w) IMAGE_UPLOAD_LABEL IMAGE_TYPES = Some f →
    pil_open f = inr im → clicked (inputs w) START_LABEL = true →
    yolo_predict (model_path model) im conf = inl e →
    image_way conf model w
      (Raise e, with_page (image_ready f) (image_inferred conf model im w))
| way_done f im r :
    uploaded (inputs w) IMAGE_UPLOAD_LABEL IMAGE_TYPES = Some f →
    pil_open f = inr im → clicked (inputs w) START_LABEL = true →
    yolo_predict (model_path model) im conf = inr r →
    image_way conf model w (Ok tt, image_done conf model f im r w).

Lemma image_run_cases conf model w :
  image_way conf model w (infer_uploaded_image conf model w).
Proof.
  destruct (uploaded (inputs w) IMAGE_UPLOAD_LABEL IMAGE_TYPES) as [f|] eqn:Hup;
    [|rewrite image_run_empty by done; by constructor].
  destruct (pil_open f) as [e|im] eqn:Ho;
    [erewrite image_run_open_raises by done; by econstructor|].
  destruct (clicked (inputs w) START_LABEL) eqn:Hc;
    [|erewrite image_run_idle by done; by econstructor].
  destruct (yolo_predict (model_path model) im conf) as [e|r] eqn:Hp.
  - erewrite image_run_predict_raises by done. by econstructor.
  - erewrite image_run_done by done. by econstructor.
Qed.

(** The function has no loop of its own: it ends on every world. *)
Lemma image_terminates conf model w :
  terminated (infer_uploaded_image conf model w).1.
Proof. by destruct (image_run_cases conf model w). Qed.

(** C31: whatever the widgets hold and whatever the libraries do, a run of
    [infer_uploaded_image] ends, calls the detector at most once, leaves
    the captures, the temporary files, the cache of models and the display
    slots as they were, and adds no error box. *)
Theorem image_at_most_one_inference conf model w :
  let out := infer_uploaded_image conf model w in
  (∃ l, inferences out.2 = inferences w ++ l ∧ length l ≤ 1) ∧
  caps out.2 = caps w ∧ tmpfiles out.2 = tmpfiles w ∧
  cache out.2 = cache w ∧ models out.2 = models w ∧
  slots (page out.2) = slots (page w) ∧
  error_reports (page out.2) = error_reports (page w) ∧
  terminated out.1.
Proof.
  cbv zeta. destruct (image_run_cases conf model w); cbn [fst snd].
  all: split; [first [by exists []; rewrite app_nil_r; auto
                     | by eexists [_]; split; [reflexivity | auto]]|].
  all: repeat split; try done; unfold image_done; wsimpl.
  all: by rewrite ?image_result_errors, ?image_ready_errors,
         ?image_layout_errors.
Qed.

(** An exception that leaves [infer_uploaded_image] is one that
    [Image.open] or the detector raised: the local variable
    [uploaded_image] is bound whenever it is read. *)
Theorem image_raises_only_library conf model w e :
  (infer_uploaded_image conf model w).1 = Raise e →
  (∃ f, uploaded (inputs w) IMAGE_UPLOAD_LABEL IMAGE_TYPES = Some f ∧
        (pil_open f = inl e ∨
         ∃ im, pil_open f = inr im ∧
               yolo_predict (model_path model) im conf = inl e)).
Proof.
  destruct (image_run_cases conf model w); cbn [fst]; intros [=]; subst;
    eauto 8.
Qed.

(** C37: the handler of the [try] around the expander never runs: the
    statement always ends normally, with the expander and exactly one line
    per box, and the text of the handler is none of them. *)
Theorem image_handler_unreachable boxes w :
  (image_details boxes w).1 = Ok tt ∧
  elems (page (image_details boxes w).2) =
    elems (page w) ++
    (current (page w), ExpanderBox DETAILS_LABEL) ::
    ((λ b, (Expander DETAILS_LABEL (current (page w)), Text (box_line b)))
       <$> boxes) ∧
  ∀ c, (c, Text NO_IMAGE_TEXT) ∉
       drop (length (elems (page w))) (elems (page (image_details boxes w).2)).
Proof.
  rewrite image_details_run; cbn [fst snd]. split; [done|].
  assert (elems (page (with_page (λ p, details_page (current p) boxes p) w)) =
    elems (page w) ++
    (current (page w), ExpanderBox DETAILS_LABEL) ::
    ((λ b, (Expander DETAILS_LABEL (current (page w)), Text (box_line b)))
       <$> boxes)) as ->.
  { simpl. by rewrite <- app_assoc, <- list_fmap_compose. }
  split; [done|]. intros c. rewrite drop_app_length.
  rewrite not_elem_of_cons. split; [done|].
  rewrite list_elem_of_fmap. by intros (b & [= _ Hb] & _).
Qed.

(** C32: both display paths show the detector's drawing with the colours
    the right way round.  The drawing is a BGR array; the image source
    reverses its channels and displays it as RGB, the frame step displays it
    unchanged and declares it BGR; in the browser both are the drawing in
    RGB order, and the image source shows no other array. *)
Theorem image_and_video_colours_agree conf model w f im r w2 st_frame frame gr :
  uploaded (inputs w) IMAGE_UPLOAD_LABEL IMAGE_TYPES = Some f →
  pil_open f = inr im →
  clicked (inputs w) START_LABEL = true →
  yolo_predict (model_path model) im conf = inr r →
  infer_frame conf model frame = inr gr →
  st_frame < length (slots (page w2)) →
  omap (element_rgb ∘ snd)
    (drop (length (elems (page w)))
       (elems (page (infer_uploaded_image conf model w).2))) =
    [reverse_channels (plot r)] ∧
  shown (_display_detected_frames conf model st_frame frame w2).2 st_frame
    ≫= element_rgb = Some (reverse_channels (plot gr.2)).
Proof.
  intros Hup Ho Hc Hp Hi Hs. split.
  - rewrite (image_run_done _ _ _ _ Hup _ _ Ho Hc Hp); cbn [snd].
    by rewrite image_done_elems, drop_app_length, image_elems_rgb.
  - rewrite (display_ok _ _ _ _ gr _ Hi); cbn [snd].
    by rewrite show_frame_shown.
Qed.

End ImageSource.

(** ** The theorems on concrete inputs *)

(** A fresh process in which [f] is in the image uploader and [click] is
    the button that was clicked. *)
Definition image_demo_world (f : Upload) (click : option string) : World :=
  fresh_world (demo_inputs IMAGE_UPLOAD_LABEL (Some f) click) None.

(** The picture the reference reader opens [demo_image] as, and what the
    reference detector reports for it: one box, scored 200/255. *)
Definition demo_picture : Image := stub_frame 200.

Definition demo_detection : Results :=
  {| boxes := stub_boxes demo_conf demo_picture; plot := demo_picture |}.

Lemma image_infers_once_shows_pair_witness :
  let out := infer_uploaded_image (H := stub_backend) demo_conf demo_model
               (image_demo_world demo_image (Some START_LABEL)) in
  out.1 = Ok tt ∧
  inferences out.2 = [] ++ [(demo_model, demo_picture, demo_conf)] ∧
  elems (page out.2) = [] ++ image_elems demo_image demo_detection empty_page ∧
  slots (page out.2) = [] ∧
  Forall (λ b, (demo_conf <= conf b)%Q) (boxes demo_detection).
Proof.
  refine (image_infers_once_shows_pair (H := stub_backend) demo_conf demo_model
            (image_demo_world demo_image (Some START_LABEL)) demo_image
            demo_picture demo_detection _ _ _ _); reflexivity.
Defined.

Lemma image_predict_error_escapes_witness :
  (infer_uploaded_image (H := stub_backend) demo_conf demo_model
     (image_demo_world demo_blank_image (Some START_LABEL))).1 =
  Raise (LibraryError "predict: empty image").
Proof.
  refine (proj1 (image_predict_error_escapes (H := stub_backend) demo_conf
            demo_model (image_demo_world demo_blank_image (Some START_LABEL))
            demo_blank_image [] (LibraryError "predict: empty image")
            _ _ _ _)); reflexivity.
Defined.

Lemma image_open_error_escapes_witness :
  (infer_uploaded_image (H := stub_backend) demo_conf demo_model
     (image_demo_world demo_unreadable_image None)).1 =
  Raise (LibraryError "cannot identify image file").
Proof.
  refine (proj1 (image_open_error_escapes (H := stub_backend) demo_conf
            demo_model (image_demo_world demo_unreadable_image None)
            demo_unreadable_image (LibraryError "cannot identify image file")
            _ _)); reflexivity.
Defined.

Lemma image_unsupported_format_ignored_witness :
  infer_uploaded_image (H := stub_backend) demo_conf demo_model
    (image_demo_world demo_text_file (Some START_LABEL)) =
  (Ok tt,
   with_page image_layout (image_demo_world demo_text_file (Some START_LABEL))).
Proof.
  refine (image_unsupported_format_ignored (H := stub_backend) demo_conf
            demo_model (image_demo_world demo_text_file (Some START_LABEL))
            demo_text_file _ _); reflexivity.
Defined.

Lemma image_raises_only_library_witness :
  ∃ f, uploaded (inputs (image_demo_world demo_blank_image (Some START_LABEL)))
         IMAGE_UPLOAD_LABEL IMAGE_TYPES = Some f ∧
       (pil_open (Backend := stub_backend) f =
          inl (LibraryError "predict: empty image") ∨
        ∃ im, pil_open (Backend := stub_backend) f = inr im ∧
              yolo_predict (model_path demo_model) im demo_conf =
                inl (LibraryError "predict: empty image")).
Proof.
  refine (image_raises_only_library (H := stub_backend) demo_conf demo_model
            (image_demo_world demo_blank_image (Some START_LABEL))
            (LibraryError "predict: empty image") _); reflexivity.
Defined.

Lemma image_and_video_colours_agree_witness :
  omap (element_rgb ∘ snd)
    (drop 0 (elems (page (infer_uploaded_image (H := stub_backend) demo_conf
                            demo_model
                            (image_demo_world demo_image
                               (Some START_LABEL))).2))) =
    [reverse_channels demo_picture] ∧
  shown (_display_detected_frames (H := stub_backend) demo_conf demo_model 0
           (stub_frame 10)
           (st_empty (image_demo_world demo_image None)).2).2 0
    ≫= element_rgb =
  Some (reverse_channels (plot (demo_result (stub_frame 10)).2)).
Proof.
  refine (image_and_video_colours_agree (H := stub_backend) demo_conf
            demo_model (image_demo_world demo_image (Some START_LABEL))
            demo_image demo_picture demo_detection
            (st_empty (image_demo_world demo_image None)).2 0 (stub_frame 10)
            (demo_result (stub_frame 10)) _ _ _ _ _ _);
    [reflexivity | reflexivity | reflexivity | reflexivity |
     apply stub_infers | simpl; lia].
Defined.
