(* ===== verification/PageSetup.v ===== *)
(** * The page setup

    The script [src/app.py] before its title (lines 13-75): the background
    picture is read and encoded in Base64 ([get_image_base64]), the page is
    configured, and a style sheet that embeds the picture as a [data:] URL
    is written to the page as raw HTML.  [page_setup] is those statements;
    the theorems show that the style sheet embeds exactly the bytes of the
    picture, and what a missing picture does to a run. *)

From Stdlib Require Import ZArith QArith Lia Ascii String.
From stdpp Require Import base option list strings gmap.
From S2P Require Import Prelude Base64 Image Streamlit Backend Capture World.
From S2P Require Import Demo.
Close Scope Q_scope.

(** ** Texts *)

Definition BACKGROUND_PATH : string := "back_images/image2.jpg".
Definition PAGE_TITLE : string := "飞机检测".
Definition PAGE_ICON : string := "🤖".
Definition PAGE_LAYOUT : string := "wide".
Definition SIDEBAR_STATE : string := "expanded".

(** The double quote and the line break, which the style sheet contains. *)
Definition dq : string := String "034"%char EmptyString.
Definition nl : string := String "010"%char EmptyString.

(** The style sheet up to the picture, and after it: the text of the
    f-string of lines 29-75, line by line, its doubled braces written
    once. *)
Definition CSS_HEAD : string :=
  nl +:+ "<style>" +:+ nl +:+ ".stApp {" +:+ nl +:+
  "    background-image: url(" +:+ dq +:+ "data:image/png;base64,".

Definition CSS_TAIL : string :=
  dq +:+ ");" +:+ nl +:+ "    background-size: cover;" +:+ nl +:+
  "    background-position: center;" +:+ nl +:+
  "    background-repeat: no-repeat;" +:+ nl +:+ "}" +:+ nl +:+ nl +:+
  "/* 添加遮光罩 */" +:+ nl +:+ ".stApp:before {" +:+ nl +:+ "    content: " +:+
  dq +:+ dq +:+ ";" +:+ nl +:+ "    position: absolute;" +:+ nl +:+
  "    top: 0;" +:+ nl +:+ "    left: 0;" +:+ nl +:+ "    right: 0;" +:+
  nl +:+ "    bottom: 0;" +:+ nl +:+
  "    background: rgba(0, 0, 0, 0.5); /* 黑色遮光罩，透明度为50% */" +:+ nl +:+
  "    z-index: -1;" +:+ nl +:+ "}" +:+ nl +:+ nl +:+
  "/* 调整其他元素以确保遮光罩效果 */" +:+ nl +:+
  "h1, h2, h3, .stButton>button, .stTextInput>div>div>input {" +:+ nl +:+
  "    position: relative;" +:+ nl +:+ "    z-index: 1;" +:+ nl +:+ "}" +:+
  nl +:+ nl +:+ "/* 其他样式 */" +:+ nl +:+ nl +:+ "h1{" +:+ nl +:+
  "    color: #FFF;" +:+ nl +:+ "    font-family: '楷体';" +:+ nl +:+ "}" +:+
  nl +:+ ".stSidebar {" +:+ nl +:+ "    background-color: #FDEDEC;" +:+
  nl +:+ "}" +:+ nl +:+ ".stButton>button {" +:+ nl +:+
  "    color: #FFFFFF;" +:+ nl +:+ "    background-color: #FF4500;" +:+
  nl +:+ "    border-radius: 20px;" +:+ nl +:+
  "    border: 1px solid #FF4500;" +:+ nl +:+ "}" +:+ nl +:+
  ".stTextInput>div>div>input {" +:+ nl +:+ "    color: #8B0000;" +:+ nl +:+
  "}" +:+ nl +:+ "</style>" +:+ nl.

Section PageSetup.
Context `{Backend}.
Implicit Types (w : World).

(** ** The code *)

(** Lines 13-15. *)
Definition get_image_base64 (image_path : string) : M World string :=
  data <- read_binary image_path ;;
  ret (b64encode data).

(** The f-string of lines 29-75. *)
Definition style_sheet (background_image_base64 : string) : string :=
  CSS_HEAD +:+ background_image_base64 +:+ CSS_TAIL.

(** Lines 18-75. *)
Definition page_setup : M World unit :=
  background_image_base64 <- get_image_base64 BACKGROUND_PATH ;;
  st_set_page_config PAGE_TITLE PAGE_ICON PAGE_LAYOUT SIDEBAR_STATE ;;
  st_markdown (style_sheet background_image_base64) true.

(** ** The page after the setup *)

Definition setup_page (data : list Z) (p : Page) : Page :=
  page_emit (Markdown (style_sheet (b64encode data)) true)
    (page_emit (PageConfig PAGE_TITLE PAGE_ICON PAGE_LAYOUT SIDEBAR_STATE) p).

(** The picture embedded in a style sheet: the text between its head and
    its tail. *)
Definition embedded (sheet : string) : string :=
  String.substring (String.length CSS_HEAD)
    (String.length sheet - String.length CSS_HEAD - String.length CSS_TAIL)
    sheet.

(** ** Behaviour on each branch *)

Lemma page_setup_ok data w :
  fs_read BACKGROUND_PATH = inr data →
  page_setup w = (Ok tt, with_page (setup_page data) w).
Proof.
  intros Hr. unfold page_setup, get_image_base64, read_binary, bind.
  by rewrite Hr.
Qed.

Lemma page_setup_raises e w :
  fs_read BACKGROUND_PATH = inl e → page_setup w = (Raise e, w).
Proof.
  intros Hr. unfold page_setup, get_image_base64, read_binary, bind.
  by rewrite Hr.
Qed.

Lemma page_setup_keeps_loader : keeps_loader page_setup.
Proof.
  unfold page_setup, get_image_base64. keeps_loader_tac.
Qed.

(** The style sheet embeds the string it was given. *)
Lemma embedded_style_sheet s : embedded (style_sheet s) = s.
Proof. apply substring_between. Qed.

(** C34: the style sheet written to the page embeds the background
    picture byte for byte: when the file is read, [page_setup] ends
    normally, the last element of the page is the style sheet as raw
    HTML, and decoding what it embeds between [base64,] and the closing
    quote gives the bytes of the file back; the embedded text is four
    characters for every three bytes of the file. *)
Theorem background_embedded_roundtrip data w :
  fs_read BACKGROUND_PATH = inr data → Forall is_byte data →
  let out := page_setup w in
  out.1 = Ok tt ∧
  ∃ sheet, last (elems (page out.2)) =
             Some (current (page w), Markdown sheet true) ∧
           b64decode (embedded sheet) = Some data ∧
           Z.of_nat (String.length (embedded sheet)) =
             (4 * ((Z.of_nat (length data) + 2) / 3))%Z.
Proof.
  intros Hr Hb. cbv zeta. rewrite (page_setup_ok data w Hr); cbn [fst snd].
  split; [done|]. exists (style_sheet (b64encode data)).
  rewrite embedded_style_sheet. split_and!.
  - simpl. by rewrite last_snoc.
  - by eapply b64decode_encode_upto.
  - apply b64encode_length.
Qed.

End PageSetup.

(** ** The theorems on concrete inputs *)

(** The encoding on the test vectors of RFC 4648. *)
Lemma b64encode_rfc4648 :
  b64encode [102; 111; 111; 98; 97; 114]%Z = "Zm9vYmFy" ∧
  b64encode [102; 111; 111; 98; 97]%Z = "Zm9vYmE=" ∧
  b64encode [102; 111; 111; 98]%Z = "Zm9vYg==" ∧
  b64encode [] = EmptyString.
Proof. by vm_compute. Qed.

Lemma background_embedded_roundtrip_witness :
  let out := page_setup (H := stub_backend) (fresh_world
               (demo_inputs BACKGROUND_PATH None None) None) in
  out.1 = Ok tt ∧
  ∃ sheet, last (elems (page out.2)) = Some (Main, Markdown sheet true) ∧
           b64decode (embedded sheet) = Some stub_background ∧
           Z.of_nat (String.length (embedded sheet)) =
             (4 * ((Z.of_nat (length stub_background) + 2) / 3))%Z.
Proof.
  refine (background_embedded_roundtrip (H := stub_backend) stub_background
            (fresh_world (demo_inputs BACKGROUND_PATH None None) None) _ _);
    [reflexivity | by apply (bool_decide_unpack _)].
Defined.
