(* ===== verification/App.v ===== *)
(** * The session controller

    The script [src/app.py] from its title on (lines 78-128): it draws the
    sidebar, reads the task, the model, the confidence and the source from
    the widgets, loads the model inside a [try], and calls the source the
    user selected.  One run of [main] is one run of the script; the world
    it starts in carries what the process kept from earlier runs (the cache
    of models, the captures).  The module [config] is not part of the
    sources: its three constants are the fields of [Config], a parameter of
    this file. *)

From Stdlib Require Import ZArith QArith Lia Ascii String.
From stdpp Require Import base option list strings gmap.
From S2P Require Import Prelude Image Streamlit Backend Capture World.
From S2P Require Import Inference Demo ModelLoader FrameLoop Video Webcam.
From S2P Require Import ImageSource Base64 PageSetup.
Close Scope Q_scope.

(** ** Configuration *)

(** The constants of [config.py] the script reads. *)
Record Config : Type := {
  DETECTION_MODEL_DIR : string;
  DETECTION_MODEL_LIST : list string;
  SOURCES_LIST : list string
}.

(** ** Texts *)

Definition TITLE : string := "飞机检测".
Definition MODEL_HEADER : string := "深度学习模型配置".
Definition TASK_LABEL : string := "选择任务类型".
Definition TASK_DETECT : string := "检测".
Definition MODEL_LABEL : string := "选择模型".
Definition TASK_ERROR : string := "当前仅实现了'检测'功能".
Definition CONF_LABEL : string := "选择模型置信度".
Definition NO_MODEL_ERROR : string := "请在侧边栏中选择模型".
Definition LOAD_ERROR_PREFIX : string := "无法加载模型，请检查指定的路径：".
Definition SOURCE_HEADER : string := "图像/视频配置".
Definition SOURCE_LABEL : string := "选择数据源".
Definition SOURCE_ERROR : string := "当前仅实现了'图像'和'视频'数据源".

(** ** Paths *)

(** [pathlib] on POSIX.  The parts of a path string: its components
    between slashes, empty ones and [.] dropped. *)
Fixpoint path_split (s cur : string) : list string :=
  match s with
  | EmptyString => [cur]
  | String c s' =>
      if Ascii.eqb c "/" then cur :: path_split s' ""
      else path_split s' (cur +:+ String c "")
  end.

Definition path_parts (s : string) : list string :=
  filter (λ p, p ≠ "" ∧ p ≠ ".") (path_split s "").

(** The root of a path string: [/] when it starts with a slash, [//] when
    it starts with exactly two. *)
Definition path_root (s : string) : string :=
  match s with
  | String "/" (String "/" (String "/" _)) => "/"
  | String "/" (String "/" _) => "//"
  | String "/" _ => "/"
  | _ => ""
  end.

(** [Path(dir, name)] as the string it prints: an absolute [name] replaces
    [dir]; the parts are joined by single slashes after the root; the
    path without parts and without root prints as [.]. *)
Definition Path (dir name : string) : string :=
  let root := if path_root name is "" then path_root dir else path_root name in
  let parts := if path_root name is ""
               then path_parts dir ++ path_parts name
               else path_parts name in
  match parts, root with
  | [], "" => "."
  | _, _ => root +:+ String.concat "/" parts
  end.

(** A part that the split keeps is not empty. *)
Lemma path_parts_not_empty s : Forall (λ p, p ≠ "") (path_parts s).
Proof.
  unfold path_parts. apply Forall_forall. intros p Hp.
  by apply list_elem_of_filter in Hp as [[? _] _].
Qed.

(** A path never prints as the empty string: the key under which
    [st.cache_resource] stores a model is never the key of the call with
    no model selected. *)
Lemma Path_not_empty dir name : Path dir name ≠ "".
Proof.
  unfold Path.
  pose proof (path_parts_not_empty dir) as Hd.
  pose proof (path_parts_not_empty name) as Hn.
  destruct (path_root name), (path_root dir);
    destruct Hd as [|p ps Hp _], Hn as [|q qs Hq _];
    try done; try (by destruct p, ps); by destruct q, qs.
Qed.

(** The script's path on the usual configurations. *)
Example Path_examples :
  Path "weights/detection" "yolov8n.pt" = "weights/detection/yolov8n.pt" ∧
  Path "weights/detection/" "yolov8n.pt" = "weights/detection/yolov8n.pt" ∧
  Path "./weights//detection" "./yolov8n.pt" = "weights/detection/yolov8n.pt" ∧
  Path "weights" "/opt/models/yolov8n.pt" = "/opt/models/yolov8n.pt" ∧
  Path "/srv/weights" "yolov8n.pt" = "/srv/weights/yolov8n.pt" ∧
  Path "" "yolov8n.pt" = "yolov8n.pt" ∧ Path "" "." = ".".
Proof. by vm_compute. Qed.

Section App.
Context `{Backend} (config : Config).
Implicit Types (w : World) (model : option Model) (confidence : Q).

(** ** The code *)

(** Lines 85-97: the task, then the model when the task is detection. *)
Definition sidebar_model : M World (option string) :=
  task_type <- st_sidebar_selectbox TASK_LABEL [TASK_DETECT] ;;
  if decide (task_type = Some TASK_DETECT) then
    st_sidebar_selectbox MODEL_LABEL (DETECTION_MODEL_LIST config)
  else
    st_error TASK_ERROR ;; ret None.

(** Lines 99-100: [float(st.sidebar.slider(...)) / 100]. *)
Definition sidebar_confidence : M World Q :=
  v <- st_sidebar_slider CONF_LABEL 30 100 50 ;;
  ret (inject_Z v / 100)%Q.

(** Lines 102-106. *)
Definition resolve_model_path (model_type : option string) : M World string :=
  if truthy model_type then
    ret (Path (DETECTION_MODEL_DIR config) (default "" model_type))
  else
    st_error NO_MODEL_ERROR ;; ret "".

(** Lines 109-112: the name [model] is bound only when the load returns;
    [None] is the name left unbound. *)
Definition try_load_model (model_path : string) : M World (option Model) :=
  try_except
    (model <- load_model model_path ;; ret (Some model))
    (λ e, st_error (LOAD_ERROR_PREFIX +:+ model_path) ;; ret None).

(** Lines 121-128: the comparisons are made in order, each indexing
    [SOURCES_LIST]; the arguments of the call are evaluated before it. *)
Definition dispatch (fuel : nat) confidence model
  (source_selectbox : option string) : M World unit :=
  s0 <- lift_res (py_index (SOURCES_LIST config) 0) ;;
  if decide (source_selectbox = Some s0) then
    model <- global_var "model" model ;;
    infer_uploaded_image confidence model
  else
    s1 <- lift_res (py_index (SOURCES_LIST config) 1) ;;
    if decide (source_selectbox = Some s1) then
      model <- global_var "model" model ;;
      infer_uploaded_video fuel confidence model
    else
      s2 <- lift_res (py_index (SOURCES_LIST config) 2) ;;
      if decide (source_selectbox = Some s2) then
        model <- global_var "model" model ;;
        infer_uploaded_webcam fuel confidence model
      else
        st_error SOURCE_ERROR.

(** The script from its title on; [fuel] bounds the frame loops. *)
Definition main (fuel : nat) : M World unit :=
  st_emit (Title TITLE) ;;
  st_sidebar_emit (Header MODEL_HEADER) ;;
  model_type <- sidebar_model ;;
  confidence <- sidebar_confidence ;;
  model_path <- resolve_model_path model_type ;;
  model <- try_load_model model_path ;;
  st_sidebar_emit (Header SOURCE_HEADER) ;;
  source_selectbox <- st_sidebar_selectbox SOURCE_LABEL (SOURCES_LIST config) ;;
  dispatch fuel confidence model source_selectbox.

(** The whole script: lines 18-128. *)
Definition script (fuel : nat) : M World unit :=
  page_setup ;;
  main fuel.

(** ** What the widgets give *)

Definition chosen_model w : option string :=
  selected (inputs w) MODEL_LABEL (DETECTION_MODEL_LIST config).

Definition chosen_confidence w : Q :=
  (inject_Z (slid (inputs w) CONF_LABEL 30 100 50) / 100)%Q.

Definition chosen_path w : string :=
  if truthy (chosen_model w)
  then Path (DETECTION_MODEL_DIR config) (default "" (chosen_model w))
  else "".

Definition chosen_source w : option string :=
  selected (inputs w) SOURCE_LABEL (SOURCES_LIST config).

(** ** The pages a run goes through *)

(** The title and the model part of the sidebar (lines 78-106). *)
Definition sidebar_page w (p : Page) : Page :=
  let drawn :=
    page_emit_in Sidebar (Slider CONF_LABEL 30 100 50)
      (page_emit_in Sidebar
         (Selectbox MODEL_LABEL (DETECTION_MODEL_LIST config))
         (page_emit_in Sidebar (Selectbox TASK_LABEL [TASK_DETECT])
            (page_emit_in Sidebar (Header MODEL_HEADER)
               (page_emit (Title TITLE) p)))) in
  if truthy (chosen_model w) then drawn
  else page_emit (ErrorBox NO_MODEL_ERROR) drawn.

(** The report of a failed load (line 112). *)
Definition load_error_page w (p : Page) : Page :=
  page_emit (ErrorBox (LOAD_ERROR_PREFIX +:+ chosen_path w)) p.

(** The source part of the sidebar (lines 115-119). *)
Definition source_page (p : Page) : Page :=
  page_emit_in Sidebar (Selectbox SOURCE_LABEL (SOURCES_LIST config))
    (page_emit_in Sidebar (Header SOURCE_HEADER) p).

(** The model object a first load of the chosen weights creates. *)
Definition new_model w : Model :=
  {| model_id := length (models w); model_path := chosen_path w |}.

(** The world when the source is called: the sidebar drawn and the model
    taken from the cache, loaded, or reported as not loading. *)
Definition ready_cached w : World :=
  with_page (λ p, source_page (sidebar_page w p)) w.

Definition ready_loaded w : World :=
  with_page (λ p, source_page (sidebar_page w p))
    (with_cache (<[chosen_path w := new_model w]>)
       (with_models (λ ms, ms ++ [chosen_path w]) w)).

Definition ready_failed w : World :=
  with_page (λ p, source_page (load_error_page w (sidebar_page w p))) w.

(** ** The run up to the call of the source *)

(** The task selectbox has one option, which it returns. *)
Lemma task_selected i : selected i TASK_LABEL [TASK_DETECT] = Some TASK_DETECT.
Proof.
  unfold selected, selected_index. case_decide as Hi; [|done].
  by destruct (in_select i TASK_LABEL) as [|[]]; simpl in *; try lia.
Qed.

(** The sidebar is drawn and the widgets read: the rest of the run is the
    load and the dispatch on the values chosen. *)
Lemma main_sidebar fuel w :
  main fuel w =
  (model <- try_load_model (chosen_path w) ;;
   st_sidebar_emit (Header SOURCE_HEADER) ;;
   source_selectbox <-
     st_sidebar_selectbox SOURCE_LABEL (SOURCES_LIST config) ;;
   dispatch fuel (chosen_confidence w) model source_selectbox)
    (with_page (sidebar_page w) w).
Proof.
  unfold main, sidebar_model, sidebar_confidence, resolve_model_path.
  unfold st_sidebar_selectbox at 1. unfold st_sidebar_slider.
  unfold st_emit at 1, st_sidebar_emit at 1 2 4, st_error at 1 2.
  unfold bind at 1 2 3 4 5 6 7 8 9, gets, modify, ret; wsimpl.
  rewrite task_selected. rewrite decide_True by done.
  unfold st_sidebar_selectbox at 1, st_sidebar_emit at 1.
  unfold bind at 1 2, gets, modify; wsimpl.
  unfold sidebar_page, chosen_path, chosen_confidence.
  fold (chosen_model w). by destruct (truthy (chosen_model w)).
Qed.

(** The rest of the run once the model is known to be bound or not. *)
Lemma main_after_load fuel w model w1 :
  try_load_model (chosen_path w) (with_page (sidebar_page w) w) =
    (Ok model, w1) →
  inputs w1 = inputs w →
  main fuel w =
  dispatch fuel (chosen_confidence w) model (chosen_source w)
    (with_page source_page w1).
Proof.
  intros Hl Hi. rewrite main_sidebar. rewrite (bind_ok _ _ _ _ _ Hl).
  unfold st_sidebar_selectbox, st_sidebar_emit, bind, gets, modify; wsimpl.
  unfold chosen_source. by rewrite Hi.
Qed.

(** The chosen weights are in the cache: no load. *)
Lemma main_cached fuel w m :
  cache w !! chosen_path w = Some m →
  main fuel w =
  dispatch fuel (chosen_confidence w) (Some m) (chosen_source w)
    (ready_cached w).
Proof.
  intros Hc.
  rewrite (main_after_load fuel w (Some m) (with_page (sidebar_page w) w));
    [done| |done].
  unfold try_load_model. erewrite try_except_ok; [done|].
  by erewrite bind_ok by (by apply load_model_hit).
Qed.

(** They are not, and they load: the new model is cached. *)
Lemma main_loaded fuel w :
  cache w !! chosen_path w = None → yolo_load (chosen_path w) = None →
  main fuel w =
  dispatch fuel (chosen_confidence w) (Some (new_model w)) (chosen_source w)
    (ready_loaded w).
Proof.
  intros Hc Hl.
  rewrite (main_after_load fuel w (Some (new_model w))
             (with_cache (<[chosen_path w := new_model w]>)
                (with_models (λ ms, ms ++ [chosen_path w])
                   (with_page (sidebar_page w) w)))); [done| |done].
  unfold try_load_model. erewrite try_except_ok; [done|].
  by erewrite bind_ok by (by apply load_model_miss).
Qed.

(** They are not, and they do not load: the failure is reported and the
    name [model] stays unbound. *)
Lemma main_load_failed fuel w e :
  cache w !! chosen_path w = None → yolo_load (chosen_path w) = Some e →
  main fuel w =
  dispatch fuel (chosen_confidence w) None (chosen_source w) (ready_failed w).
Proof.
  intros Hc Hl.
  rewrite (main_after_load fuel w None
             (with_page (λ p, load_error_page w (sidebar_page w p)) w));
    [done| |done].
  unfold try_load_model.
  rewrite (try_except_raise _ _ _ e (with_page (sidebar_page w) w)); [done|].
  apply bind_raise. by apply load_model_fails.
Qed.

(** The model bound when the source is called, if any, and the world
    then: the three cases in one. *)
Definition ready w : option Model * World :=
  match cache w !! chosen_path w with
  | Some m => (Some m, ready_cached w)
  | None =>
      match yolo_load (chosen_path w) with
      | None => (Some (new_model w), ready_loaded w)
      | Some e => (None, ready_failed w)
      end
  end.

Lemma main_ready fuel w :
  main fuel w =
  dispatch fuel (chosen_confidence w) (ready w).1 (chosen_source w) (ready w).2.
Proof.
  unfold ready. destruct (cache w !! chosen_path w) as [m|] eqn:Hc;
    [by apply main_cached|].
  destruct (yolo_load (chosen_path w)) as [e|] eqn:Hl;
    [by eapply main_load_failed | by apply main_loaded].
Qed.

(** The model bound is one for the chosen weights. *)
Lemma ready_model_path w m :
  cache_ok w → (ready w).1 = Some m → model_path m = chosen_path w.
Proof.
  intros [Hok _]. unfold ready.
  destruct (cache w !! chosen_path w) as [m'|] eqn:Hc.
  - intros [= <-]. by destruct (Hok _ _ Hc).
  - destruct (yolo_load (chosen_path w)); [done|]. by intros [= <-].
Qed.

Lemma ready_cache_ok w : cache_ok w → cache_ok (ready w).2.
Proof.
  intros Hok. unfold ready.
  destruct (cache w !! chosen_path w) as [m|] eqn:Hc; [done|].
  destruct (yolo_load (chosen_path w)) as [e|] eqn:Hl; [done|].
  by apply (cache_ok_miss (chosen_path w) w).
Qed.

(** ** The dispatch *)

Section Dispatch.
Context (fuel : nat) (confidence : Q).
Implicit Types (src : option string).

(** No source configured: the first comparison cannot index the list. *)
Lemma dispatch_no_sources model src w :
  SOURCES_LIST config = [] →
  dispatch fuel confidence model src w = (Raise IndexError, w).
Proof. unfold dispatch. by intros ->. Qed.

Lemma dispatch_first m s0 rest w :
  SOURCES_LIST config = s0 :: rest →
  dispatch fuel confidence (Some m) (Some s0) w =
  infer_uploaded_image confidence m w.
Proof.
  unfold dispatch. intros ->. unfold py_index; simpl.
  rewrite bind_ret_l, decide_True by done. by rewrite bind_ret_l.
Qed.

Lemma dispatch_second m s0 s1 rest w :
  SOURCES_LIST config = s0 :: s1 :: rest → s1 ≠ s0 →
  dispatch fuel confidence (Some m) (Some s1) w =
  infer_uploaded_video fuel confidence m w.
Proof.
  unfold dispatch. intros -> Hne. unfold py_index; simpl.
  rewrite bind_ret_l, decide_False by congruence.
  rewrite bind_ret_l, decide_True by done. by rewrite bind_ret_l.
Qed.

Lemma dispatch_third m s0 s1 s2 rest w :
  SOURCES_LIST config = s0 :: s1 :: s2 :: rest → s2 ≠ s0 → s2 ≠ s1 →
  dispatch fuel confidence (Some m) (Some s2) w =
  infer_uploaded_webcam fuel confidence m w.
Proof.
  unfold dispatch. intros -> H0 H1. unfold py_index; simpl.
  rewrite bind_ret_l, decide_False by congruence.
  rewrite bind_ret_l, decide_False by congruence.
  rewrite bind_ret_l, decide_True by done. by rewrite bind_ret_l.
Qed.

(** A source beyond the third one: none is called. *)
Lemma dispatch_other model s s0 s1 s2 rest w :
  SOURCES_LIST config = s0 :: s1 :: s2 :: rest → s ≠ s0 → s ≠ s1 → s ≠ s2 →
  dispatch fuel confidence model (Some s) w = st_error SOURCE_ERROR w.
Proof.
  unfold dispatch. intros -> H0 H1 H2. unfold py_index; simpl.
  rewrite bind_ret_l, decide_False by congruence.
  rewrite bind_ret_l, decide_False by congruence.
  by rewrite bind_ret_l, decide_False by congruence.
Qed.

(** With [model] unbound, selecting one of the first three sources raises
    [NameError] before the source is entered. *)
Lemma dispatch_unbound i s w :
  SOURCES_LIST config !! i = Some s → i < 3 →
  dispatch fuel confidence None (Some s) w = (Raise (NameError "model"), w).
Proof.
  intros Hs Hi. unfold dispatch, py_index.
  destruct (SOURCES_LIST config) as [|s0 [|s1 [|s2 rest]]];
    destruct i as [|[|[|i]]]; simpl in Hs; try done; try lia;
    injection Hs as ->; simpl; unfold bind, ret; simpl;
    repeat (case_decide; simpl; try done).
Qed.

(** The source at position [i] of the list, as the script calls it. *)
Definition call_source (m : Model) (i : nat) : M World unit :=
  match i with
  | 0 => infer_uploaded_image confidence m
  | 1 => infer_uploaded_video fuel confidence m
  | 2 => infer_uploaded_webcam fuel confidence m
  | _ => st_error SOURCE_ERROR
  end.

(** With no source listed twice, the selected position decides the call. *)
Lemma dispatch_NoDup m i s w :
  NoDup (SOURCES_LIST config) → SOURCES_LIST config !! i = Some s →
  dispatch fuel confidence (Some m) (Some s) w = call_source m i w.
Proof.
  intros Hnd Hs.
  destruct (SOURCES_LIST config) as [|s0 [|s1 [|s2 l]]] eqn:Hl;
    destruct i as [|[|[|i]]]; simplify_eq/=;
    repeat (apply NoDup_cons in Hnd as [? Hnd]);
    try apply list_elem_of_lookup_2 in Hs.
  all: first [ by eapply dispatch_first
             | eapply dispatch_second; [done|set_solver]
             | eapply dispatch_third; [done|set_solver..]
             | eapply (dispatch_other _ s); [done|set_solver..] ].
Qed.

(** Every way through the dispatch: an index out of range, the name
    [model] unbound, the last branch, or one of the three sources. *)
Lemma dispatch_cases model src w :
  dispatch fuel confidence model src w = (Raise IndexError, w) ∧
    length (SOURCES_LIST config) < 3 ∨
  dispatch fuel confidence model src w = (Raise (NameError "model"), w) ∧
    model = None ∨
  dispatch fuel confidence model src w = st_error SOURCE_ERROR w ∨
  ∃ m, model = Some m ∧
    (dispatch fuel confidence model src w = infer_uploaded_image confidence m w ∨
     dispatch fuel confidence model src w =
       infer_uploaded_video fuel confidence m w ∨
     dispatch fuel confidence model src w =
       infer_uploaded_webcam fuel confidence m w).
Proof.
  unfold dispatch, py_index.
  destruct (SOURCES_LIST config) as [|s0 [|s1 [|s2 l]]], model as [m|];
    simpl; unfold bind, ret, raise; simpl;
    repeat (case_decide; simpl); eauto 8 with lia.
Qed.

(** The dispatch ends when the sources do. *)
Lemma dispatch_terminates model src w :
  (∀ m, terminated (infer_uploaded_image confidence m w).1) →
  (∀ m, terminated (infer_uploaded_video fuel confidence m w).1) →
  (∀ m, terminated (infer_uploaded_webcam fuel confidence m w).1) →
  terminated (dispatch fuel confidence model src w).1.
Proof.
  intros Hi Hv Hw.
  destruct (dispatch_cases model src w)
    as [[-> _] | [[-> _] | [-> | (m & _ & [-> | [-> | ->]])]]]; auto; done.
Qed.

(** An exception that leaves the dispatch is its own [IndexError] or
    [NameError], or one that left the image source. *)
Lemma dispatch_raises model src w e :
  (dispatch fuel confidence model src w).1 = Raise e →
  e = IndexError ∧ length (SOURCES_LIST config) < 3 ∨
  e = NameError "model" ∧ model = None ∨
  ∃ m, model = Some m ∧ (infer_uploaded_image confidence m w).1 = Raise e.
Proof.
  destruct (dispatch_cases model src w)
    as [[-> ?] | [[-> ?] | [-> | (m & ? & [-> | [-> | ->]])]]]; cbn [fst].
  - intros [= <-]. auto.
  - intros [= <-]. auto.
  - done.
  - eauto.
  - intros He. by destruct (video_never_raises fuel confidence m w e).
  - intros He. by destruct (webcam_never_raises fuel confidence m w e).
Qed.

Lemma dispatch_keeps_loader model src :
  keeps_loader (dispatch fuel confidence model src).
Proof.
  unfold dispatch. keeps_loader_tac;
    auto using image_keeps_loader, video_keeps_loader, webcam_keeps_loader.
Qed.

End Dispatch.

(** After the call of the source the loader's state is as before it. *)
Lemma main_loader_state fuel w :
  cache (main fuel w).2 = cache (ready w).2 ∧
  models (main fuel w).2 = models (ready w).2.
Proof. rewrite main_ready. apply keeps_loader_eq, dispatch_keeps_loader. Qed.

(** A run of the script keeps the cache consistent. *)
Lemma main_cache_ok fuel w : cache_ok w → cache_ok (main fuel w).2.
Proof.
  intros Hok. destruct (main_loader_state fuel w) as [Hc Hm].
  by eapply cache_ok_loader_only, ready_cache_ok.
Qed.

Lemma sidebar_page_errors w p :
  error_reports (sidebar_page w p) =
  error_reports p ++ (if truthy (chosen_model w) then [] else [NO_MODEL_ERROR]).
Proof.
  unfold sidebar_page. destruct (truthy (chosen_model w));
    autorewrite with py; by rewrite !app_nil_r.
Qed.

Lemma source_page_errors p : error_reports (source_page p) = error_reports p.
Proof. unfold source_page. autorewrite with py. by rewrite !app_nil_r. Qed.

(** ** The session as a whole *)

(** C10: when the chosen weights do not load (and are not cached), the run
    reports the failure and goes on to the dispatch with the name [model]
    unbound: for each of the three sources the call raises [NameError],
    which ends the run; no source is entered, nothing is inferred, no
    capture is opened and nothing is cached. *)
Theorem failed_load_raises_NameError fuel w e i s :
  cache w !! chosen_path w = None → yolo_load (chosen_path w) = Some e →
  chosen_source w = Some s → SOURCES_LIST config !! i = Some s → i < 3 →
  let out := main fuel w in
  out.1 = Raise (NameError "model") ∧
  error_reports (page out.2) =
    error_reports (page w) ++
    (if truthy (chosen_model w) then [] else [NO_MODEL_ERROR]) ++
    [LOAD_ERROR_PREFIX +:+ chosen_path w] ∧
  inferences out.2 = inferences w ∧ caps out.2 = caps w ∧
  models out.2 = models w ∧ cache out.2 = cache w.
Proof.
  intros Hc Hl Hsrc Hs Hi. cbv zeta.
  rewrite (main_load_failed _ _ e Hc Hl), Hsrc.
  rewrite (dispatch_unbound _ _ i s _ Hs Hi); cbn [fst snd].
  repeat split. unfold ready_failed, load_error_page; wsimpl.
  rewrite source_page_errors, error_reports_emit, sidebar_page_errors.
  by rewrite <- app_assoc.
Qed.

(** C11: with no source listed twice, a run whose model is bound calls
    exactly the source at the selected position of [SOURCES_LIST]: the
    image source for the first, the video source for the second, the camera
    source for the third, and the error box for any further one; it is
    called with the confidence of the slider, in the world where the
    sidebar is drawn, and with a model of the chosen weights. *)
Theorem main_calls_selected_source fuel w m :
  NoDup (SOURCES_LIST config) → SOURCES_LIST config ≠ [] →
  cache_ok w → (ready w).1 = Some m →
  main fuel w =
    call_source fuel (chosen_confidence w) m
      (selected_index (inputs w) SOURCE_LABEL (SOURCES_LIST config))
      (ready w).2 ∧
  model_path m = chosen_path w.
Proof.
  intros Hnd Hne Hok Hm. split; [|by apply ready_model_path].
  rewrite main_ready, Hm.
  destruct (selected_elem (inputs w) SOURCE_LABEL _ Hne) as (s & Hs & _).
  unfold chosen_source. rewrite Hs. by apply dispatch_NoDup.
Qed.

(** C33: the confidence handed to the sources is the slider's position
    divided by 100, and lies between 0.30 and 1.00 whatever the widget
    state. *)
Theorem confidence_in_range w :
  (sidebar_confidence w).1 = Ok (chosen_confidence w) ∧
  (3 # 10 <= chosen_confidence w)%Q ∧ (chosen_confidence w <= 1)%Q.
Proof.
  split; [done|]. unfold chosen_confidence.
  pose proof (slid_bounds (inputs w) CONF_LABEL 30 100 50) as Hb.
  unfold Qle; simpl. lia.
Qed.

(** C38: with an empty [SOURCES_LIST] every run ends in [IndexError], raised
    by the first comparison of the dispatch, after the model was loaded. *)
Theorem no_sources_IndexError fuel w :
  SOURCES_LIST config = [] →
  main fuel w = (Raise IndexError, (ready w).2).
Proof. intros Hs. rewrite main_ready. by apply dispatch_no_sources. Qed.

(** A run of the script keeps the cache of models consistent: every
    cached handle is the model built from its path, and no weights file is
    loaded twice, whatever the source does and however it ends. *)
Theorem main_preserves_cache_ok fuel w :
  cache_ok w → cache_ok (main fuel w).2 ∧ NoDup (models (main fuel w).2).
Proof.
  intros Hok. pose proof (main_cache_ok fuel w Hok) as Hok'.
  split; [done | by apply cache_ok_NoDup].
Qed.

(** C24: once a run has loaded the chosen weights, a later run of the same
    process that chooses the same weights builds no model: it is handed
    the cached handle, from whatever widget state and for any source. *)
Theorem rerun_reuses_model fuel fuel' w i' :
  cache w !! chosen_path w = None → yolo_load (chosen_path w) = None →
  let w1 := (main fuel w).2 in
  let w2 := start_run i' w1 in
  chosen_path w2 = chosen_path w →
  (ready w2).1 = Some (new_model w) ∧
  models (main fuel' w2).2 = models w1 ∧
  models w1 = models w ++ [chosen_path w].
Proof.
  intros Hc Hl. cbv zeta. intros Hp.
  destruct (main_loader_state fuel w) as [Hc1 Hm1].
  unfold ready in Hc1, Hm1. rewrite Hc, Hl in Hc1, Hm1.
  unfold ready_loaded in Hc1, Hm1. wsimpl.
  set (w2 := start_run i' (main fuel w).2) in *.
  assert (cache w2 !! chosen_path w2 = Some (new_model w)) as Hhit.
  { rewrite Hp. unfold w2, start_run; wsimpl.
    by rewrite Hc1, lookup_insert_eq. }
  destruct (main_loader_state fuel' w2) as [_ Hm2].
  unfold ready in *. rewrite Hhit in *. done.
Qed.

(** The script is the setup followed by the session. *)
Lemma script_ok fuel data w :
  fs_read BACKGROUND_PATH = inr data →
  script fuel w = main fuel (with_page (setup_page data) w).
Proof.
  intros Hr. unfold script. by erewrite bind_ok by by apply page_setup_ok.
Qed.

(** When the model is bound, the world at the dispatch differs from the
    one the run started in by the sidebar and, after a load, by the loader's
    state. *)
Lemma ready_bound w m :
  (ready w).1 = Some m →
  inputs (ready w).2 = inputs w ∧ caps (ready w).2 = caps w ∧
  inferences (ready w).2 = inferences w ∧ camera (ready w).2 = camera w ∧
  error_reports (page (ready w).2) =
    error_reports (page w) ++
    (if truthy (chosen_model w) then [] else [NO_MODEL_ERROR]).
Proof.
  unfold ready. destruct (cache w !! chosen_path w);
    [|destruct (yolo_load (chosen_path w)); [done|]];
    intros _; split_and!; try done;
    unfold ready_cached, ready_loaded; wsimpl;
    by rewrite source_page_errors, sidebar_page_errors.
Qed.

(** Weights that load, or are cached, leave the model bound. *)
Lemma ready_loads w :
  cache_ok w → yolo_load (chosen_path w) = None → ∃ m, (ready w).1 = Some m.
Proof.
  intros Hok Hl. unfold ready.
  destruct (cache w !! chosen_path w) as [m|]; [by exists m|].
  rewrite Hl. by eexists.
Qed.

(** Neither the widgets nor the camera change before the dispatch. *)
Lemma ready_env w :
  inputs (ready w).2 = inputs w ∧ camera (ready w).2 = camera w.
Proof. unfold ready. by repeat case_match. Qed.

(** The name [model] is unbound only after a load that failed. *)
Lemma ready_unbound w :
  (ready w).1 = None →
  cache w !! chosen_path w = None ∧ is_Some (yolo_load (chosen_path w)).
Proof. unfold ready. by repeat case_match. Qed.

(** The script is its setup, then [main]; it ends at the setup only when
    the background picture cannot be read. *)
Lemma script_cases fuel w :
  (∃ e, fs_read BACKGROUND_PATH = inl e ∧ script fuel w = (Raise e, w)) ∨
  (∃ data, fs_read BACKGROUND_PATH = inr data ∧
     script fuel w = main fuel (with_page (setup_page data) w)).
Proof.
  destruct (fs_read BACKGROUND_PATH) as [e|data] eqn:Hr.
  - left. exists e. split; [done|]. unfold script.
    by erewrite bind_raise by by apply page_setup_raises.
  - right. exists data. split; [done | by apply script_ok].
Qed.

Lemma script_cache_ok fuel w : cache_ok w → cache_ok (script fuel w).2.
Proof.
  intros Hok. unfold script, bind.
  pose proof (keeps_loader_eq page_setup w page_setup_keeps_loader) as [Hc Hm].
  destruct (page_setup w) as [[[]|e|] w1] eqn:Hs; simpl in *.
  - apply main_cache_ok. by eapply cache_ok_loader_only.
  - by eapply cache_ok_loader_only.
  - by eapply cache_ok_loader_only.
Qed.

(** C17: the whole script ends.  With fuel for the uploaded video (one
    more than it has frames) and for the camera (a read that fails within
    the fuel, or the stop button clicked), a run of the script never runs
    out of fuel, whatever the widgets select, whether the model loads and
    however the source ends. *)
Theorem script_terminates fuel w :
  video_fuel w ≤ fuel → webcam_ends_within fuel w →
  terminated (script fuel w).1.
Proof.
  intros Hv Hc.
  destruct (script_cases fuel w) as [(e & _ & ->) | (data & _ & ->)]; [done|].
  rewrite main_ready.
  set (w1 := with_page (setup_page data) w).
  destruct (ready_env w1) as [Hin Hcam].
  apply dispatch_terminates; intros m.
  - apply image_terminates.
  - apply video_terminates. unfold video_fuel. by rewrite Hin.
  - apply webcam_terminates. unfold webcam_ends_within, camera_fails_at.
    by rewrite Hin, Hcam.
Qed.

(** C16: the exceptions that end a run of the script.  An exception leaves
    the script only at one of four places: the read of the background
    picture; an index into a source list of fewer than three entries; the
    name [model], unbound after a load that failed; and, in the image
    source, [Image.open] and the detector.  Nothing that the video and the
    camera source do can end the run with an exception. *)
Theorem script_raises_only fuel w e :
  (script fuel w).1 = Raise e →
  fs_read BACKGROUND_PATH = inl e ∨
  (e = IndexError ∧ length (SOURCES_LIST config) < 3) ∨
  (e = NameError "model" ∧ cache w !! chosen_path w = None ∧
   is_Some (yolo_load (chosen_path w))) ∨
  (∃ f, uploaded (inputs w) IMAGE_UPLOAD_LABEL IMAGE_TYPES = Some f ∧
     (pil_open f = inl e ∨
      ∃ m im, pil_open f = inr im ∧
              yolo_predict (model_path m) im (chosen_confidence w) = inl e)).
Proof.
  destruct (script_cases fuel w) as [(e' & Hr & ->) | (data & _ & ->)];
    [by intros [= <-]; left|].
  rewrite main_ready.
  set (w1 := with_page (setup_page data) w).
  destruct (ready_env w1) as [Hin _]. intros He.
  apply dispatch_raises in He as [? | [[-> Hm] | (m & _ & He)]]; [by auto | |].
  - right; right; left. split; [done|]. by apply (ready_unbound w1).
  - right; right; right.
    apply image_raises_only_library in He as (f & Hf & He).
    rewrite Hin in Hf. exists f. split; [done|].
    destruct He as [? | (im & ? & ?)]; eauto.
Qed.

(** C5: the whole script on a video, end to end.  With the background
    picture readable, the chosen weights cached or loading, the second of
    the listed sources selected, a video of N decodable frames uploaded,
    the start button clicked and every frame inferring, a run of the
    script with fuel above N ends normally: it made exactly the N detector
    calls, in order, with the slider's confidence and a model of the
    chosen weights; it opened one capture, which ends advanced by N frames
    and released exactly once; it reported no error (beyond that of an
    empty model list); and it left the cache of models consistent. *)
Theorem script_plays_video fuel w data f frames grs m :
  fs_read BACKGROUND_PATH = inr data →
  NoDup (SOURCES_LIST config) →
  selected_index (inputs w) SOURCE_LABEL (SOURCES_LIST config) = 1 →
  SOURCES_LIST config ≠ [] →
  cache_ok w →
  (ready (with_page (setup_page data) w)).1 = Some m →
  in_upload (inputs w) VIDEO_UPLOAD_LABEL = Some f →
  clicked (inputs w) START_LABEL = true →
  cv2_decode (up_data f) = Some frames →
  Forall2 (infers (chosen_confidence w) m) frames grs →
  length frames < fuel →
  let out := script fuel w in
  out.1 = Ok tt ∧
  inferences out.2 =
    inferences w ++ ((λ gr, (m, gr.1, chosen_confidence w)) <$> grs) ∧
  (∃ c, caps out.2 = caps w ++ [c] ∧ cap_opened c = false ∧
        cap_releases c = 1 ∧ cap_pos c = length frames) ∧
  error_reports (page out.2) =
    error_reports (page w) ++
    (if truthy (chosen_model w) then [] else [NO_MODEL_ERROR]) ∧
  cache_ok out.2 ∧ model_path m = chosen_path w.
Proof.
  intros Hr Hnd Hsel Hne Hok Hm Hup Hclick Hdec Hinf Hfuel. cbv zeta.
  set (w0 := with_page (setup_page data) w) in *.
  assert (cache_ok w0) as Hok0 by (by eapply cache_ok_loader_only).
  destruct (ready_bound w0 m Hm) as (Hi & Hc & Hin & _ & He).
  pose proof (script_cache_ok fuel w Hok) as Hok'.
  destruct (selected_elem (inputs w) SOURCE_LABEL _ Hne) as (s & Hs & _).
  assert (SOURCES_LIST config !! 1 = Some s) as Hs1
    by (unfold selected in Hs; by rewrite <- Hsel).
  split_and!; [..|done|by apply (ready_model_path w0)].
  all: rewrite (script_ok fuel data w Hr); fold w0; rewrite main_ready, Hm.
  all: unfold chosen_source; change (inputs w0) with (inputs w); rewrite Hs.
  all: rewrite (dispatch_NoDup _ _ m 1 s) by done; simpl.
  all: rewrite (video_plays fuel (chosen_confidence w0) m (ready w0).2 f
                  frames grs) by (by rewrite ?Hi); cbn [fst snd].
  - done.
  - by rewrite video_done_inferences, video_widgets_inferences, Hin.
  - rewrite video_done_caps, video_widgets_caps, Hc. eexists. split; [done|].
    rewrite (video_capture_decoded f frames Hdec); simpl.
    by rewrite Nat.add_0_r.
  - rewrite video_done_errors, video_widgets_errors, He.
    unfold w0, setup_page; wsimpl. autorewrite with py.
    by rewrite ?app_nil_r.
Qed.

(** When the background picture cannot be read, the run ends at line
    18 with the exception of [open]: nothing is drawn, no widget is read,
    no model is loaded and no source is called. *)
Theorem missing_background_ends_run fuel e w :
  fs_read BACKGROUND_PATH = inl e → script fuel w = (Raise e, w).
Proof.
  intros Hr. unfold script.
  by erewrite bind_raise by by apply page_setup_raises.
Qed.

(** The branch of the script for a task other than detection cannot
    be reached: the task selectbox has one option, so the model selectbox
    is always drawn and no error is reported there. *)
Theorem task_error_unreachable w :
  sidebar_model w =
  (Ok (chosen_model w),
   with_page
     (λ p, page_emit_in Sidebar
             (Selectbox MODEL_LABEL (DETECTION_MODEL_LIST config))
             (page_emit_in Sidebar (Selectbox TASK_LABEL [TASK_DETECT]) p))
     w) ∧
  error_reports (page (sidebar_model w).2) = error_reports (page w).
Proof.
  assert (sidebar_model w =
    (Ok (chosen_model w),
     with_page
       (λ p, page_emit_in Sidebar
               (Selectbox MODEL_LABEL (DETECTION_MODEL_LIST config))
               (page_emit_in Sidebar (Selectbox TASK_LABEL [TASK_DETECT]) p))
       w)) as Hrun.
  { unfold sidebar_model. unfold st_sidebar_selectbox at 1.
    unfold st_sidebar_emit at 1. unfold bind at 1 2, gets, modify; wsimpl.
    by rewrite task_selected, decide_True by done. }
  split; [done|]. rewrite Hrun; wsimpl. autorewrite with py.
  by rewrite !app_nil_r.
Qed.

End App.

(** ** The theorems on concrete inputs *)

(** The configuration of the repository: two weights files, three sources. *)
Definition demo_config : Config :=
  {| DETECTION_MODEL_DIR := "weights/detection";
     DETECTION_MODEL_LIST := ["yolov8n.pt"; "yolov8s.pt"];
     SOURCES_LIST := ["图片"; "视频"; "摄像头"] |}.

(** The same without any weights file, and without any source. *)
Definition no_model_config : Config :=
  {| DETECTION_MODEL_DIR := "weights/detection";
     DETECTION_MODEL_LIST := [];
     SOURCES_LIST := ["图片"; "视频"; "摄像头"] |}.

Definition no_source_config : Config :=
  {| DETECTION_MODEL_DIR := "weights/detection";
     DETECTION_MODEL_LIST := ["yolov8n.pt"; "yolov8s.pt"];
     SOURCES_LIST := [] |}.

(** Widget values: the source at position [source] is selected, the first
    model, the slider untouched. *)
Definition app_inputs (source : nat) (upload_label : string)
  (f : option Upload) (click : option string) : Inputs :=
  {| in_select := λ l, if decide (l = SOURCE_LABEL) then source else 0;
     in_slider := λ _, None;
     in_upload := λ l, if decide (l = upload_label) then f else None;
     in_clicked := click |}.

(** A fresh process with a camera, the video source selected, the demo
    video uploaded and the start button clicked. *)
Definition app_demo_world : World :=
  fresh_world
    (app_inputs 1 VIDEO_UPLOAD_LABEL (Some demo_video) (Some START_LABEL))
    (Some demo_camera).

Lemma failed_load_raises_NameError_witness :
  let out := main (H := stub_backend) no_model_config 11 app_demo_world in
  out.1 = Raise (NameError "model") ∧
  error_reports (page out.2) =
    [] ++ [NO_MODEL_ERROR] ++ [LOAD_ERROR_PREFIX +:+ ""] ∧
  inferences out.2 = [] ∧ caps out.2 = [] ∧ models out.2 = [] ∧
  cache out.2 = ∅.
Proof.
  refine (failed_load_raises_NameError (H := stub_backend) no_model_config 11
            app_demo_world (LibraryError "no such model") 1 "视频" _ _ _ _ _);
    [reflexivity | reflexivity | reflexivity | reflexivity | lia].
Defined.

Lemma main_calls_selected_source_witness :
  main (H := stub_backend) demo_config 11 app_demo_world =
    infer_uploaded_video (H := stub_backend) 11
      (chosen_confidence app_demo_world)
      (new_model demo_config app_demo_world)
      (ready (H := stub_backend) demo_config app_demo_world).2 ∧
  model_path (new_model demo_config app_demo_world) =
    "weights/detection/yolov8n.pt".
Proof.
  refine (main_calls_selected_source (H := stub_backend) demo_config 11
            app_demo_world (new_model demo_config app_demo_world) _ _ _ _);
    [by apply (bool_decide_unpack _) | done | apply cache_ok_fresh |
     reflexivity].
Defined.

Lemma no_sources_IndexError_witness :
  main (H := stub_backend) no_source_config 11 app_demo_world =
  (Raise IndexError,
   (ready (H := stub_backend) no_source_config app_demo_world).2).
Proof.
  exact (no_sources_IndexError (H := stub_backend) no_source_config 11
           app_demo_world eq_refl).
Defined.

Lemma main_preserves_cache_ok_witness :
  cache_ok (H := stub_backend)
    (main (H := stub_backend) demo_config 11 app_demo_world).2 ∧
  NoDup (models (main (H := stub_backend) demo_config 11 app_demo_world).2).
Proof.
  exact (main_preserves_cache_ok (H := stub_backend) demo_config 11
           app_demo_world (cache_ok_fresh _ _)).
Defined.

Lemma rerun_reuses_model_witness :
  let w1 := (main (H := stub_backend) demo_config 11 app_demo_world).2 in
  let w2 := start_run (app_inputs 0 IMAGE_UPLOAD_LABEL None None) w1 in
  (ready (H := stub_backend) demo_config w2).1 =
    Some (new_model demo_config app_demo_world) ∧
  models (main (H := stub_backend) demo_config 0 w2).2 = models w1 ∧
  models w1 = [] ++ ["weights/detection/yolov8n.pt"].
Proof.
  refine (rerun_reuses_model (H := stub_backend) demo_config 11 0
            app_demo_world (app_inputs 0 IMAGE_UPLOAD_LABEL None None)
            _ _ _); reflexivity.
Defined.

(** A repository without the background picture: the reference backend
    with an empty file system. *)
Definition no_files_backend : Backend :=
  {| yolo_load := stub_load; yolo_predict := stub_predict;
     cv2_resize := stub_resize; cv2_decode := stub_decode;
     pil_open := stub_open; tensor_str := stub_tensor_str;
     fs_read := λ path, inl (FileNotFoundError path);
     yolo_predict_conf := stub_predict_conf;
     cv2_resize_shape := stub_resize_shape |}.

Lemma missing_background_ends_run_witness :
  script (H := no_files_backend) demo_config 11 app_demo_world =
  (Raise (FileNotFoundError BACKGROUND_PATH), app_demo_world).
Proof.
  exact (missing_background_ends_run (H := no_files_backend) demo_config 11
           (FileNotFoundError BACKGROUND_PATH) app_demo_world eq_refl).
Defined.

Lemma script_terminates_witness :
  terminated (script (H := stub_backend) demo_config 11 app_demo_world).1.
Proof.
  refine (script_terminates (H := stub_backend) demo_config 11 app_demo_world
            _ _).
  - vm_compute. lia.
  - right. exists 3. split; [lia | reflexivity].
Defined.

Lemma script_raises_only_witness :
  fs_read (Backend := stub_backend) BACKGROUND_PATH =
    inl (NameError "model") ∨
  (NameError "model" = IndexError ∧ length (SOURCES_LIST no_model_config) < 3) ∨
  (NameError "model" = NameError "model" ∧
   cache app_demo_world !! chosen_path no_model_config app_demo_world = None ∧
   is_Some (yolo_load (Backend := stub_backend)
              (chosen_path no_model_config app_demo_world))) ∨
  (∃ f, uploaded (inputs app_demo_world) IMAGE_UPLOAD_LABEL IMAGE_TYPES =
          Some f ∧
     (pil_open (Backend := stub_backend) f = inl (NameError "model") ∨
      ∃ m im, pil_open (Backend := stub_backend) f = inr im ∧
              yolo_predict (Backend := stub_backend) (model_path m) im
                (chosen_confidence app_demo_world) =
                inl (NameError "model"))).
Proof.
  exact (script_raises_only (H := stub_backend) no_model_config 11
           app_demo_world (NameError "model") eq_refl).
Defined.

(** What the reference backend infers for the frames of the demo video at
    the confidence of the untouched slider. *)
Definition app_demo_results : list (Image * Results) :=
  demo_result_at (chosen_confidence app_demo_world) <$> demo_frames.

Lemma script_plays_video_witness :
  let out := script (H := stub_backend) demo_config 11 app_demo_world in
  out.1 = Ok tt ∧
  inferences out.2 =
    inferences app_demo_world ++
    ((λ gr, (new_model demo_config app_demo_world, gr.1,
             chosen_confidence app_demo_world)) <$> app_demo_results) ∧
  (∃ c, caps out.2 = caps app_demo_world ++ [c] ∧ cap_opened c = false ∧
        cap_releases c = 1 ∧ cap_pos c = length demo_frames) ∧
  error_reports (page out.2) =
    error_reports (page app_demo_world) ++
    (if truthy (chosen_model demo_config app_demo_world) then []
     else [NO_MODEL_ERROR]) ∧
  cache_ok (H := stub_backend) out.2 ∧
  model_path (new_model demo_config app_demo_world) =
    chosen_path demo_config app_demo_world.
Proof.
  refine (script_plays_video (H := stub_backend) demo_config 11 app_demo_world
            stub_background demo_video demo_frames app_demo_results
            (new_model demo_config app_demo_world) _ _ _ _ _ _ _ _ _ _ _);
    [reflexivity | by apply (bool_decide_unpack _) | reflexivity | done |
     apply cache_ok_fresh | reflexivity | reflexivity | reflexivity |
     reflexivity | apply stub_frames_infer; by repeat constructor |
     simpl; lia].
Defined.
