(* ===== verification/Session.v ===== *)
(** * Sessions

    A Streamlit process runs the script once for every user action: the
    widget values of the action replace the old ones, the page is rebuilt,
    and the cache of models is what the run before left.  [rerun] is one
    such run of [script], [session] a sequence of them.  The logs of the
    world (captures made, calls of [release()], detector calls, models
    built) go on through a session, so that the theorems can count over
    it: the models built, and the captures on which the code never called
    [release()].  The objects themselves are locals of a run; what their
    destructors free when they are collected is not modelled. *)

From Stdlib Require Import ZArith QArith Lia.
From stdpp Require Import base option list strings gmap.
From S2P Require Import Prelude Image Streamlit Backend Capture World.
From S2P Require Import Inference Demo ModelLoader FrameLoop Video Webcam.
From S2P Require Import ImageSource Base64 PageSetup App.
Close Scope Q_scope.

Section Session.
Context `{Backend} (config : Config).
Implicit Types (w : World) (i : Inputs) (runs : list Inputs).

(** ** Runs of the script in one process *)

(** The run that the widget values [i] start. *)
Definition rerun (fuel : nat) (i : Inputs) (w : World) : World :=
  (script config fuel (start_run i w)).2.

(** The runs of a session, in order. *)
Definition session (fuel : nat) (runs : list Inputs) (w : World) : World :=
  foldl (λ w i, rerun fuel i w) w runs.

(** A click on the stop button while the camera source is selected, with
    weights that load. *)
Definition stops_camera (i : Inputs) : Prop :=
  selected_index i SOURCE_LABEL (SOURCES_LIST config) = 2 ∧
  clicked i STOP_LABEL = true ∧
  ∀ w, yolo_load (chosen_path config (start_run i w)) = None.

(** ** Facts *)

Lemma session_nil fuel w : session fuel [] w = w.
Proof. reflexivity. Qed.

Lemma session_cons fuel i runs w :
  session fuel (i :: runs) w = session fuel runs (rerun fuel i w).
Proof. reflexivity. Qed.

Lemma session_app fuel runs1 runs2 w :
  session fuel (runs1 ++ runs2) w = session fuel runs2 (session fuel runs1 w).
Proof. apply foldl_app. Qed.

Lemma start_run_cache_ok i w : cache_ok w → cache_ok (start_run i w).
Proof. by apply cache_ok_loader_only. Qed.

(** Every run keeps the cache consistent. *)
Lemma rerun_cache_ok fuel i w : cache_ok w → cache_ok (rerun fuel i w).
Proof. intros Hok. by apply script_cache_ok, start_run_cache_ok. Qed.

(** What every run keeps, the session keeps. *)
Lemma session_ind (I : World → Prop) fuel runs w :
  (∀ i w, I w → I (rerun fuel i w)) → I w → I (session fuel runs w).
Proof.
  intros Hrun. revert w. induction runs as [|i runs IH]; intros w Hw; [done|].
  rewrite session_cons. by apply IH, Hrun.
Qed.

Lemma session_cache_ok fuel runs w : cache_ok w → cache_ok (session fuel runs w).
Proof. apply session_ind. intros i w'. apply rerun_cache_ok. Qed.

(** C25: the models of a process are loaded once: after any runs of the
    script, whatever the widgets hold in each and however each ends, the
    cache is consistent (every cached handle is the model built from the
    path it is stored under) and no weights file was built twice. *)
Theorem session_preserves_cache_ok fuel runs w :
  cache_ok w →
  cache_ok (session fuel runs w) ∧ NoDup (models (session fuel runs w)).
Proof.
  intros Hok. pose proof (session_cache_ok fuel runs w Hok) as Hok'.
  split; [done | by apply cache_ok_NoDup].
Qed.

Section StopRun.
Context (data : list Z).
Hypothesis background : fs_read BACKGROUND_PATH = inr data.
Hypothesis sources : NoDup (SOURCES_LIST config).
Hypothesis listed : SOURCES_LIST config ≠ [].

(** One stop: the run opens the camera once more, neither reads nor
    releases it, and leaves everything else the process holds as it was. *)
Lemma rerun_stop fuel i w :
  cache_ok w → stops_camera i →
  caps (rerun fuel i w) = caps w ++ [capture_new (camera w)] ∧
  camera (rerun fuel i w) = camera w ∧
  inferences (rerun fuel i w) = inferences w.
Proof.
  intros Hok (Hsel & Hstop & Hload). unfold rerun.
  set (w0 := start_run i w).
  rewrite (script_ok config fuel data w0 background).
  set (w1 := with_page (setup_page data) w0).
  destruct (ready_loads config w1) as [m Hm];
    [by apply cache_ok_loader_only with w0, start_run_cache_ok | apply Hload |].
  destruct (ready_bound config w1 m Hm) as (Hi & Hc & Hin & Hcam & _).
  destruct (selected_elem i SOURCE_LABEL _ listed) as (s & Hs & _).
  assert (SOURCES_LIST config !! 2 = Some s) as Hs2
    by (unfold selected in Hs; by rewrite <- Hsel).
  rewrite main_ready, Hm. unfold chosen_source.
  change (inputs w1) with i. rewrite Hs.
  rewrite (dispatch_NoDup _ _ _ m 2 s) by done; simpl.
  rewrite webcam_stop_run by (by rewrite Hi); cbn [snd].
  unfold webcam_opened, webcam_capture; wsimpl.
  by rewrite Hc, Hin, Hcam.
Qed.

(** What the stops of a session leave: one more capture of the camera each. *)
Lemma session_stops fuel runs w :
  cache_ok w → Forall stops_camera runs →
  caps (session fuel runs w) =
    caps w ++ replicate (length runs) (capture_new (camera w)) ∧
  camera (session fuel runs w) = camera w ∧
  inferences (session fuel runs w) = inferences w.
Proof.
  revert w. induction runs as [|i runs IH]; intros w Hok Hruns.
  { by rewrite session_nil, app_nil_r. }
  apply Forall_cons in Hruns as [Hi Hruns]. rewrite session_cons.
  destruct (rerun_stop fuel i w Hok Hi) as (Hc & Hcam & Hin).
  destruct (IH (rerun fuel i w)) as (Hc' & Hcam' & Hin');
    [by apply rerun_cache_ok | done |].
  rewrite Hc', Hcam', Hin', Hc, Hcam, <- app_assoc. done.
Qed.

(** C12: the stop button of the camera source never releases the camera.
    With the background picture readable, the sources of the
    configuration distinct, and on a machine that has a camera, a session
    of [n] runs in each of which the camera source is selected, the stop
    button clicked and the chosen weights load, makes [n] captures of the
    camera and calls [release()] on none of them: [n] more captures are
    open at the end, no [release()] was called and nothing was
    inferred. *)
Theorem stops_accumulate_open_captures fuel runs w feed :
  cache_ok w → camera w = Some feed → Forall stops_camera runs →
  length (open_captures (session fuel runs w)) =
    length (open_captures w) + length runs ∧
  total_releases (session fuel runs w) = total_releases w ∧
  inferences (session fuel runs w) = inferences w.
Proof.
  intros Hok Hcam Hruns.
  destruct (session_stops fuel runs w Hok Hruns) as (Hc & _ & Hin).
  rewrite Hcam in Hc. split_and!; [| |done].
  - by rewrite (open_captures_app _ _ _ Hc), open_captures_replicate.
  - rewrite (total_releases_app _ _ _ Hc), total_releases_replicate. lia.
Qed.

End StopRun.

End Session.

(** ** The theorems at the demo application *)

(** The camera source selected and the stop button clicked. *)
Definition stop_click : Inputs := app_inputs 2 "" None (Some STOP_LABEL).

Lemma stops_camera_stop_click :
  stops_camera (H := stub_backend) demo_config stop_click.
Proof. by split_and!. Qed.

(** The video source selected, the demo video uploaded and the start
    button clicked. *)
Definition play_click : Inputs :=
  app_inputs 1 VIDEO_UPLOAD_LABEL (Some demo_video) (Some START_LABEL).

(** The image source selected, the demo picture uploaded and the start
    button clicked. *)
Definition image_click : Inputs :=
  app_inputs 0 IMAGE_UPLOAD_LABEL (Some demo_image) (Some START_LABEL).

(** A session of the demo application, run: each of the two stops leaves
    a camera capture open, the picture is inferred once, nothing is ever
    released, and the weights are built once for the three runs. *)
Example demo_session_runs :
  let w := session (H := stub_backend) demo_config 11
             [stop_click; image_click; stop_click] app_demo_world in
  length (caps w) = 2 ∧ length (open_captures w) = 2 ∧
  total_releases w = 0 ∧ length (inferences w) = 1 ∧
  models w = ["weights/detection/yolov8n.pt"].
Proof. vm_compute. by split_and!. Qed.

Lemma session_preserves_cache_ok_witness :
  cache_ok (H := stub_backend)
    (session (H := stub_backend) demo_config 11
       [stop_click; image_click; play_click] app_demo_world) ∧
  NoDup (models (session (H := stub_backend) demo_config 11
                   [stop_click; image_click; play_click] app_demo_world)).
Proof.
  exact (session_preserves_cache_ok (H := stub_backend) demo_config 11
           [stop_click; image_click; play_click] app_demo_world
           (cache_ok_fresh _ _)).
Defined.

Lemma stops_accumulate_open_captures_witness :
  length (open_captures
            (session (H := stub_backend) demo_config 11
               [stop_click; stop_click; stop_click] app_demo_world)) =
    length (open_captures app_demo_world) +
    length [stop_click; stop_click; stop_click] ∧
  total_releases
    (session (H := stub_backend) demo_config 11
       [stop_click; stop_click; stop_click] app_demo_world) =
    total_releases app_demo_world ∧
  inferences
    (session (H := stub_backend) demo_config 11
       [stop_click; stop_click; stop_click] app_demo_world) =
    inferences app_demo_world.
Proof.
  refine (stops_accumulate_open_captures (H := stub_backend) demo_config
            stub_background _ _ _ 11 [stop_click; stop_click; stop_click]
            app_demo_world demo_camera _ _ _);
    [reflexivity | by apply (bool_decide_unpack _) | done |
     apply cache_ok_fresh | reflexivity |
     repeat constructor; apply stops_camera_stop_click].
Defined.
